(** * Synchronisation and retrieval-augmented chat pipeline

    A shallow embedding of the backend's document store
    ([services/document_service.py]), chat engine
    ([services/chat_service.py], [services/ai_service.py]) and sync
    orchestrator ([api/integration_routes.py]), with the properties of
    the pipeline proved over it.

    The relational store is a record of tables; every service function is
    a computation in a state-and-exception monad over it, so that what a
    function has written before it raises is still there afterwards, as
    with the ORM session of the source; a statement that the store
    refuses writes nothing and leaves the session unusable until it is
    rolled back.  The collaborators the backend only calls (content
    sources, embedding and completion clients, the vector index,
    [hashlib]) are fields of an environment record. *)

From Stdlib Require Import ZArith List String Ascii Lia Bool.
From stdpp Require Import base option list gmap strings pretty.
Import ListNotations.
Local Open Scope string_scope.
Local Open Scope list_scope.
Local Open Scope Z_scope.

(** ** Python values *)

Module Py.

(** Exceptions that the modelled code raises or lets through. *)
Inductive exn : Type :=
| NoResultFound
| MultipleResultsFound (detail : string)
| IntegrityError (detail : string)
| KeyError (key : string)
| IndexError (detail : string)
| ValueError (detail : string)
| ZeroDivisionError
| HTTPException (status_code : Z) (detail : string)
| UpstreamError (detail : string)
| DBAPIError (detail : string)
| PendingRollbackError (detail : string).

(** [str(e)] *)
Definition str_exn (e : exn) : string :=
  match e with
  | NoResultFound => "No row was found when one was required"
  | MultipleResultsFound d => d
  | IntegrityError d => d
  | KeyError k => "'" +:+ k +:+ "'"
  | IndexError d => d
  | ValueError d => d
  | ZeroDivisionError => "division by zero"
  | HTTPException c d => pretty c +:+ ": " +:+ d
  | UpstreamError d => d
  | DBAPIError d => d
  | PendingRollbackError d => d
  end.

Inductive Result (A : Type) : Type :=
| Ok (a : A)
| Raise (e : exn).
Arguments Ok {A} a.
Arguments Raise {A} e.

(** Floats.  IEEE-754 arithmetic is not interpreted: a float is kept as
    the expression that produced it, and no property below relies on
    two different expressions being different floats. *)
Inductive pyfloat : Type :=
| float_of_int (z : Z)
| float_truediv (a b : Z)
| float_mul (x y : pyfloat)
| float_round (x : pyfloat) (ndigits : Z).

(** A number that is either an [int] or a [float], as the variable
    [percent] of [get_sync_progress] is. *)
Inductive pynum : Type :=
| PyInt (z : Z)
| PyFloat (x : pyfloat).

(** [a / b] on ints *)
Definition truediv (a b : Z) : Result pyfloat :=
  if b =? 0 then Raise ZeroDivisionError else Ok (float_truediv a b).

(** [x * k] with [x] a float and [k] an int *)
Definition mul_int (x : pyfloat) (k : Z) : pyfloat :=
  float_mul x (float_of_int k).

(** [round(x, ndigits)] for [ndigits >= 0]: an int is returned as it is *)
Definition round (x : pynum) (ndigits : Z) : pynum :=
  match x with
  | PyInt z => PyInt z
  | PyFloat f => PyFloat (float_round f ndigits)
  end.

(** Coercion of a number to a [float] field of a response model *)
Definition to_float (x : pynum) : pyfloat :=
  match x with
  | PyInt z => float_of_int z
  | PyFloat f => f
  end.

(** Truth value of an optional string: [None] and [""] are falsy. *)
Definition truthy (o : option string) : bool :=
  match o with
  | Some s => negb (String.eqb s "")
  | None => false
  end.

Definition len {A} (l : list A) : Z := Z.of_nat (length l).

(** [range(start, stop, step)] *)
Fixpoint range_from (fuel : nat) (i stop step : Z) : list Z :=
  match fuel with
  | O => []
  | S fuel' =>
      if (if 0 <? step then i <? stop else stop <? i)
      then i :: range_from fuel' (i + step) stop step
      else []
  end.

Definition range (start stop step : Z) : Result (list Z) :=
  if step =? 0 then Raise (ValueError "range() arg 3 must not be zero")
  else Ok (range_from (Z.to_nat (Z.abs (stop - start))) start stop step).

(** [l[lo:hi]] *)
Definition slice_index {A} (l : list A) (i : Z) : nat :=
  Z.to_nat (if i <? 0 then Z.max 0 (i + len l) else Z.min i (len l)).

Definition slice {A} (l : list A) (lo hi : Z) : list A :=
  let a := slice_index l lo in
  let b := slice_index l hi in
  firstn (b - a) (skipn a l).

(** [s[:n]] on a string (characters are bytes here) *)
Definition str_prefix (n : nat) (s : string) : string := substring 0 n s.

Definition newline : string := String "010"%char EmptyString.

(** [sep.join(parts)] *)
Definition join (sep : string) (parts : list string) : string :=
  String.concat sep parts.

(** [enumerate(l, start)] *)
Fixpoint enumerate {A} (l : list A) (start : Z) : list (Z * A) :=
  match l with
  | [] => []
  | x :: l' => (start, x) :: enumerate l' (start + 1)
  end.

(** [x or 0] for the nullable integer of an aggregate *)
Definition or_zero (x : option Z) : Z :=
  match x with
  | Some z => z
  | None => 0
  end.

End Py.
Export Py.

(** ** database/models.py *)

Definition UUID : Type := N.
Definition datetime : Type := Z.
Definition json : Type := string.

Inductive DocumentStatus : Type :=
| PENDING | PROCESSING | CLASSIFIED | INDEXED | FAILED.

Inductive ConnectorType : Type :=
| GOOGLE_DRIVE | GMAIL | SLACK | NOTION | ONEDRIVE | GITHUB | WEBSCRAPER
| EMAIL_FORWARDING.

#[global] Instance DocumentStatus_eq_dec : EqDecision DocumentStatus.
Proof. solve_decision. Defined.

#[global] Instance ConnectorType_eq_dec : EqDecision ConnectorType.
Proof. solve_decision. Defined.

(** [ConnectorType.value] *)
Definition connector_type_value (t : ConnectorType) : string :=
  match t with
  | GOOGLE_DRIVE => "google_drive"
  | GMAIL => "gmail"
  | SLACK => "slack"
  | NOTION => "notion"
  | ONEDRIVE => "onedrive"
  | GITHUB => "github"
  | WEBSCRAPER => "webscraper"
  | EMAIL_FORWARDING => "email_forwarding"
  end.

(** Rows of [connectors]; the timestamps the ORM maintains on its own
    ([created_at], [updated_at]) are left out, no code reads them. *)
Record Connector : Type := {
  conn_tenant_id : UUID;
  conn_connector_type : ConnectorType;
  conn_name : string;
  conn_credentials : json;
  conn_is_active : bool;
  conn_last_sync_at : option datetime;
  conn_sync_status : string;
  conn_sync_error : option string
}.

(** Rows of [documents]. *)
Record Document : Type := {
  doc_id : UUID;
  doc_tenant_id : UUID;
  doc_connector_id : option UUID;
  doc_external_id : option string;
  doc_title : string;
  doc_content : option string;
  doc_content_hash : option string;
  doc_source_url : option string;
  doc_mime_type : option string;
  doc_status : DocumentStatus;
  doc_classification : option string;
  doc_classification_confidence : option pyfloat;
  doc_project_id : option UUID;
  doc_metadata : json;
  doc_vector_id : option string;
  doc_is_indexed : bool;
  doc_created_at : datetime;
  doc_updated_at : datetime;
  doc_source_created_at : option datetime
}.

(** Rows of [chat_sessions] and [chat_messages]. *)
Record ChatSession : Type := {
  cs_tenant_id : UUID;
  cs_title : option string;
  cs_updated_at : datetime
}.

Record ChatMessage : Type := {
  msg_id : UUID;
  msg_session_id : UUID;
  msg_role : string;
  msg_content : string;
  msg_sources : option (list string);
  msg_created_at : datetime
}.

(** Rows of [sync_progress].  [connector_id] is indexed but not unique, so
    the table is a list of rows and a lookup by connector can find none,
    one or several. *)
Record SyncProgress : Type := {
  sp_connector_id : UUID;
  sp_status : string;
  sp_total_items : Z;
  sp_processed_items : Z;
  sp_indexed_items : Z;
  sp_failed_items : Z;
  sp_current_step : option string;
  sp_error_message : option string;
  sp_started_at : option datetime;
  sp_completed_at : option datetime
}.

(** ** The store, its observers and the environment *)

(** Arguments of one scheduled [run_sync_task]. *)
Record SyncTask : Type := {
  task_connector_id : UUID;
  task_connector_type : ConnectorType;
  task_credentials : json;
  task_tenant_id : UUID
}.

(** The [SELECT] statements of the services. *)
Inductive Query : Type :=
| select_connector_of_tenant (connector_id tenant_id : UUID)
| select_connector (connector_id : UUID)
| select_sync_progress (connector_id : UUID)
| select_documents_by_ids (ids : list UUID) (tenant_id : UUID)
| select_documents_by_external_ids (external_ids : list string)
    (connector_id : UUID)
| select_document_stats (tenant_id : UUID)
| select_chat_session (session_id : UUID)
| select_chat_messages (session_id : UUID) (limit : Z).

(** Calls that leave the process. *)
Inductive External : Type :=
| call_fetch_items
| call_embeddings_create (inputs : nat)
| call_index_upsert (vectors : nat)
| call_vector_search (query : string)
| call_chat_completion.

(** What a run does to the outside, in order: statements sent to the
    relational store (with the row count of those that write), commits,
    and calls to the collaborators.  A statement that the store refuses
    is not entered. *)
Inductive Event : Type :=
| SqlSelect (q : Query)
| SqlInsert (table : string) (rows : nat)
| SqlUpdateDocuments (ids : list UUID) (rowcount : Z)
| SqlDeleteDocuments (ids : list UUID) (tenant_id : UUID) (rowcount : Z)
| Commit
| Call (c : External).

(** The tables, the tasks that wait to be run, the clock, the id supply
    and the log; and whether the session in use has lost its transaction
    to a refused statement and waits for a rollback. *)
Record State : Type := {
  documents : list Document;
  connectors : gmap UUID Connector;
  sync_progress : list SyncProgress;
  chat_sessions : gmap UUID ChatSession;
  chat_messages : list ChatMessage;
  background_tasks : list SyncTask;
  clock : datetime;
  uuid_counter : N;
  log : list Event;
  pending_rollback : bool
}.

Definition set_documents (v : list Document) (s : State) : State :=
  {| documents := v; connectors := connectors s;
     sync_progress := sync_progress s; chat_sessions := chat_sessions s;
     chat_messages := chat_messages s;
     background_tasks := background_tasks s; clock := clock s;
     uuid_counter := uuid_counter s; log := log s;
     pending_rollback := pending_rollback s |}.

Definition set_connectors (v : gmap UUID Connector) (s : State) : State :=
  {| documents := documents s; connectors := v;
     sync_progress := sync_progress s; chat_sessions := chat_sessions s;
     chat_messages := chat_messages s;
     background_tasks := background_tasks s; clock := clock s;
     uuid_counter := uuid_counter s; log := log s;
     pending_rollback := pending_rollback s |}.

Definition set_sync_progress (v : list SyncProgress) (s : State) : State :=
  {| documents := documents s; connectors := connectors s;
     sync_progress := v; chat_sessions := chat_sessions s;
     chat_messages := chat_messages s;
     background_tasks := background_tasks s; clock := clock s;
     uuid_counter := uuid_counter s; log := log s;
     pending_rollback := pending_rollback s |}.

Definition set_chat_sessions (v : gmap UUID ChatSession) (s : State) : State :=
  {| documents := documents s; connectors := connectors s;
     sync_progress := sync_progress s; chat_sessions := v;
     chat_messages := chat_messages s;
     background_tasks := background_tasks s; clock := clock s;
     uuid_counter := uuid_counter s; log := log s;
     pending_rollback := pending_rollback s |}.

Definition set_chat_messages (v : list ChatMessage) (s : State) : State :=
  {| documents := documents s; connectors := connectors s;
     sync_progress := sync_progress s; chat_sessions := chat_sessions s;
     chat_messages := v;
     background_tasks := background_tasks s; clock := clock s;
     uuid_counter := uuid_counter s; log := log s;
     pending_rollback := pending_rollback s |}.

Definition set_background_tasks (v : list SyncTask) (s : State) : State :=
  {| documents := documents s; connectors := connectors s;
     sync_progress := sync_progress s; chat_sessions := chat_sessions s;
     chat_messages := chat_messages s;
     background_tasks := v; clock := clock s;
     uuid_counter := uuid_counter s; log := log s;
     pending_rollback := pending_rollback s |}.

Definition set_clock (v : datetime) (s : State) : State :=
  {| documents := documents s; connectors := connectors s;
     sync_progress := sync_progress s; chat_sessions := chat_sessions s;
     chat_messages := chat_messages s;
     background_tasks := background_tasks s; clock := v;
     uuid_counter := uuid_counter s; log := log s;
     pending_rollback := pending_rollback s |}.

Definition set_uuid_counter (v : N) (s : State) : State :=
  {| documents := documents s; connectors := connectors s;
     sync_progress := sync_progress s; chat_sessions := chat_sessions s;
     chat_messages := chat_messages s;
     background_tasks := background_tasks s; clock := clock s;
     uuid_counter := v; log := log s;
     pending_rollback := pending_rollback s |}.

Definition set_log (v : list Event) (s : State) : State :=
  {| documents := documents s; connectors := connectors s;
     sync_progress := sync_progress s; chat_sessions := chat_sessions s;
     chat_messages := chat_messages s;
     background_tasks := background_tasks s; clock := clock s;
     uuid_counter := uuid_counter s; log := v;
     pending_rollback := pending_rollback s |}.

Definition set_pending_rollback (v : bool) (s : State) : State :=
  {| documents := documents s; connectors := connectors s;
     sync_progress := sync_progress s; chat_sessions := chat_sessions s;
     chat_messages := chat_messages s;
     background_tasks := background_tasks s; clock := clock s;
     uuid_counter := uuid_counter s; log := log s;
     pending_rollback := v |}.

(** An item as a content source returns it; a field is [None] when the
    dict has no such key. *)
Record Item : Type := {
  item_title : option string;
  item_content : option string;
  item_external_id : option string;
  item_source_url : option string;
  item_metadata : option json
}.

(** A connector object and its class. *)
Record ConnectorInstance : Type := {
  fetch_items : Result (list Item)
}.

Record ConnectorClass : Type := {
  construct : json -> Result ConnectorInstance
}.

Definition embedding : Type := list pyfloat.

(** A vector as it is sent to the index, and a match as the index returns
    it (metadata values are strings, as the upsert writes them). *)
Record Vector : Type := {
  vec_id : string;
  vec_values : embedding;
  vec_tenant_id : string;
  vec_title : string;
  vec_content : string
}.

Record Match : Type := {
  match_id : string;
  match_score : pyfloat;
  match_metadata : gmap string string
}.

(** The dict [{"id": ..., "score": ..., **metadata}] that
    [VectorService.search] returns for a match, seen through the keys
    that are read from it; a field is [None] when the key is missing. *)
Record RetrievedDoc : Type := {
  rd_id : option string;
  rd_score : pyfloat;
  rd_title : option string;
  rd_content : option string
}.

(** A message of a completion request. *)
Record Turn : Type := {
  turn_role : string;
  turn_content : string
}.

(** The collaborators. *)
Record Env : Type := {
  sha256_hexdigest : string -> string;
  import_connector : ConnectorType -> Result ConnectorClass;
  embeddings_create : list string -> Result (list embedding);
  index_upsert : list Vector -> string -> Result unit;
  index_query : embedding -> Z -> string -> Result (list Match);
  chat_completions_create : list Turn -> Result string
}.

(** ** The monad of the services *)

Definition M (A : Type) : Type := State -> Result A * State.

#[global] Instance M_ret : MRet M := fun A (a : A) s => (Ok a, s).

#[global] Instance M_bind : MBind M := fun A B (f : A -> M B) (m : M A) s =>
  match m s with
  | (Ok a, s') => f a s'
  | (Raise e, s') => (Raise e, s')
  end.

Definition raise {A} (e : exn) : M A := fun s => (Raise e, s).

Definition lift {A} (r : Result A) : M A := fun s => (r, s).

Definition get_state : M State := fun s => (Ok s, s).

Definition modify (f : State -> State) : M unit := fun s => (Ok tt, f s).

Definition emit (e : Event) : M unit :=
  modify (fun s => set_log (log s ++ [e]) s).

(** [try: body / except Exception as e: handler e] *)
Definition try_except {A} (body : M A) (handler : exn -> M A) : M A :=
  fun s =>
    match body s with
    | (Ok a, s') => (Ok a, s')
    | (Raise e, s') => handler e s'
    end.

(** [datetime.utcnow()]: every reading is later than the one before. *)
Definition utcnow : M datetime :=
  fun s => (Ok (clock s), set_clock (clock s + 1) s).

(** [uuid.uuid4()], drawn from a supply. *)
Definition uuid4 : M UUID :=
  fun s => (Ok (uuid_counter s), set_uuid_counter (uuid_counter s + 1)%N s).

(** *** The session and what the store refuses

    A [String(n)] column holds at most [n] characters.  The store (the
    configured one is PostgreSQL) refuses a statement that would write a
    longer value, as it refuses one that breaks a key: nothing of the
    statement is written, the transaction of the session is lost (where
    that happens below, the session has written nothing since its last
    commit), and until a rollback the session raises on every statement
    it is given.  These are the refusals that are modelled.  The widths
    are checked where the value comes from a caller or from a content
    source; what the code itself writes into such columns (the names of
    the statuses, the step of a sync, the role of a message, the digest
    of a content) fits them.  Characters are bytes here. *)

Definition fits (width : nat) (v : string) : bool :=
  (String.length v <=? width)%nat.

Definition fits_opt (width : nat) (v : option string) : bool :=
  match v with
  | Some x => fits width x
  | None => true
  end.

(** The error of a statement that the store refuses for a value that is
    too long (the detail stands for the message of the driver, which also
    names the width). *)
Definition value_too_long : exn :=
  DBAPIError "value too long for type character varying".

Definition refused {A} (e : exn) : M A :=
  modify (set_pending_rollback true);; raise e.

(** What a session raises on a statement after a refused flush (the
    message of the library goes on to quote the exception of the
    flush). *)
Definition pending_rollback_error : exn :=
  PendingRollbackError
    ("This Session's transaction has been rolled back due to a previous "
     +:+ "exception during flush. To begin a new transaction with this "
     +:+ "Session, first issue Session.rollback().").

(** The check that precedes a statement on a session that an exception
    may have left behind. *)
Definition session_usable : M unit :=
  s ← get_state;
  if pending_rollback s then raise pending_rollback_error else mret tt.

(** [async with get_db_context() as db: block]: the block runs on a
    session of its own, a new one. *)
Definition get_db_context {A} (block : M A) : M A :=
  modify (set_pending_rollback false);; block.

(** [for x in l: body x] *)
Fixpoint for_each {A} (l : list A) (body : A -> M unit) : M unit :=
  match l with
  | [] => mret tt
  | x :: l' => body x ;; for_each l' body
  end.

(** A loop that carries an accumulator. *)
Fixpoint for_fold {A B} (l : list A) (acc : B) (body : B -> A -> M B) : M B :=
  match l with
  | [] => mret acc
  | x :: l' => acc' ← body acc x; for_fold l' acc' body
  end.

(** A comprehension whose element expression has effects. *)
Fixpoint for_map {A B} (l : list A) (f : A -> M B) : M (list B) :=
  match l with
  | [] => mret []
  | x :: l' => y ← f x; ys ← for_map l' f; mret (y :: ys)
  end.

(** [scalar_one_or_none()] and [scalar_one()] on the rows of a result *)
Definition scalar_one_or_none {A} (rows : list A) : M (option A) :=
  match rows with
  | [] => mret None
  | [x] => mret (Some x)
  | _ =>
      raise (MultipleResultsFound
               "Multiple rows were found when one or none was required")
  end.

Definition scalar_one {A} (rows : list A) : M A :=
  match rows with
  | [] => raise NoResultFound
  | [x] => mret x
  | _ =>
      raise (MultipleResultsFound
               "Multiple rows were found when exactly one was required")
  end.

(** ** SQL on a table kept as a list of rows *)

Module Sql.

(** [UPDATE ... WHERE p SET f]: the new table and the row count *)
Definition update {A} (p : A -> bool) (f : A -> A) (rows : list A)
  : list A * Z :=
  (map (fun r => if p r then f r else r) rows, len (List.filter p rows)).

(** [DELETE ... WHERE p]: the new table and the row count *)
Definition delete {A} (p : A -> bool) (rows : list A) : list A * Z :=
  (List.filter (fun r => negb (p r)) rows, len (List.filter p rows)).

(** [COUNT(col)] over a column that is never null *)
Definition count {A} (rows : list A) : Z := len rows.

(** [SUM(e)]: null over no rows *)
Definition sum {A} (e : A -> Z) (rows : list A) : option Z :=
  match rows with
  | [] => None
  | _ => Some (fold_right Z.add 0 (map e rows))
  end.

(** [CASE WHEN c THEN 1 ELSE 0 END] *)
Definition case (c : bool) : Z := if c then 1 else 0.

(** [ORDER BY key ASC], rows of equal key kept in table order *)
Fixpoint insert_by {A} (key : A -> Z) (x : A) (sorted : list A) : list A :=
  match sorted with
  | [] => [x]
  | y :: rest =>
      if key y <=? key x then y :: insert_by key x rest
      else x :: sorted
  end.

Definition order_by_asc {A} (key : A -> Z) (rows : list A) : list A :=
  fold_left (fun sorted x => insert_by key x sorted) rows [].

(** [LIMIT n] *)
Definition limit {A} (n : Z) (rows : list A) : list A :=
  firstn (Z.to_nat n) rows.

End Sql.

(** ** services/document_service.py *)

(** The dict that describes a document to create; a field is [None] when
    the key is missing. *)
Record DocData : Type := {
  dd_title : option string;
  dd_content : option string;
  dd_connector_id : option UUID;
  dd_external_id : option string;
  dd_source_url : option string;
  dd_mime_type : option string;
  dd_metadata : option json;
  dd_source_created_at : option datetime
}.

Record DocumentStats : Type := {
  stats_total : Z;
  stats_pending : Z;
  stats_processing : Z;
  stats_classified : Z;
  stats_indexed : Z;
  stats_failed : Z;
  stats_in_vector_db : Z
}.

Module DocumentService.

Definition id_in (ids : list UUID) (d : Document) : bool :=
  bool_decide (doc_id d ∈ ids).

Definition of_tenant (tenant_id : UUID) (d : Document) : bool :=
  bool_decide (doc_tenant_id d = tenant_id).

(** [.values(classification=..., classification_confidence=...,
    status=CLASSIFIED, updated_at=...)] *)
Definition classified_as (classification : string) (confidence : pyfloat)
    (now : datetime) (d : Document) : Document :=
  {| doc_id := doc_id d; doc_tenant_id := doc_tenant_id d;
     doc_connector_id := doc_connector_id d;
     doc_external_id := doc_external_id d; doc_title := doc_title d;
     doc_content := doc_content d; doc_content_hash := doc_content_hash d;
     doc_source_url := doc_source_url d; doc_mime_type := doc_mime_type d;
     doc_status := CLASSIFIED;
     doc_classification := Some classification;
     doc_classification_confidence := Some confidence;
     doc_project_id := doc_project_id d; doc_metadata := doc_metadata d;
     doc_vector_id := doc_vector_id d; doc_is_indexed := doc_is_indexed d;
     doc_created_at := doc_created_at d; doc_updated_at := now;
     doc_source_created_at := doc_source_created_at d |}.

(** [.values(project_id=..., updated_at=...)] *)
Definition assigned_to (project_id : UUID) (now : datetime) (d : Document)
  : Document :=
  {| doc_id := doc_id d; doc_tenant_id := doc_tenant_id d;
     doc_connector_id := doc_connector_id d;
     doc_external_id := doc_external_id d; doc_title := doc_title d;
     doc_content := doc_content d; doc_content_hash := doc_content_hash d;
     doc_source_url := doc_source_url d; doc_mime_type := doc_mime_type d;
     doc_status := doc_status d;
     doc_classification := doc_classification d;
     doc_classification_confidence := doc_classification_confidence d;
     doc_project_id := Some project_id; doc_metadata := doc_metadata d;
     doc_vector_id := doc_vector_id d; doc_is_indexed := doc_is_indexed d;
     doc_created_at := doc_created_at d; doc_updated_at := now;
     doc_source_created_at := doc_source_created_at d |}.

(** The [String(n)] columns of [documents].  ([content_hash] holds a
    SHA-256 digest in hexadecimal, which has the 64 characters of its
    column.) *)
Definition document_fits (d : Document) : bool :=
  fits_opt 500 (doc_external_id d) && fits 500 (doc_title d)
  && fits_opt 2000 (doc_source_url d) && fits_opt 100 (doc_mime_type d)
  && fits_opt 50 (doc_classification d) && fits_opt 100 (doc_vector_id d).

(** The [INSERT] that a flush sends for the added documents: the rows
    are written together, or the statement is refused. *)
Definition insert_documents (docs : list Document) : M unit :=
  if forallb document_fits docs then
    modify (fun s => set_documents (documents s ++ docs) s);;
    emit (SqlInsert "documents" (length docs))
  else refused value_too_long.

Section WithEnv.
Context (env : Env).

Definition _compute_hash (content : string) : string :=
  sha256_hexdigest env content.

(** The [Document(...)] that [create_documents_bulk] builds from one
    dict, before the flush gives it its id and its timestamps. *)
Definition new_document (tenant_id : UUID) (doc_data : DocData)
  : Result (UUID -> datetime -> datetime -> Document) :=
  match dd_title doc_data with
  | None => Raise (KeyError "title")
  | Some title =>
      let content := dd_content doc_data in
      Ok (fun id created_at updated_at =>
        {| doc_id := id; doc_tenant_id := tenant_id;
           doc_connector_id := dd_connector_id doc_data;
           doc_external_id := dd_external_id doc_data;
           doc_title := title;
           doc_content := content;
           doc_content_hash :=
             if truthy content
             then _compute_hash <$> content
             else None;
           doc_source_url := dd_source_url doc_data;
           doc_mime_type := dd_mime_type doc_data;
           doc_status := PENDING;
           doc_classification := None;
           doc_classification_confidence := None;
           doc_project_id := None;
           doc_metadata := default "{}" (dd_metadata doc_data);
           doc_vector_id := None; doc_is_indexed := false;
           doc_created_at := created_at; doc_updated_at := updated_at;
           doc_source_created_at := dd_source_created_at doc_data |})
  end.

(** The flush of one added document: the column defaults are drawn. *)
Definition flush_document
    (pending : UUID -> datetime -> datetime -> Document) : M Document :=
  id ← uuid4;
  created_at ← utcnow;
  updated_at ← utcnow;
  mret (pending id created_at updated_at).

Definition create_documents_bulk (tenant_id : UUID)
    (documents_ : list DocData) : M (list Document) :=
  pending ← for_map documents_ (fun doc_data =>
               lift (new_document tenant_id doc_data));
  docs ← for_map pending flush_document;
  insert_documents docs;;
  mret docs.

End WithEnv.

Definition get_documents_by_ids (document_ids : list UUID)
    (tenant_id : UUID) : M (list Document) :=
  match document_ids with
  | [] => mret []
  | _ =>
      s ← get_state;
      emit (SqlSelect (select_documents_by_ids document_ids tenant_id));;
      mret (List.filter
              (fun d => id_in document_ids d && of_tenant tenant_id d)
              (documents s))
  end.

(** The label goes into a [String(50)] column: the update is refused
    when it would write a longer one into a row. *)
Definition bulk_classify_documents (document_ids : list UUID)
    (classification : string) (confidence : pyfloat) : M Z :=
  match document_ids with
  | [] => mret 0
  | _ =>
      now ← utcnow;
      s ← get_state;
      let '(rows, rowcount) :=
        Sql.update (id_in document_ids)
          (classified_as classification confidence now) (documents s) in
      if fits 50 classification || (rowcount =? 0) then
        modify (set_documents rows);;
        emit (SqlUpdateDocuments document_ids rowcount);;
        mret rowcount
      else refused value_too_long
  end.

(** One pass of the loop of [bulk_delete_documents]. *)
Definition delete_batch (document_ids : list UUID) (tenant_id : UUID)
    (batch_size : Z) (total_deleted : Z) (i : Z) : M Z :=
  let batch := slice document_ids i (i + batch_size) in
  s ← get_state;
  let '(rows, rowcount) :=
    Sql.delete (fun d => id_in batch d && of_tenant tenant_id d)
      (documents s) in
  modify (set_documents rows);;
  emit (SqlDeleteDocuments batch tenant_id rowcount);;
  mret (total_deleted + rowcount).

Definition bulk_delete_documents (document_ids : list UUID)
    (tenant_id : UUID) (batch_size : Z) : M Z :=
  match document_ids with
  | [] => mret 0
  | _ =>
      indices ← lift (range 0 (len document_ids) batch_size);
      for_fold indices 0 (delete_batch document_ids tenant_id batch_size)
  end.

Definition bulk_assign_project (document_ids : list UUID)
    (project_id : UUID) : M Z :=
  match document_ids with
  | [] => mret 0
  | _ =>
      now ← utcnow;
      s ← get_state;
      let '(rows, rowcount) :=
        Sql.update (id_in document_ids) (assigned_to project_id now)
          (documents s) in
      modify (set_documents rows);;
      emit (SqlUpdateDocuments document_ids rowcount);;
      mret rowcount
  end.

(** The rows that the query of [find_by_external_ids] selects. *)
Definition has_external_id_in (external_ids : list string)
    (connector_id : UUID) (d : Document) : bool :=
  match doc_external_id d with
  | Some e => bool_decide (e ∈ external_ids)
  | None => false
  end
  && bool_decide (doc_connector_id d = Some connector_id).

(** [{doc.external_id: doc for doc in rows}]: a later row replaces an
    earlier one under the same key. *)
Definition by_external_id (rows : list Document) : gmap string Document :=
  fold_left
    (fun m d =>
       match doc_external_id d with
       | Some e => <[e := d]> m
       | None => m
       end)
    rows ∅.

Definition find_by_external_ids (external_ids : list string)
    (connector_id : UUID) : M (gmap string Document) :=
  match external_ids with
  | [] => mret ∅
  | _ =>
      s ← get_state;
      emit (SqlSelect
              (select_documents_by_external_ids external_ids connector_id));;
      mret (by_external_id
              (List.filter (has_external_id_in external_ids connector_id)
                 (documents s)))
  end.

Definition has_status (st : DocumentStatus) (d : Document) : Z :=
  Sql.case (bool_decide (doc_status d = st)).

Definition get_document_stats (tenant_id : UUID) : M DocumentStats :=
  s ← get_state;
  emit (SqlSelect (select_document_stats tenant_id));;
  let rows := List.filter (of_tenant tenant_id) (documents s) in
  mret {| stats_total := or_zero (Some (Sql.count rows));
          stats_pending := or_zero (Sql.sum (has_status PENDING) rows);
          stats_processing := or_zero (Sql.sum (has_status PROCESSING) rows);
          stats_classified := or_zero (Sql.sum (has_status CLASSIFIED) rows);
          stats_indexed := or_zero (Sql.sum (has_status INDEXED) rows);
          stats_failed := or_zero (Sql.sum (has_status FAILED) rows);
          stats_in_vector_db :=
            or_zero (Sql.sum (fun d => Sql.case (doc_is_indexed d)) rows) |}.

End DocumentService.

(** ** api/document_routes.py: the bulk endpoints *)

Module DocumentRoutes.

(** [POST /documents/bulk/classify] for the tenant of the request; the
    confidence is the default of the service, [1.0]. *)
Definition bulk_classify_documents (document_ids : list UUID)
    (classification : string) (tenant_id : UUID) : M Z :=
  docs ← DocumentService.get_documents_by_ids document_ids tenant_id;
  if negb (len docs =? len document_ids) then
    raise (HTTPException 400
             "Some documents not found or don't belong to you")
  else
    DocumentService.bulk_classify_documents document_ids classification
      (float_of_int 1).

(** [POST /documents/bulk/delete] *)
Definition bulk_delete_documents (document_ids : list UUID)
    (tenant_id : UUID) : M Z :=
  DocumentService.bulk_delete_documents document_ids tenant_id 100.

(** [POST /documents/bulk/assign-project] *)
Definition bulk_assign_project (document_ids : list UUID)
    (project_id : UUID) (tenant_id : UUID) : M Z :=
  DocumentService.bulk_assign_project document_ids project_id.

End DocumentRoutes.

(** [str(uuid)]; the decimal rendering stands for the canonical form. *)
Definition str_uuid (u : UUID) : string := pretty u.

(** ** services/ai_service.py *)

Module AIService.
Section WithEnv.
Context (env : Env).

(** [create_embedding]: the embedding of the single input *)
Definition create_embedding (text : string) : M embedding :=
  emit (Call (call_embeddings_create 1));;
  data ← lift (embeddings_create env [text]);
  match data with
  | e :: _ => mret e
  | [] => raise (IndexError "list index out of range")
  end.

(** One pass of the loop of [create_embeddings_batch] (the pause
    between two batches has no effect on the result). *)
Definition embed_batch (texts : list string) (batch_size : Z)
    (all_embeddings : list embedding) (i : Z) : M (list embedding) :=
  let batch := slice texts i (i + batch_size) in
  emit (Call (call_embeddings_create (length batch)));;
  batch_embeddings ← lift (embeddings_create env batch);
  mret (all_embeddings ++ batch_embeddings)%list.

Definition create_embeddings_batch (texts : list string) (batch_size : Z)
  : M (list embedding) :=
  indices ← lift (range 0 (len texts) batch_size);
  for_fold indices [] (embed_batch texts batch_size).

Definition context_header : string :=
  newline +:+ newline +:+ "Relevant context from user's documents:"
    +:+ newline.

(** The messages that [generate_response] sends. *)
Definition formatted_messages (messages : list Turn)
    (context system_prompt : option string) : list Turn :=
  (match system_prompt with
   | Some p =>
       if truthy system_prompt then
         [{| turn_role := "system";
             turn_content :=
               match context with
               | Some c =>
                   if truthy context then p +:+ context_header +:+ c
                   else p
               | None => p
               end |}]
       else []
   | None => []
   end ++ messages)%list.

Definition generate_response (messages : list Turn)
    (context system_prompt : option string) : M string :=
  emit (Call call_chat_completion);;
  lift (chat_completions_create env
          (formatted_messages messages context system_prompt)).

End WithEnv.
End AIService.

(** ** services/vector_service.py *)

(** The dict that the sync task hands over for a persisted document. *)
Record IndexDoc : Type := {
  ix_id : string;
  ix_title : string;
  ix_content : string
}.

Module VectorService.
Section WithEnv.
Context (env : Env).

Definition to_vector (tenant_id : string) (p : IndexDoc * embedding)
  : Vector :=
  {| vec_id := ix_id (fst p); vec_values := snd p;
     vec_tenant_id := tenant_id; vec_title := ix_title (fst p);
     vec_content := str_prefix 1000 (ix_content (fst p)) |}.

Definition upsert_batch (vectors : list Vector) (tenant_id : string)
    (batch_size : Z) (i : Z) : M unit :=
  let batch := slice vectors i (i + batch_size) in
  emit (Call (call_index_upsert (length batch)));;
  lift (index_upsert env batch tenant_id).

Definition upsert_documents_batch (documents_ : list IndexDoc)
    (tenant_id : string) (batch_size : Z) : M (list string) :=
  match documents_ with
  | [] => mret []
  | _ =>
      let contents := map ix_content documents_ in
      embeddings ←
        AIService.create_embeddings_batch env contents batch_size;
      let pairs := zip documents_ embeddings in
      let ids := map (fun p => ix_id (fst p)) pairs in
      let vectors := map (to_vector tenant_id) pairs in
      indices ← lift (range 0 (len vectors) batch_size);
      for_each indices (upsert_batch vectors tenant_id batch_size);;
      mret ids
  end.

(** [{"id": match.id, "score": match.score, **match.metadata}]: a key
    of the metadata replaces the one written before it. *)
Definition to_document (m : Match) : RetrievedDoc :=
  {| rd_id := Some (default (match_id m) (match_metadata m !! "id"));
     rd_score := match_score m;
     rd_title := match_metadata m !! "title";
     rd_content := match_metadata m !! "content" |}.

Definition search (query tenant_id : string) (top_k : Z)
  : M (list RetrievedDoc) :=
  query_embedding ← AIService.create_embedding env query;
  emit (Call (call_vector_search query));;
  matches ← lift (index_query env query_embedding top_k tenant_id);
  mret (map to_document matches).

End WithEnv.
End VectorService.

(** ** services/chat_service.py *)

(** What [chat] returns. *)
Record ChatResult : Type := {
  chat_message : string;
  chat_sources : list RetrievedDoc;
  chat_message_id : string
}.

Module ChatService.

Definition touch (now : datetime) (c : ChatSession) : ChatSession :=
  {| cs_tenant_id := cs_tenant_id c; cs_title := cs_title c;
     cs_updated_at := now |}.

(** The flush draws the id and the creation time of the added message;
    the row must reference a session that exists. *)
Definition add_message (session_id : UUID) (role content : string)
    (sources : option (list string)) : M ChatMessage :=
  s ← get_state;
  emit (SqlSelect (select_chat_session session_id));;
  match chat_sessions s !! session_id with
  | Some session =>
      now ← utcnow;
      modify (fun s =>
        set_chat_sessions (<[session_id := touch now session]>
                             (chat_sessions s)) s);;
      id ← uuid4;
      created_at ← utcnow;
      let message :=
        {| msg_id := id; msg_session_id := session_id; msg_role := role;
           msg_content := content; msg_sources := sources;
           msg_created_at := created_at |} in
      modify (fun s => set_chat_messages (chat_messages s ++ [message]) s);;
      emit (SqlInsert "chat_messages" 1);;
      mret message
  | None =>
      refused (IntegrityError
                 "chat_messages.session_id violates foreign key constraint")
  end.

Definition get_messages (session_id : UUID) (limit : Z)
  : M (list ChatMessage) :=
  s ← get_state;
  emit (SqlSelect (select_chat_messages session_id limit));;
  mret (Sql.limit limit
          (Sql.order_by_asc msg_created_at
             (List.filter
                (fun m => bool_decide (msg_session_id m = session_id))
                (chat_messages s)))).

(** [f"[{i}] {title}:\n{content}"] *)
Definition context_part (p : Z * RetrievedDoc) : string :=
  let title := default "Untitled" (rd_title (snd p)) in
  let content := str_prefix 1000 (default "" (rd_content (snd p))) in
  "[" +:+ pretty (fst p) +:+ "] " +:+ title +:+ ":" +:+ newline
    +:+ content.

Definition _build_context (documents_ : list RetrievedDoc) : string :=
  match documents_ with
  | [] => ""
  | _ => join (newline +:+ newline)
           (map context_part (enumerate documents_ 1))
  end.

Definition _get_system_prompt : string :=
  "You are a helpful AI assistant with access to the user's knowledge base."
  +:+ newline +:+
  "Your role is to answer questions based on the provided context from their documents."
  +:+ newline +:+ newline +:+
  "Guidelines:"
  +:+ newline +:+
  "1. Use the provided context to answer questions accurately"
  +:+ newline +:+
  "2. If the context doesn't contain enough information, say so honestly"
  +:+ newline +:+
  "3. Cite sources by referring to the document numbers [1], [2], etc."
  +:+ newline +:+
  "4. Be concise but thorough"
  +:+ newline +:+
  "5. If asked about something not in the context, you can use your general knowledge but note that it's not from their documents"
  +:+ newline +:+ newline +:+
  "Always be helpful, accurate, and respect the user's privacy.".

Definition to_turn (m : ChatMessage) : Turn :=
  {| turn_role := msg_role m; turn_content := msg_content m |}.

(** [[doc.get("id") for doc in relevant_docs if doc.get("id")]] *)
Definition source_ids (relevant_docs : list RetrievedDoc) : list string :=
  omap (fun d => if truthy (rd_id d) then rd_id d else None) relevant_docs.

Section WithEnv.
Context (env : Env).

(** The first half of [chat]: the user message is stored and the
    history that generation will see is read back. *)
Definition load_history (session_id : UUID) (user_message : string)
  : M (list Turn) :=
  add_message session_id "user" user_message None;;
  messages ← get_messages session_id 10;
  mret (map to_turn messages).

Definition chat (session_id tenant_id : UUID) (user_message : string)
  : M ChatResult :=
  history ← load_history session_id user_message;
  relevant_docs ←
    VectorService.search env user_message (str_uuid tenant_id) 5;
  let context := _build_context relevant_docs in
  response ←
    AIService.generate_response env history (Some context)
      (Some _get_system_prompt);
  let source_ids := source_ids relevant_docs in
  assistant_message ←
    add_message session_id "assistant" response (Some source_ids);
  mret {| chat_message := response; chat_sources := relevant_docs;
          chat_message_id := str_uuid (msg_id assistant_message) |}.

End WithEnv.
End ChatService.

(** ** connectors/__init__.py *)

Module Connectors.
Section WithEnv.
Context (env : Env).

(** [get_connector_class]: six types are imported on demand, the
    other two have no class.  (The cache of imported classes only
    saves imports and is not kept.) *)
Definition get_connector_class (connector_type : ConnectorType)
  : M (option ConnectorClass) :=
  match connector_type with
  | ONEDRIVE | EMAIL_FORWARDING => mret None
  | _ => cls ← lift (import_connector env connector_type); mret (Some cls)
  end.

End WithEnv.
End Connectors.

(** ** api/integration_routes.py *)

Record SyncProgressResponse : Type := {
  resp_status : string;
  resp_total_items : Z;
  resp_processed_items : Z;
  resp_indexed_items : Z;
  resp_failed_items : Z;
  resp_current_step : option string;
  resp_error_message : option string;
  resp_percent : pyfloat;
  resp_started_at : option datetime;
  resp_completed_at : option datetime
}.

Record StartSyncResponse : Type := {
  started_message : string;
  started_connector_id : string
}.

Module IntegrationRoutes.

Definition HTTP_400_BAD_REQUEST : Z := 400.
Definition HTTP_404_NOT_FOUND : Z := 404.

(** *** Assignments to the attributes of a progress row *)

Definition with_status (v : string) (p : SyncProgress) : SyncProgress :=
  {| sp_connector_id := sp_connector_id p; sp_status := v;
     sp_total_items := sp_total_items p;
     sp_processed_items := sp_processed_items p;
     sp_indexed_items := sp_indexed_items p;
     sp_failed_items := sp_failed_items p;
     sp_current_step := sp_current_step p;
     sp_error_message := sp_error_message p;
     sp_started_at := sp_started_at p;
     sp_completed_at := sp_completed_at p |}.

Definition with_total_items (v : Z) (p : SyncProgress) : SyncProgress :=
  {| sp_connector_id := sp_connector_id p; sp_status := sp_status p;
     sp_total_items := v;
     sp_processed_items := sp_processed_items p;
     sp_indexed_items := sp_indexed_items p;
     sp_failed_items := sp_failed_items p;
     sp_current_step := sp_current_step p;
     sp_error_message := sp_error_message p;
     sp_started_at := sp_started_at p;
     sp_completed_at := sp_completed_at p |}.

Definition with_processed_items (v : Z) (p : SyncProgress) : SyncProgress :=
  {| sp_connector_id := sp_connector_id p; sp_status := sp_status p;
     sp_total_items := sp_total_items p;
     sp_processed_items := v;
     sp_indexed_items := sp_indexed_items p;
     sp_failed_items := sp_failed_items p;
     sp_current_step := sp_current_step p;
     sp_error_message := sp_error_message p;
     sp_started_at := sp_started_at p;
     sp_completed_at := sp_completed_at p |}.

Definition with_indexed_items (v : Z) (p : SyncProgress) : SyncProgress :=
  {| sp_connector_id := sp_connector_id p; sp_status := sp_status p;
     sp_total_items := sp_total_items p;
     sp_processed_items := sp_processed_items p;
     sp_indexed_items := v;
     sp_failed_items := sp_failed_items p;
     sp_current_step := sp_current_step p;
     sp_error_message := sp_error_message p;
     sp_started_at := sp_started_at p;
     sp_completed_at := sp_completed_at p |}.

Definition with_current_step (v : option string) (p : SyncProgress)
  : SyncProgress :=
  {| sp_connector_id := sp_connector_id p; sp_status := sp_status p;
     sp_total_items := sp_total_items p;
     sp_processed_items := sp_processed_items p;
     sp_indexed_items := sp_indexed_items p;
     sp_failed_items := sp_failed_items p;
     sp_current_step := v;
     sp_error_message := sp_error_message p;
     sp_started_at := sp_started_at p;
     sp_completed_at := sp_completed_at p |}.

Definition with_error_message (v : option string) (p : SyncProgress)
  : SyncProgress :=
  {| sp_connector_id := sp_connector_id p; sp_status := sp_status p;
     sp_total_items := sp_total_items p;
     sp_processed_items := sp_processed_items p;
     sp_indexed_items := sp_indexed_items p;
     sp_failed_items := sp_failed_items p;
     sp_current_step := sp_current_step p;
     sp_error_message := v;
     sp_started_at := sp_started_at p;
     sp_completed_at := sp_completed_at p |}.

Definition with_completed_at (v : option datetime) (p : SyncProgress)
  : SyncProgress :=
  {| sp_connector_id := sp_connector_id p; sp_status := sp_status p;
     sp_total_items := sp_total_items p;
     sp_processed_items := sp_processed_items p;
     sp_indexed_items := sp_indexed_items p;
     sp_failed_items := sp_failed_items p;
     sp_current_step := sp_current_step p;
     sp_error_message := sp_error_message p;
     sp_started_at := sp_started_at p;
     sp_completed_at := v |}.

(** *** Assignments to the attributes of a connector row *)

Definition with_sync_status (v : string) (c : Connector) : Connector :=
  {| conn_tenant_id := conn_tenant_id c;
     conn_connector_type := conn_connector_type c;
     conn_name := conn_name c; conn_credentials := conn_credentials c;
     conn_is_active := conn_is_active c;
     conn_last_sync_at := conn_last_sync_at c;
     conn_sync_status := v; conn_sync_error := conn_sync_error c |}.

Definition with_sync_error (v : option string) (c : Connector) : Connector :=
  {| conn_tenant_id := conn_tenant_id c;
     conn_connector_type := conn_connector_type c;
     conn_name := conn_name c; conn_credentials := conn_credentials c;
     conn_is_active := conn_is_active c;
     conn_last_sync_at := conn_last_sync_at c;
     conn_sync_status := conn_sync_status c; conn_sync_error := v |}.

Definition with_last_sync_at (v : option datetime) (c : Connector)
  : Connector :=
  {| conn_tenant_id := conn_tenant_id c;
     conn_connector_type := conn_connector_type c;
     conn_name := conn_name c; conn_credentials := conn_credentials c;
     conn_is_active := conn_is_active c;
     conn_last_sync_at := v;
     conn_sync_status := conn_sync_status c;
     conn_sync_error := conn_sync_error c |}.

(** *** Reads and writes of the two tables *)

Definition for_connector (connector_id : UUID) (p : SyncProgress) : bool :=
  bool_decide (sp_connector_id p = connector_id).

(** [select(SyncProgress).where(SyncProgress.connector_id == ...)] *)
Definition progress_rows (connector_id : UUID) : M (list SyncProgress) :=
  s ← get_state;
  emit (SqlSelect (select_sync_progress connector_id));;
  mret (List.filter (for_connector connector_id) (sync_progress s)).

(** An assignment through the progress object that a lookup for the
    connector returned: it reaches the row of that connector. *)
Definition set_progress (connector_id : UUID)
    (f : SyncProgress -> SyncProgress) : M unit :=
  modify (fun s =>
    set_sync_progress
      (map (fun p => if for_connector connector_id p then f p else p)
         (sync_progress s)) s).

(** [select(Connector).where(id == ..., tenant_id == ...)] *)
Definition connector_of_tenant (connector_id tenant_id : UUID)
  : M (option Connector) :=
  s ← get_state;
  emit (SqlSelect (select_connector_of_tenant connector_id tenant_id));;
  mret (match connectors s !! connector_id with
        | Some c =>
            if bool_decide (conn_tenant_id c = tenant_id) then Some c
            else None
        | None => None
        end).

(** [select(Connector).where(Connector.id == ...)] *)
Definition connector_by_id (connector_id : UUID) : M (option Connector) :=
  s ← get_state;
  emit (SqlSelect (select_connector connector_id));;
  mret (connectors s !! connector_id).

Definition set_connector (connector_id : UUID)
    (f : Connector -> Connector) : M unit :=
  modify (fun s => set_connectors (alter f connector_id (connectors s)) s).

(** *** start_sync *)

(** The progress row once [start_sync] has assigned all its fields. *)
Definition starting (connector_id : UUID) (now : datetime) : SyncProgress :=
  {| sp_connector_id := connector_id; sp_status := "syncing";
     sp_total_items := 0; sp_processed_items := 0;
     sp_indexed_items := 0; sp_failed_items := 0;
     sp_current_step := Some "Starting sync...";
     sp_error_message := None;
     sp_started_at := Some now; sp_completed_at := None |}.

Definition start_sync (connector_id tenant_id : UUID)
  : M StartSyncResponse :=
  found ← connector_of_tenant connector_id tenant_id;
  match found with
  | None => raise (HTTPException HTTP_404_NOT_FOUND "Connector not found")
  | Some connector =>
      if String.eqb (conn_sync_status connector) "syncing" then
        raise (HTTPException HTTP_400_BAD_REQUEST "Sync already in progress")
      else
        rows ← progress_rows connector_id;
        progress ← scalar_one_or_none rows;
        now ← utcnow;
        match progress with
        | None =>
            modify (fun s =>
              set_sync_progress
                (sync_progress s ++ [starting connector_id now]) s);;
            emit (SqlInsert "sync_progress" 1)
        | Some _ =>
            set_progress connector_id
              (fun _ => starting connector_id now)
        end;;
        set_connector connector_id (with_sync_status "syncing");;
        modify (fun s =>
          set_background_tasks
            (background_tasks s ++
               [{| task_connector_id := connector_id;
                   task_connector_type := conn_connector_type connector;
                   task_credentials := conn_credentials connector;
                   task_tenant_id := tenant_id |}]) s);;
        mret {| started_message := "Sync started";
                started_connector_id := str_uuid connector_id |}
  end.

(** *** get_sync_progress *)

Definition idle_response : SyncProgressResponse :=
  {| resp_status := "idle"; resp_total_items := 0;
     resp_processed_items := 0; resp_indexed_items := 0;
     resp_failed_items := 0; resp_current_step := None;
     resp_error_message := None; resp_percent := to_float (PyInt 0);
     resp_started_at := None; resp_completed_at := None |}.

(** The variable [percent] before it is rounded. *)
Definition percent_of (progress : SyncProgress) : Result pynum :=
  if 0 <? sp_total_items progress then
    match truediv (sp_processed_items progress) (sp_total_items progress)
    with
    | Ok q => Ok (PyFloat (mul_int q 100))
    | Raise e => Raise e
    end
  else Ok (PyInt 0).

Definition get_sync_progress (connector_id tenant_id : UUID)
  : M SyncProgressResponse :=
  found ← connector_of_tenant connector_id tenant_id;
  match found with
  | None => raise (HTTPException HTTP_404_NOT_FOUND "Connector not found")
  | Some _ =>
      rows ← progress_rows connector_id;
      progress ← scalar_one_or_none rows;
      match progress with
      | None => mret idle_response
      | Some progress =>
          percent ← lift (percent_of progress);
          mret {| resp_status := sp_status progress;
                  resp_total_items := sp_total_items progress;
                  resp_processed_items := sp_processed_items progress;
                  resp_indexed_items := sp_indexed_items progress;
                  resp_failed_items := sp_failed_items progress;
                  resp_current_step := sp_current_step progress;
                  resp_error_message := sp_error_message progress;
                  resp_percent := to_float (round percent 1);
                  resp_started_at := sp_started_at progress;
                  resp_completed_at := sp_completed_at progress |}
      end
  end.

(** *** run_sync_task *)

(** [item.get("external_id")] of the items that have a truthy one *)
Definition external_ids_of (items : list Item) : list string :=
  omap (fun item =>
          if truthy (item_external_id item) then item_external_id item
          else None) items.

(** [ext_id and ext_id in existing] *)
Definition is_known (existing : gmap string Document) (item : Item) : bool :=
  match item_external_id item with
  | Some ext_id =>
      truthy (Some ext_id) && bool_decide (is_Some (existing !! ext_id))
  | None => false
  end.

Definition new_items_of (existing : gmap string Document)
    (items : list Item) : list Item :=
  List.filter (fun item => negb (is_known existing item)) items.

Definition to_doc_data (connector_id : UUID) (item : Item) : DocData :=
  {| dd_title := Some (default "Untitled" (item_title item));
     dd_content := Some (default "" (item_content item));
     dd_connector_id := Some connector_id;
     dd_external_id := item_external_id item;
     dd_source_url := item_source_url item;
     dd_mime_type := None;
     dd_metadata := Some (default "{}" (item_metadata item));
     dd_source_created_at := None |}.

(** [d.content or ""] *)
Definition to_index_doc (d : Document) : IndexDoc :=
  {| ix_id := str_uuid (doc_id d); ix_title := doc_title d;
     ix_content :=
       if truthy (doc_content d) then default "" (doc_content d) else "" |}.

(** The member as the f-string of the error message renders it: its
    value (from Python 3.11 on, an f-string renders the name of the member
    instead). *)
Definition format_connector_type (t : ConnectorType) : string :=
  connector_type_value t.

Section WithEnv.
Context (env : Env).

(** The block under [if new_items:]: the new documents are created in
    bulk, then indexed in the vector store. *)
Definition persist_new_items (task : SyncTask) (new_items : list Item)
  : M unit :=
  let connector_id := task_connector_id task in
  match new_items with
  | [] => mret tt
  | _ =>
      docs ←
        DocumentService.create_documents_bulk env (task_tenant_id task)
          (map (to_doc_data connector_id) new_items);
      set_progress connector_id (with_processed_items (len docs));;
      set_progress connector_id
        (with_current_step (Some "Indexing documents..."));;
      emit Commit;;
      indexed ←
        VectorService.upsert_documents_batch env (map to_index_doc docs)
          (str_uuid (task_tenant_id task)) 100;
      set_progress connector_id (with_indexed_items (len indexed))
  end.

(** The end of the [try] block: the progress row is marked complete and
    the connector is updated. *)
Definition mark_complete (task : SyncTask) : M unit :=
  let connector_id := task_connector_id task in
  set_progress connector_id (with_status "completed");;
  set_progress connector_id (with_current_step (Some "Sync completed"));;
  completed_at ← utcnow;
  set_progress connector_id (with_completed_at (Some completed_at));;
  found ← connector_by_id connector_id;
  match found with
  | None => raise NoResultFound
  | Some _ =>
      set_connector connector_id (with_sync_status "completed");;
      last_sync_at ← utcnow;
      set_connector connector_id (with_last_sync_at (Some last_sync_at));;
      emit Commit
  end.

(** The [try] block. *)
Definition sync_body (task : SyncTask) : M unit :=
  let connector_id := task_connector_id task in
  rows ← progress_rows connector_id;
  _ ← scalar_one rows;
  connector_class ←
    Connectors.get_connector_class env (task_connector_type task);
  match connector_class with
  | None =>
      set_progress connector_id (with_status "failed");;
      set_progress connector_id
        (with_error_message
           (Some ("Unknown connector type: " +:+
                    format_connector_type (task_connector_type task))));;
      emit Commit
  | Some cls =>
      connector_instance ← lift (construct cls (task_credentials task));
      set_progress connector_id
        (with_current_step (Some "Fetching items from source..."));;
      emit Commit;;
      emit (Call call_fetch_items);;
      items ← lift (fetch_items connector_instance);
      set_progress connector_id (with_total_items (len items));;
      set_progress connector_id
        (with_current_step
           (Some ("Processing " +:+ pretty (len items) +:+ " items...")));;
      emit Commit;;
      existing ←
        DocumentService.find_by_external_ids (external_ids_of items)
          connector_id;
      persist_new_items task (new_items_of existing items);;
      mark_complete task
  end.

(** The [except Exception as e] block.  It goes on with the session of
    the [try] block, without a rollback: when a flush was refused there,
    its first statement raises. *)
Definition sync_failed (task : SyncTask) (e : exn) : M unit :=
  let connector_id := task_connector_id task in
  session_usable;;
  rows ← progress_rows connector_id;
  progress ← scalar_one_or_none rows;
  match progress with
  | Some _ =>
      set_progress connector_id (with_status "failed");;
      set_progress connector_id (with_error_message (Some (str_exn e)));;
      completed_at ← utcnow;
      set_progress connector_id (with_completed_at (Some completed_at))
  | None => mret tt
  end;;
  found ← connector_by_id connector_id;
  match found with
  | Some _ =>
      set_connector connector_id (with_sync_status "failed");;
      set_connector connector_id (with_sync_error (Some (str_exn e)))
  | None => mret tt
  end;;
  emit Commit.

Definition run_sync_task (task : SyncTask) : M unit :=
  get_db_context (try_except (sync_body task) (sync_failed task)).

End WithEnv.
End IntegrationRoutes.

(** * Vocabulary of the properties *)

Import DocumentService ChatService IntegrationRoutes.

Ltac unfold_monad :=
  unfold refused, session_usable, get_db_context in *;
  unfold mbind, M_bind, mret, M_ret, raise, lift, get_state, modify, emit,
    utcnow, uuid4, try_except in *.

(** ** Document store *)

(** The tables other than [documents], and the pending tasks. *)
Definition same_but_documents (s s' : State) : Prop :=
  connectors s' = connectors s /\ sync_progress s' = sync_progress s /\
  chat_sessions s' = chat_sessions s /\ chat_messages s' = chat_messages s /\
  background_tasks s' = background_tasks s.

(** What the update does to one row [d], giving [d']. *)
Definition classified_row (ids : list UUID) (classification : string)
    (confidence : pyfloat) (d d' : Document) : Prop :=
  doc_id d' = doc_id d /\
  (doc_id d ∈ ids ->
     doc_status d' = CLASSIFIED /\
     doc_classification d' = Some classification /\
     doc_classification_confidence d' = Some confidence) /\
  (doc_id d ∉ ids -> d' = d).

(** The field of the result that counts a status. *)
Definition bucket (st : DocumentStats) (status : DocumentStatus) : Z :=
  match status with
  | PENDING => stats_pending st
  | PROCESSING => stats_processing st
  | CLASSIFIED => stats_classified st
  | INDEXED => stats_indexed st
  | FAILED => stats_failed st
  end.

Definition in_status (status : DocumentStatus) (d : Document) : bool :=
  bool_decide (doc_status d = status).

Definition total_of (rowcounts : list Z) : Z := fold_right Z.add 0 rowcounts.

(** The statement sent for a batch, with the row count it returned. *)
Definition delete_event (tenant_id : UUID) (b : list UUID * Z) : Event :=
  SqlDeleteDocuments (fst b) tenant_id (snd b).

Definition of_others (tenant_id : UUID) (d : Document) : bool :=
  negb (of_tenant tenant_id d).

(** What is of interest in a row here. *)
Definition row_summary (d : Document)
  : UUID * UUID * DocumentStatus * option string * option UUID :=
  (doc_id d, doc_tenant_id d, doc_status d, doc_classification d,
   doc_project_id d).

(** ** Sync progress *)

(** The rows of [sync_progress] that belong to a connector. *)
Definition progress_of (connector_id : UUID) (s : State) : list SyncProgress :=
  List.filter (for_connector connector_id) (sync_progress s).

(** The rows of [sync_progress] that belong to the other connectors. *)
Definition progress_of_others (connector_id : UUID) (s : State)
  : list SyncProgress :=
  List.filter (fun p => negb (for_connector connector_id p)) (sync_progress s).

(** The state with another log: all that a run of reads changes. *)
Definition only_logged (s s' : State) : Prop := s' = set_log (log s') s.

(** The percentage that a response reports for a progress row. *)
Definition percent_reported (p : SyncProgress) : pyfloat :=
  if 0 <? sp_total_items p then
    float_round
      (float_mul (float_truediv (sp_processed_items p) (sp_total_items p))
         (float_of_int 100)) 1
  else float_of_int 0.

(** The task that [start_sync] schedules for a connector. *)
Definition task_for (connector_id : UUID) (c : Connector) : SyncTask :=
  {| task_connector_id := connector_id;
     task_connector_type := conn_connector_type c;
     task_credentials := conn_credentials c;
     task_tenant_id := conn_tenant_id c |}.

(** ** Sync task *)

(** An item is known to a connector when it carries an external id (one
    that is not empty) and a document of that connector has it. *)
Definition known_to (connector_id : UUID) (docs : list Document)
    (item : Item) : bool :=
  truthy (item_external_id item)
  && existsb
       (fun d =>
          bool_decide (doc_external_id d = item_external_id item)
          && bool_decide (doc_connector_id d = Some connector_id))
       docs.

Definition all_known (connector_id : UUID) (docs : list Document)
    (items : list Item) : bool :=
  forallb (known_to connector_id docs) items.


(** The connector has a class that can be imported and built, and its
    source answers the fetch with the given items. *)
Definition source_yields (env : Env) (c : Connector) (items : list Item)
  : Prop :=
  conn_connector_type c <> ONEDRIVE /\
  conn_connector_type c <> EMAIL_FORWARDING /\
  exists cls inst,
    import_connector env (conn_connector_type c) = Ok cls /\
    construct cls (conn_credentials c) = Ok inst /\
    fetch_items inst = Ok items.

(** A dict whose values fit the columns of the document that is made of
    it, and an item that gives such a dict. *)
Definition doc_data_fits (doc_data : DocData) : bool :=
  fits_opt 500 (dd_external_id doc_data) && fits_opt 500 (dd_title doc_data)
  && fits_opt 2000 (dd_source_url doc_data)
  && fits_opt 100 (dd_mime_type doc_data).

Definition item_fits (item : Item) : bool :=
  fits_opt 500 (item_external_id item)
  && fits 500 (default "Untitled" (item_title item))
  && fits_opt 2000 (item_source_url item).


(** The store as a task finds it, on a session of its own. *)
Definition in_new_session (s : State) : State :=
  set_pending_rollback false s.

(** The session is usable: it has lost no transaction. *)
Definition usable (s : State) : Prop := pending_rollback s = false.

(** Events of a kind in a log. *)
Definition is_external_id_lookup (e : Event) : bool :=
  match e with
  | SqlSelect (select_documents_by_external_ids _ _) => true
  | _ => false
  end.

Definition is_document_insert (e : Event) : bool :=
  match e with
  | SqlInsert table _ => String.eqb table "documents"
  | _ => false
  end.

Definition count_events (kind : Event -> bool) (events : list Event) : nat :=
  length (List.filter kind events).

(** What [find_by_external_ids] returns on a table of documents, and the
    statements it sends. *)
Definition existing_for (external_ids : list string) (connector_id : UUID)
    (docs : list Document) : gmap string Document :=
  match external_ids with
  | [] => ∅
  | _ =>
      by_external_id
        (List.filter (has_external_id_in external_ids connector_id) docs)
  end.

Definition lookup_events (external_ids : list string) (connector_id : UUID)
  : list Event :=
  match external_ids with
  | [] => []
  | _ => [SqlSelect
            (select_documents_by_external_ids external_ids connector_id)]
  end.

(** The documents that [create_documents_bulk] makes of items: one each,
    in order, with the external id of the item, for the connector. *)
Definition made_from (connector_id : UUID) (item : Item) (d : Document)
  : Prop :=
  doc_external_id d = item_external_id item /\
  doc_connector_id d = Some connector_id.

(** The progress row of a sync of [n] items that found nothing new and
    completed at time [now]. *)
Definition synced_without_new_items (n : Z) (now : datetime)
    (p : SyncProgress) : SyncProgress :=
  with_completed_at (Some now)
    (with_current_step (Some "Sync completed")
       (with_status "completed"
          (with_current_step
             (Some ("Processing " +:+ pretty n +:+ " items..."))
             (with_total_items n
                (with_current_step (Some "Fetching items from source...")
                   p))))).

(** The events of such a sync, in order. *)
Definition events_without_new_items (connector_id : UUID)
    (external_ids : list string) : list Event :=
  [SqlSelect (select_sync_progress connector_id); Commit;
   Call call_fetch_items; Commit]
  ++ lookup_events external_ids connector_id
  ++ [SqlSelect (select_connector connector_id); Commit].

(** What the handler leaves in a progress row and in a connector. *)
Definition failed_progress (e : exn) (now : datetime) (p : SyncProgress)
  : SyncProgress :=
  with_completed_at (Some now)
    (with_error_message (Some (str_exn e)) (with_status "failed" p)).

Definition failed_connector (e : exn) (c : Connector) : Connector :=
  with_sync_error (Some (str_exn e)) (with_sync_status "failed" c).

(** A sync from the request to the end of the background task. *)
Definition sync_now (env : Env) (connector_id tenant_id : UUID) (s : State)
  : State :=
  match start_sync connector_id tenant_id s with
  | (Ok _, s1) =>
      match last (background_tasks s1) with
      | Some task => snd (run_sync_task env task s1)
      | None => s1
      end
  | (Raise _, s1) => s1
  end.

(** ** What a sync task keeps *)

(** Two versions of a connector row: the tenant, the type and the
    credentials are the same. *)
Definition same_source (c c' : Connector) : Prop :=
  conn_tenant_id c' = conn_tenant_id c /\
  conn_connector_type c' = conn_connector_type c /\
  conn_credentials c' = conn_credentials c.

(** A relation between the store before and after that every step of a
    sync task respects but the refusal of a statement: reads, the clock
    and the id supply, assignments to a progress row that leave its
    connector alone, assignments to a connector that leave its source
    alone, and new documents at the end of the table. *)
Class StepInvariant (R : State -> State -> Prop) : Prop := {
  inv_refl : forall s, R s s;
  inv_trans : forall s1 s2 s3, R s1 s2 -> R s2 s3 -> R s1 s3;
  inv_log : forall s l, R s (set_log l s);
  inv_clock : forall s t, R s (set_clock t s);
  inv_uuid : forall s n, R s (set_uuid_counter n s);
  inv_progress : forall s connector_id f,
    (forall p, sp_connector_id (f p) = sp_connector_id p) ->
    R s (set_sync_progress
           (map (fun p => if for_connector connector_id p then f p else p)
              (sync_progress s)) s);
  inv_connector : forall s connector_id f,
    (forall c, same_source c (f c)) ->
    R s (set_connectors (alter f connector_id (connectors s)) s);
  inv_documents : forall s docs, R s (set_documents (documents s ++ docs) s)
}.

(** Such a relation that does not look at the state of the session
    either. *)
Class SyncInvariant (R : State -> State -> Prop) : Prop := {
  inv_steps :: StepInvariant R;
  inv_session : forall s b, R s (set_pending_rollback b s)
}.

Definition respects (R : State -> State -> Prop) {A} (m : M A) : Prop :=
  forall s r s', m s = (r, s') -> R s s'.

(** Row for row, progress rows of the same connectors, and every
    connector still there with its source. *)
Definition same_rows (s s' : State) : Prop :=
  map sp_connector_id (sync_progress s')
    = map sp_connector_id (sync_progress s) /\
  forall connector_id c,
    connectors s !! connector_id = Some c ->
    exists c', connectors s' !! connector_id = Some c' /\ same_source c c'.

(** The documents of before, then new ones. *)
Definition documents_grow (s s' : State) : Prop :=
  exists added, documents s' = documents s ++ added.

(** A session that was usable still is. *)
Definition keeps_session (s s' : State) : Prop := usable s -> usable s'.

(** ** Chat *)

(** The system message when there is no grounding context. *)
Definition bare_system_message : Turn :=
  {| turn_role := "system"; turn_content := _get_system_prompt |}.

(** ** Example stores and collaborators *)

(** A pending document of a tenant. *)
Definition tenant_doc (id tenant_id : UUID) : Document :=
  {| doc_id := id; doc_tenant_id := tenant_id; doc_connector_id := None;
     doc_external_id := None; doc_title := "note"; doc_content := None;
     doc_content_hash := None; doc_source_url := None;
     doc_mime_type := None; doc_status := PENDING;
     doc_classification := None; doc_classification_confidence := None;
     doc_project_id := None; doc_metadata := "{}"; doc_vector_id := None;
     doc_is_indexed := false; doc_created_at := 0; doc_updated_at := 0;
     doc_source_created_at := None |}.

(** Three documents of tenant 1. *)
Definition classify_example_state : State :=
  {| documents := map (fun id => tenant_doc id 1%N) [1%N; 2%N; 3%N];
     connectors := ∅; sync_progress := []; chat_sessions := ∅;
     chat_messages := []; background_tasks := []; clock := 50;
     uuid_counter := 4; log := [];
     pending_rollback := false |}.

(** 250 ids of which only the last fifty exist, for the tenant that owns
    them. *)
Definition delete_example_ids : list UUID := map N.of_nat (seq 1 250).

Definition delete_example_state : State :=
  {| documents := map (fun id => tenant_doc id 1%N) (map N.of_nat (seq 201 60));
     connectors := ∅; sync_progress := []; chat_sessions := ∅;
     chat_messages := []; background_tasks := []; clock := 0;
     uuid_counter := 1000; log := [];
     pending_rollback := false |}.

(** Two tenants with one document each. *)
Definition two_tenants : State :=
  {| documents := [tenant_doc 6%N 1%N; tenant_doc 7%N 2%N];
     connectors := ∅; sync_progress := []; chat_sessions := ∅;
     chat_messages := []; background_tasks := []; clock := 10;
     uuid_counter := 8; log := [];
     pending_rollback := false |}.

(** A connector of tenant 1 that has never been synced, and one that is
    half way through a sync of eight items. *)
Definition example_connector (sync_status : string) : Connector :=
  {| conn_tenant_id := 1%N; conn_connector_type := NOTION;
     conn_name := "Notion"; conn_credentials := "{}";
     conn_is_active := true; conn_last_sync_at := None;
     conn_sync_status := sync_status; conn_sync_error := None |}.

Definition never_synced : State :=
  {| documents := []; connectors := {[ 3%N := example_connector "idle" ]};
     sync_progress := []; chat_sessions := ∅; chat_messages := [];
     background_tasks := []; clock := 20; uuid_counter := 4; log := [];
     pending_rollback := false |}.

Definition half_way : SyncProgress :=
  {| sp_connector_id := 3%N; sp_status := "syncing"; sp_total_items := 8;
     sp_processed_items := 4; sp_indexed_items := 0; sp_failed_items := 0;
     sp_current_step := Some "Indexing documents...";
     sp_error_message := None; sp_started_at := Some 15;
     sp_completed_at := None |}.

Definition syncing : State :=
  {| documents := []; connectors := {[ 3%N := example_connector "syncing" ]};
     sync_progress := [half_way]; chat_sessions := ∅; chat_messages := [];
     background_tasks := []; clock := 20; uuid_counter := 4; log := [];
     pending_rollback := false |}.

(** The store when the first sync of connector 3 has been accepted. *)
Definition sync_accepted : State := snd (start_sync 3%N 1%N never_synced).

Definition rate_limited : exn := UpstreamError "429 Too Many Requests".

(** A source with three pages, and collaborators that embed and index
    whatever they are given. *)
Definition example_item (external_id title : string) : Item :=
  {| item_title := Some title; item_content := Some ("About " +:+ title);
     item_external_id := Some external_id; item_source_url := None;
     item_metadata := None |}.

Definition three_pages : list Item :=
  [example_item "page-1" "Roadmap"; example_item "page-2" "Minutes";
   example_item "page-3" "Glossary"].

(** A title of 501 characters, one more than the column of titles
    holds, and a page that carries it. *)
Definition long_title : string := string_of_list_ascii (repeat "x"%char 501).

Definition long_page : Item := example_item "page-4" long_title.

Definition source_env (answer : Result (list Item)) : Env :=
  {| sha256_hexdigest := fun content => content;
     import_connector := fun _ =>
       Ok {| construct := fun _ => Ok {| fetch_items := answer |} |};
     embeddings_create := fun inputs => Ok (map (fun _ => []) inputs);
     index_upsert := fun _ _ => Ok tt;
     index_query := fun _ _ _ => Ok [];
     chat_completions_create := fun _ => Ok "" |}.

(** The store once connector 3 has been synced for the first time. *)
Definition after_first_sync : State :=
  sync_now (source_env (Ok three_pages)) 3%N 1%N never_synced.

(** Its connector then. *)
Definition synced_connector : Connector :=
  {| conn_tenant_id := 1%N; conn_connector_type := NOTION;
     conn_name := "Notion"; conn_credentials := "{}";
     conn_is_active := true; conn_last_sync_at := Some 28;
     conn_sync_status := "completed"; conn_sync_error := None |}.

(** A chat session of tenant 1 with its first [n] messages, written at
    times 1 to [n] by the user and the assistant in turn; it is now 11. *)
Definition example_message (n : nat) : ChatMessage :=
  {| msg_id := N.of_nat n; msg_session_id := 9%N;
     msg_role := if Nat.odd n then "user" else "assistant";
     msg_content := "message " +:+ pretty (Z.of_nat n);
     msg_sources := None; msg_created_at := Z.of_nat n |}.

Definition conversation (n : nat) : State :=
  {| documents := []; connectors := ∅; sync_progress := [];
     chat_sessions :=
       {[ 9%N := {| cs_tenant_id := 1%N; cs_title := Some "New Chat";
                    cs_updated_at := Z.of_nat n |} ]};
     chat_messages := map example_message (seq 1 n);
     background_tasks := []; clock := 11; uuid_counter := 11; log := [];
     pending_rollback := false |}.

(** Collaborators for the examples: an index without vectors, and a
    completion client that answers with the last message it was sent. *)
Definition echo_env : Env :=
  {| sha256_hexdigest := fun content => content;
     import_connector := fun _ => Raise (UpstreamError "no connector");
     embeddings_create := fun inputs => Ok (map (fun _ => []) inputs);
     index_upsert := fun _ _ => Ok tt;
     index_query := fun _ _ _ => Ok [];
     chat_completions_create := fun turns =>
       Ok (default "" (turn_content <$> last turns)) |}.

(** The history of the first turn of a session. *)
Definition hello_history : list Turn :=
  [{| turn_role := "user"; turn_content := "hello" |}].

(** * The rest of the services and of the endpoints

    The functions of [services/] and [api/] that the pipeline above does
    not go through, over the same store and in the same monad.  Their
    inserts, bulk updates and calls to a client are entered in the log
    like those above; their reads and the deletes of a session or a
    connector are not, the log has no entry for them. *)

(** ** SQL, continued *)

Module Paging.

(** [ORDER BY key DESC]; rows of equal key are kept in table order (the
    store itself promises no order among them). *)
Fixpoint insert_by_desc {A} (key : A -> Z) (x : A) (sorted : list A)
  : list A :=
  match sorted with
  | [] => [x]
  | y :: rest =>
      if key x <? key y then y :: insert_by_desc key x rest
      else x :: sorted
  end.

Definition order_by_desc {A} (key : A -> Z) (rows : list A) : list A :=
  fold_right (insert_by_desc key) [] rows.

(** [OFFSET n] *)
Definition offset {A} (n : Z) (rows : list A) : list A :=
  skipn (Z.to_nat n) rows.

End Paging.

(** ** services/document_service.py: single documents, listing,
    status, deduplication *)

Module DocumentCrud.

(** [.values(status=..., updated_at=...)] *)
Definition with_status_at (status : DocumentStatus) (now : datetime)
    (d : Document) : Document :=
  {| doc_id := doc_id d; doc_tenant_id := doc_tenant_id d;
     doc_connector_id := doc_connector_id d;
     doc_external_id := doc_external_id d; doc_title := doc_title d;
     doc_content := doc_content d; doc_content_hash := doc_content_hash d;
     doc_source_url := doc_source_url d; doc_mime_type := doc_mime_type d;
     doc_status := status;
     doc_classification := doc_classification d;
     doc_classification_confidence := doc_classification_confidence d;
     doc_project_id := doc_project_id d; doc_metadata := doc_metadata d;
     doc_vector_id := doc_vector_id d; doc_is_indexed := doc_is_indexed d;
     doc_created_at := doc_created_at d; doc_updated_at := now;
     doc_source_created_at := doc_source_created_at d |}.

Section WithEnv.
Context (env : Env).

Definition create_document (tenant_id : UUID) (title : string)
    (content : option string) (connector_id : option UUID)
    (external_id source_url mime_type : option string)
    (metadata : option json) (source_created_at : option datetime)
  : M Document :=
  let content_hash :=
    if truthy content then DocumentService._compute_hash env <$> content
    else None in
  doc ← DocumentService.flush_document (fun id created_at updated_at =>
    {| doc_id := id; doc_tenant_id := tenant_id;
       doc_connector_id := connector_id;
       doc_external_id := external_id;
       doc_title := title;
       doc_content := content;
       doc_content_hash := content_hash;
       doc_source_url := source_url;
       doc_mime_type := mime_type;
       doc_status := PENDING;
       doc_classification := None;
       doc_classification_confidence := None;
       doc_project_id := None;
       doc_metadata := default "{}" metadata;
       doc_vector_id := None; doc_is_indexed := false;
       doc_created_at := created_at; doc_updated_at := updated_at;
       doc_source_created_at := source_created_at |});
  DocumentService.insert_documents [doc];;
  mret doc.

End WithEnv.

(** The row with the id, if it is of the tenant. *)
Definition is_document (document_id tenant_id : UUID) (d : Document)
  : bool :=
  bool_decide (doc_id d = document_id)
  && DocumentService.of_tenant tenant_id d.

Definition get_document (document_id tenant_id : UUID)
  : M (option Document) :=
  s ← get_state;
  scalar_one_or_none
    (List.filter (is_document document_id tenant_id) (documents s)).

(** The [WHERE] clause of [get_documents]: the tenant, and each filter
    that is given. *)
Definition selected (tenant_id : UUID) (status : option DocumentStatus)
    (project_id connector_id : option UUID) (d : Document) : bool :=
  DocumentService.of_tenant tenant_id d
  && match status with
     | Some st => bool_decide (doc_status d = st)
     | None => true
     end
  && match project_id with
     | Some p => bool_decide (doc_project_id d = Some p)
     | None => true
     end
  && match connector_id with
     | Some c => bool_decide (doc_connector_id d = Some c)
     | None => true
     end.

(** The count statement, then the page statement.  (The store refuses
    a negative [limit] or [offset]; here they are taken as 0.) *)
Definition get_documents (tenant_id : UUID)
    (status : option DocumentStatus) (project_id connector_id : option UUID)
    (limit offset : Z) : M (list Document * Z) :=
  s ← get_state;
  let rows :=
    List.filter (selected tenant_id status project_id connector_id)
      (documents s) in
  let total := Sql.count rows in
  let documents_ :=
    Sql.limit limit
      (Paging.offset offset (Paging.order_by_desc doc_created_at rows)) in
  mret (documents_, total).

Definition bulk_update_status (document_ids : list UUID)
    (status : DocumentStatus) : M Z :=
  match document_ids with
  | [] => mret 0
  | _ =>
      now ← utcnow;
      s ← get_state;
      let '(rows, rowcount) :=
        Sql.update (DocumentService.id_in document_ids)
          (with_status_at status now) (documents s) in
      modify (set_documents rows);;
      emit (SqlUpdateDocuments document_ids rowcount);;
      mret rowcount
  end.

(** The rows that the query of [find_duplicates_by_hash] selects. *)
Definition has_hash_in (content_hashes : list string) (tenant_id : UUID)
    (d : Document) : bool :=
  match doc_content_hash d with
  | Some h => bool_decide (h ∈ content_hashes)
  | None => false
  end
  && DocumentService.of_tenant tenant_id d.

Definition find_duplicates_by_hash (content_hashes : list string)
    (tenant_id : UUID) : M (gset string) :=
  match content_hashes with
  | [] => mret ∅
  | _ =>
      s ← get_state;
      mret (list_to_set
              (omap doc_content_hash
                 (List.filter (has_hash_in content_hashes tenant_id)
                    (documents s))))
  end.

End DocumentCrud.

(** ** api/document_routes.py: the other endpoints *)

Record DocumentCreate : Type := {
  dc_title : string;
  dc_content : option string;
  dc_source_url : option string;
  dc_mime_type : option string;
  dc_metadata : option json
}.

Record DocumentResponse : Type := {
  dr_id : UUID;
  dr_title : string;
  dr_content : option string;
  dr_status : DocumentStatus;
  dr_classification : option string;
  dr_classification_confidence : option pyfloat;
  dr_project_id : option UUID;
  dr_source_url : option string;
  dr_created_at : datetime
}.

Record DocumentListResponse : Type := {
  dl_documents : list DocumentResponse;
  dl_total : Z;
  dl_page : Z;
  dl_per_page : Z
}.

Module DocumentEndpoints.

(** [DocumentResponse.model_validate(d)] *)
Definition model_validate (d : Document) : DocumentResponse :=
  {| dr_id := doc_id d; dr_title := doc_title d;
     dr_content := doc_content d; dr_status := doc_status d;
     dr_classification := doc_classification d;
     dr_classification_confidence := doc_classification_confidence d;
     dr_project_id := doc_project_id d; dr_source_url := doc_source_url d;
     dr_created_at := doc_created_at d |}.

(** [GET /documents].  The declared bounds of the query parameters
    ([page >= 1], [1 <= per_page <= 100]) are checked by the framework
    before the handler is entered. *)
Definition list_documents (status : option DocumentStatus)
    (project_id connector_id : option UUID) (page per_page : Z)
    (tenant_id : UUID) : M DocumentListResponse :=
  let offset := (page - 1) * per_page in
  found ←
    DocumentCrud.get_documents tenant_id status project_id connector_id
      per_page offset;
  mret {| dl_documents := map model_validate (fst found);
          dl_total := snd found;
          dl_page := page; dl_per_page := per_page |}.

Section WithEnv.
Context (env : Env).

(** [POST /documents] *)
Definition create_document (doc_data : DocumentCreate) (tenant_id : UUID)
  : M DocumentResponse :=
  document ←
    DocumentCrud.create_document env tenant_id (dc_title doc_data)
      (dc_content doc_data) None None (dc_source_url doc_data)
      (dc_mime_type doc_data) (dc_metadata doc_data) None;
  mret (model_validate document).

End WithEnv.

(** [GET /documents/{document_id}] *)
Definition get_document (document_id tenant_id : UUID)
  : M DocumentResponse :=
  document ← DocumentCrud.get_document document_id tenant_id;
  match document with
  | None => raise (HTTPException HTTP_404_NOT_FOUND "Document not found")
  | Some d => mret (model_validate d)
  end.

(** [DELETE /documents/{document_id}] *)
Definition delete_document (document_id tenant_id : UUID) : M unit :=
  deleted ←
    DocumentService.bulk_delete_documents [document_id] tenant_id 100;
  if deleted =? 0 then
    raise (HTTPException HTTP_404_NOT_FOUND "Document not found")
  else mret tt.

End DocumentEndpoints.

(** ** Vocabulary: the document store *)

(** The values that a caller gives for the [String(n)] columns of a
    document fit them: the title and the external id in 500 characters,
    the address in 2000, the type in 100. *)
Definition values_fit (title : string)
    (external_id source_url mime_type : option string) : bool :=
  fits_opt 500 external_id && fits 500 title && fits_opt 2000 source_url
  && fits_opt 100 mime_type.

Definition document_create_fits (doc_data : DocumentCreate) : bool :=
  values_fit (dc_title doc_data) None (dc_source_url doc_data)
    (dc_mime_type doc_data).

(** Primary keys: no two rows of [documents] have the same id. *)
Definition unique_ids (s : State) : Prop :=
  List.NoDup (map doc_id (documents s)).

(** The id supply is ahead of every id in [documents]. *)
Definition fresh_ids (s : State) : Prop :=
  Forall (fun d => (doc_id d < uuid_counter s)%N) (documents s).

(** A document of the tenant has the id. *)
Definition owns (tenant_id : UUID) (s : State) (document_id : UUID) : Prop :=
  exists d, d ∈ documents s /\ doc_id d = document_id /\
            doc_tenant_id d = tenant_id.

(** Every row is followed only by rows whose key is not greater. *)
Fixpoint descending {A} (key : A -> Z) (l : list A) : Prop :=
  match l with
  | [] => True
  | x :: l' => Forall (fun y => key y <= key x) l' /\ descending key l'
  end.

(** Newest first. *)
Definition newest_first (docs : list DocumentResponse) : Prop :=
  descending dr_created_at docs.

(** The rows that a listing of the tenant with the filters is about. *)
Definition listed (tenant_id : UUID) (status : option DocumentStatus)
    (project_id connector_id : option UUID) (s : State) : list Document :=
  List.filter (DocumentCrud.selected tenant_id status project_id connector_id)
    (documents s).



(** ** Example stores *)

(** A pending document of a tenant, created at a given time. *)
Definition dated_doc (id tenant_id : UUID) (created_at : datetime)
  : Document :=
  {| doc_id := id; doc_tenant_id := tenant_id; doc_connector_id := None;
     doc_external_id := None; doc_title := "note"; doc_content := None;
     doc_content_hash := None; doc_source_url := None;
     doc_mime_type := None; doc_status := PENDING;
     doc_classification := None; doc_classification_confidence := None;
     doc_project_id := None; doc_metadata := "{}"; doc_vector_id := None;
     doc_is_indexed := false; doc_created_at := created_at;
     doc_updated_at := created_at; doc_source_created_at := None |}.

(** Three documents of tenant 1 and one of tenant 2. *)
Definition library : State :=
  {| documents := [dated_doc 1%N 1%N 5; dated_doc 2%N 1%N 9;
                   dated_doc 3%N 2%N 7; dated_doc 4%N 1%N 2];
     connectors := ∅; sync_progress := []; chat_sessions := ∅;
     chat_messages := []; background_tasks := []; clock := 10;
     uuid_counter := 5; log := [];
     pending_rollback := false |}.

(** The status of a row once [bulk_update_status] has run. *)
Definition status_after (ids : list UUID) (status : DocumentStatus)
    (d : Document) : DocumentStatus :=
  if DocumentService.id_in ids d then status else doc_status d.


(** ** services/chat_service.py: sessions and streaming *)

(** A completion that is streamed: the content of its deltas, in order
    ([None] for a delta without content), and the exception that ends the
    stream early, if any. *)
Record Stream : Type := {
  stream_deltas : list (option string);
  stream_error : option exn
}.

(** The streaming side of the completion client. *)
Record StreamingClient : Type := {
  chat_completions_stream : list Turn -> Result Stream
}.

Module ChatSessions.

(** The [String(255)] column of [chat_sessions]. *)
Definition session_fits (session : ChatSession) : bool :=
  fits_opt 255 (cs_title session).

(** [create_session]; the flush draws the id and the two timestamps, and
    the insert is refused for a title that is too long and fails on an
    id that is taken. *)
Definition create_session (tenant_id : UUID) (title : option string)
  : M (UUID * ChatSession) :=
  id ← uuid4;
  created_at ← utcnow;
  updated_at ← utcnow;
  let session :=
    {| cs_tenant_id := tenant_id;
       cs_title := Some (if truthy title then default "" title
                         else "New Chat");
       cs_updated_at := updated_at |} in
  s ← get_state;
  if negb (session_fits session) then refused value_too_long
  else
    match chat_sessions s !! id with
    | Some _ =>
        refused
          (IntegrityError
             "duplicate key value violates unique constraint chat_sessions_pkey")
    | None =>
        modify (fun s =>
          set_chat_sessions (<[id := session]> (chat_sessions s)) s);;
        emit (SqlInsert "chat_sessions" 1);;
        mret (id, session)
    end.

Definition get_session (session_id tenant_id : UUID)
  : M (option ChatSession) :=
  s ← get_state;
  mret (match chat_sessions s !! session_id with
        | Some session =>
            if bool_decide (cs_tenant_id session = tenant_id)
            then Some session else None
        | None => None
        end).

(** The sessions of a tenant, most recently updated first. *)
Definition get_sessions (tenant_id : UUID) (limit offset : Z)
  : M (list (UUID * ChatSession)) :=
  s ← get_state;
  let rows :=
    List.filter (fun r => bool_decide (cs_tenant_id (snd r) = tenant_id))
      (map_to_list (chat_sessions s)) in
  mret (Sql.limit limit
          (Paging.offset offset
             (Paging.order_by_desc (fun r => cs_updated_at (snd r)) rows))).

Definition of_session (session_id : UUID) (m : ChatMessage) : bool :=
  bool_decide (msg_session_id m = session_id).

(** [delete_session]: the messages of the session go with it (the
    relationship cascades, and so does the foreign key). *)
Definition delete_session (session_id tenant_id : UUID) : M bool :=
  session ← get_session session_id tenant_id;
  match session with
  | Some _ =>
      modify (fun s =>
        set_chat_messages
          (List.filter (fun m => negb (of_session session_id m))
             (chat_messages s))
          (set_chat_sessions (delete session_id (chat_sessions s)) s));;
      mret true
  | None => mret false
  end.

Section WithEnv.
Context (env : Env) (client : StreamingClient).

(** The chunks that [generate_response_stream] yields: the deltas with
    content. *)
Definition chunks_of (deltas : list (option string)) : list string :=
  omap (fun content => if truthy content then content else None) deltas.

(** [generate_response_stream], consumed to its end: the chunks it
    yields.  When the stream ends early the exception is raised, and
    the chunks yielded before it are not part of the result. *)
Definition generate_response_stream (messages : list Turn)
    (context system_prompt : option string) : M (list string) :=
  emit (Call call_chat_completion);;
  stream ←
    lift (chat_completions_stream client
            (AIService.formatted_messages messages context system_prompt));
  match stream_error stream with
  | Some e => raise e
  | None => mret (chunks_of (stream_deltas stream))
  end.

(** [chat_stream], consumed to its end: the chunks it yields. *)
Definition chat_stream (session_id tenant_id : UUID) (user_message : string)
  : M (list string) :=
  history ← ChatService.load_history session_id user_message;
  relevant_docs ←
    VectorService.search env user_message (str_uuid tenant_id) 5;
  let context := ChatService._build_context relevant_docs in
  chunks ←
    generate_response_stream history (Some context)
      (Some ChatService._get_system_prompt);
  let full_response := String.concat "" chunks in
  let source_ids := ChatService.source_ids relevant_docs in
  ChatService.add_message session_id "assistant" full_response
    (Some source_ids);;
  mret chunks.

End WithEnv.

End ChatSessions.

(** ** api/chat_routes.py *)

Record SessionResponse : Type := {
  sr_id : UUID;
  sr_title : option string;
  sr_updated_at : datetime
}.

Record MessageResponse : Type := {
  mr_id : UUID;
  mr_role : string;
  mr_content : string;
  mr_sources : option (list string);
  mr_created_at : datetime
}.

Module ChatRoutes.

Definition session_response (r : UUID * ChatSession) : SessionResponse :=
  {| sr_id := fst r; sr_title := cs_title (snd r);
     sr_updated_at := cs_updated_at (snd r) |}.

Definition message_response (m : ChatMessage) : MessageResponse :=
  {| mr_id := msg_id m; mr_role := msg_role m; mr_content := msg_content m;
     mr_sources := msg_sources m; mr_created_at := msg_created_at m |}.

Definition session_not_found : exn :=
  HTTPException HTTP_404_NOT_FOUND "Session not found".

(** [GET /chat/sessions] *)
Definition list_sessions (limit offset : Z) (tenant_id : UUID)
  : M (list SessionResponse) :=
  sessions ← ChatSessions.get_sessions tenant_id limit offset;
  mret (map session_response sessions).

(** [POST /chat/sessions] *)
Definition create_session (title : option string) (tenant_id : UUID)
  : M SessionResponse :=
  session ← ChatSessions.create_session tenant_id title;
  mret (session_response session).

(** [GET /chat/sessions/{session_id}] *)
Definition get_session (session_id tenant_id : UUID) : M SessionResponse :=
  session ← ChatSessions.get_session session_id tenant_id;
  match session with
  | None => raise session_not_found
  | Some c => mret (session_response (session_id, c))
  end.

(** [DELETE /chat/sessions/{session_id}] *)
Definition delete_session (session_id tenant_id : UUID) : M unit :=
  deleted ← ChatSessions.delete_session session_id tenant_id;
  match deleted with
  | true => mret tt
  | false => raise session_not_found
  end.

(** [GET /chat/sessions/{session_id}/messages]; the limit is the default
    of the service, 50. *)
Definition get_messages (session_id tenant_id : UUID)
  : M (list MessageResponse) :=
  session ← ChatSessions.get_session session_id tenant_id;
  match session with
  | None => raise session_not_found
  | Some _ =>
      messages ← ChatService.get_messages session_id 50;
      mret (map message_response messages)
  end.

Section WithEnv.
Context (env : Env) (client : StreamingClient).

(** [POST /chat/sessions/{session_id}/chat] *)
Definition chat (session_id : UUID) (message : string) (tenant_id : UUID)
  : M ChatResult :=
  session ← ChatSessions.get_session session_id tenant_id;
  match session with
  | None => raise session_not_found
  | Some _ => ChatService.chat env session_id tenant_id message
  end.

(** The frames of the event stream. *)
Definition frame (chunk : string) : string :=
  "data: " +:+ chunk +:+ newline +:+ newline.

(** [POST /chat/sessions/{session_id}/chat/stream], with the response
    consumed to its end: the frames sent. *)
Definition chat_stream (session_id : UUID) (message : string)
    (tenant_id : UUID) : M (list string) :=
  session ← ChatSessions.get_session session_id tenant_id;
  match session with
  | None => raise session_not_found
  | Some _ =>
      chunks ←
        ChatSessions.chat_stream env client session_id tenant_id message;
      mret (map frame chunks ++ [frame "[DONE]"])
  end.

End WithEnv.

End ChatRoutes.

(** ** Vocabulary: chat *)

(** The messages of a session, in table order. *)
Definition messages_of (session_id : UUID) (s : State) : list ChatMessage :=
  List.filter (ChatSessions.of_session session_id) (chat_messages s).

(** The messages of the other sessions. *)
Definition messages_of_others (session_id : UUID) (s : State)
  : list ChatMessage :=
  List.filter (fun m => negb (ChatSessions.of_session session_id m))
    (chat_messages s).

(** The id supply is ahead of every session id. *)
Definition fresh_session_ids (s : State) : Prop :=
  forall id, is_Some (chat_sessions s !! id) -> (id < uuid_counter s)%N.

(** The clock is ahead of every time written in the chat tables. *)
Definition clock_ahead (s : State) : Prop :=
  (forall id c, chat_sessions s !! id = Some c -> cs_updated_at c < clock s) /\
  Forall (fun m => msg_created_at m < clock s) (chat_messages s).

(** An exception that a collaborator of a chat turn answered with, or
    the one for an embedding response without data. *)
Definition from_upstream (env : Env) (e : exn) : Prop :=
  (exists inputs, embeddings_create env inputs = Raise e) \/
  (exists v k ns, index_query env v k ns = Raise e) \/
  (exists turns, chat_completions_create env turns = Raise e) \/
  e = IndexError "list index out of range".

(** ** Example stores *)

(** The session of tenant 1 once it holds fifty messages; it is now 60. *)
Definition long_conversation : State :=
  set_uuid_counter 60 (set_clock 60 (conversation 50)).

(** An exception of the streaming client: at the request, or in the
    middle of the stream. *)
Definition from_stream (client : StreamingClient) (e : exn) : Prop :=
  (exists turns, chat_completions_stream client turns = Raise e) \/
  (exists turns stream,
     chat_completions_stream client turns = Ok stream /\
     stream_error stream = Some e).


(** ** Python strings: [replace] and [title], on ASCII *)

Module PyStr.

Definition is_lower (c : ascii) : bool :=
  (97 <=? nat_of_ascii c)%nat && (nat_of_ascii c <=? 122)%nat.

Definition is_upper (c : ascii) : bool :=
  (65 <=? nat_of_ascii c)%nat && (nat_of_ascii c <=? 90)%nat.

Definition upper (c : ascii) : ascii :=
  if is_lower c then ascii_of_nat (nat_of_ascii c - 32) else c.

Definition lower (c : ascii) : ascii :=
  if is_upper c then ascii_of_nat (nat_of_ascii c + 32) else c.

(** [s.replace(a, b)] for single characters *)
Fixpoint replace (a b : ascii) (s : string) : string :=
  match s with
  | EmptyString => EmptyString
  | String c rest =>
      String (if Ascii.eqb c a then b else c) (replace a b rest)
  end.

(** [s.title()]: a letter that follows a letter is lowered, any other
    letter is raised. *)
Fixpoint title_from (previous_is_cased : bool) (s : string) : string :=
  match s with
  | EmptyString => EmptyString
  | String c rest =>
      if is_lower c then
        String (if previous_is_cased then c else upper c)
          (title_from true rest)
      else if is_upper c then
        String (if previous_is_cased then lower c else c)
          (title_from true rest)
      else String c (title_from false rest)
  end.

Definition title (s : string) : string := title_from false s.

End PyStr.

(** ** api/integration_routes.py: connectors and OAuth *)

Record ConnectorCreate : Type := {
  cc_connector_type : ConnectorType;
  cc_name : string;
  cc_credentials : option json
}.

Record ConnectorResponse : Type := {
  cr_id : UUID;
  cr_connector_type : ConnectorType;
  cr_name : string;
  cr_is_active : bool;
  cr_last_sync_at : option datetime;
  cr_sync_status : string
}.

(** The class methods of a connector class that the OAuth routes call. *)
Record OAuthMethods : Type := {
  get_oauth_url : string -> string;
  exchange_code : string -> Result json
}.

Module ConnectorRoutes.

Definition model_validate (r : UUID * Connector) : ConnectorResponse :=
  {| cr_id := fst r; cr_connector_type := conn_connector_type (snd r);
     cr_name := conn_name (snd r); cr_is_active := conn_is_active (snd r);
     cr_last_sync_at := conn_last_sync_at (snd r);
     cr_sync_status := conn_sync_status (snd r) |}.

Definition connector_not_found : exn :=
  HTTPException HTTP_404_NOT_FOUND "Connector not found".

Definition with_credentials (v : json) (c : Connector) : Connector :=
  {| conn_tenant_id := conn_tenant_id c;
     conn_connector_type := conn_connector_type c;
     conn_name := conn_name c; conn_credentials := v;
     conn_is_active := conn_is_active c;
     conn_last_sync_at := conn_last_sync_at c;
     conn_sync_status := conn_sync_status c;
     conn_sync_error := conn_sync_error c |}.

Definition with_is_active (v : bool) (c : Connector) : Connector :=
  {| conn_tenant_id := conn_tenant_id c;
     conn_connector_type := conn_connector_type c;
     conn_name := conn_name c; conn_credentials := conn_credentials c;
     conn_is_active := v;
     conn_last_sync_at := conn_last_sync_at c;
     conn_sync_status := conn_sync_status c;
     conn_sync_error := conn_sync_error c |}.

(** A [Connector(...)] with the defaults of its columns. *)
Definition new_connector (tenant_id : UUID) (connector_type : ConnectorType)
    (name : string) (credentials : json) : Connector :=
  {| conn_tenant_id := tenant_id; conn_connector_type := connector_type;
     conn_name := name; conn_credentials := credentials;
     conn_is_active := true; conn_last_sync_at := None;
     conn_sync_status := "idle"; conn_sync_error := None |}.

(** The [String(255)] column of [connectors] that a caller fills. *)
Definition connector_fits (connector : Connector) : bool :=
  fits 255 (conn_name connector).

(** The flush of an added connector: the id and the two timestamps are
    drawn, and the insert is refused for a name that is too long and
    fails on an id that is taken. *)
Definition add_connector (connector : Connector) : M UUID :=
  id ← uuid4;
  created_at ← utcnow;
  updated_at ← utcnow;
  s ← get_state;
  if negb (connector_fits connector) then refused value_too_long
  else
    match connectors s !! id with
    | Some _ =>
        refused
          (IntegrityError
             "duplicate key value violates unique constraint connectors_pkey")
    | None =>
        modify (fun s =>
          set_connectors (<[id := connector]> (connectors s)) s);;
        emit (SqlInsert "connectors" 1);;
        mret id
    end.

(** [GET /integrations/connectors] *)
Definition list_connectors (tenant_id : UUID) : M (list ConnectorResponse) :=
  s ← get_state;
  mret (map model_validate
          (List.filter
             (fun r => bool_decide (conn_tenant_id (snd r) = tenant_id))
             (map_to_list (connectors s)))).

(** [POST /integrations/connectors] *)
Definition create_connector (data : ConnectorCreate) (tenant_id : UUID)
  : M ConnectorResponse :=
  let connector :=
    new_connector tenant_id (cc_connector_type data) (cc_name data)
      (default "{}" (cc_credentials data)) in
  id ← add_connector connector;
  mret (model_validate (id, connector)).

(** [GET /integrations/connectors/{connector_id}] *)
Definition get_connector (connector_id tenant_id : UUID)
  : M ConnectorResponse :=
  found ← connector_of_tenant connector_id tenant_id;
  match found with
  | None => raise connector_not_found
  | Some connector => mret (model_validate (connector_id, connector))
  end.

(** What the store does with the rows that reference a deleted
    connector: the documents are kept without it ([SET NULL]), and the
    progress rows go ([CASCADE]).  Only the reference changes here: the
    other columns of a kept document, [updated_at] among them, are taken
    as they were. *)
Definition detached (connector_id : UUID) (d : Document) : Document :=
  if bool_decide (doc_connector_id d = Some connector_id) then
    {| doc_id := doc_id d; doc_tenant_id := doc_tenant_id d;
       doc_connector_id := None;
       doc_external_id := doc_external_id d; doc_title := doc_title d;
       doc_content := doc_content d;
       doc_content_hash := doc_content_hash d;
       doc_source_url := doc_source_url d; doc_mime_type := doc_mime_type d;
       doc_status := doc_status d;
       doc_classification := doc_classification d;
       doc_classification_confidence := doc_classification_confidence d;
       doc_project_id := doc_project_id d; doc_metadata := doc_metadata d;
       doc_vector_id := doc_vector_id d; doc_is_indexed := doc_is_indexed d;
       doc_created_at := doc_created_at d;
       doc_updated_at := doc_updated_at d;
       doc_source_created_at := doc_source_created_at d |}
  else d.

(** [DELETE /integrations/connectors/{connector_id}] *)
Definition delete_connector (connector_id tenant_id : UUID) : M unit :=
  found ← connector_of_tenant connector_id tenant_id;
  match found with
  | None => raise connector_not_found
  | Some _ =>
      modify (fun s =>
        set_documents (map (detached connector_id) (documents s))
          (set_sync_progress
             (List.filter (fun p => negb (for_connector connector_id p))
                (sync_progress s))
             (set_connectors (delete connector_id (connectors s)) s)))
  end.

Section WithEnv.
Context (env : Env) (oauth : ConnectorType -> OAuthMethods).

Definition unknown_connector_type (connector_type : ConnectorType) : exn :=
  HTTPException HTTP_400_BAD_REQUEST
    ("Unknown connector type: " +:+ format_connector_type connector_type).

(** [GET /integrations/{connector_type}/oauth/url] *)
Definition get_oauth_url (connector_type : ConnectorType)
    (tenant_id : UUID) : M string :=
  connector_class ← Connectors.get_connector_class env connector_type;
  match connector_class with
  | None => raise (unknown_connector_type connector_type)
  | Some _ => mret (get_oauth_url (oauth connector_type) (str_uuid tenant_id))
  end.

(** The connectors of a tenant that are of a type. *)
Definition of_tenant_and_type (tenant_id : UUID)
    (connector_type : ConnectorType) (r : UUID * Connector) : bool :=
  bool_decide (conn_tenant_id (snd r) = tenant_id)
  && bool_decide (conn_connector_type (snd r) = connector_type).

(** [POST /integrations/{connector_type}/oauth/callback] *)
Definition oauth_callback (connector_type : ConnectorType) (code : string)
    (tenant_id : UUID) : M ConnectorResponse :=
  connector_class ← Connectors.get_connector_class env connector_type;
  match connector_class with
  | None => raise (unknown_connector_type connector_type)
  | Some _ =>
      credentials ←
        try_except (lift (exchange_code (oauth connector_type) code))
          (fun e =>
             raise (HTTPException HTTP_400_BAD_REQUEST
                      ("Failed to exchange code: " +:+ str_exn e)));
      s ← get_state;
      found ←
        scalar_one_or_none
          (List.filter (of_tenant_and_type tenant_id connector_type)
             (map_to_list (connectors s)));
      match found with
      | Some r =>
          set_connector (fst r) (with_credentials credentials);;
          set_connector (fst r) (with_is_active true);;
          mret (model_validate
                  (fst r,
                   with_is_active true (with_credentials credentials (snd r))))
      | None =>
          let connector :=
            with_is_active true
              (new_connector tenant_id connector_type
                 (PyStr.title
                    (PyStr.replace "_" " "
                       (connector_type_value connector_type)))
                 credentials) in
          id ← add_connector connector;
          mret (model_validate (id, connector))
      end
  end.

End WithEnv.

End ConnectorRoutes.

(** ** Vocabulary: connectors *)

(** The id supply is ahead of every connector id. *)
Definition fresh_connector_ids (s : State) : Prop :=
  forall id, is_Some (connectors s !! id) -> (id < uuid_counter s)%N.

(** Foreign key of [sync_progress]: every progress row is of a connector
    that exists. *)
Definition progress_has_connector (s : State) : Prop :=
  Forall (fun p => is_Some (connectors s !! sp_connector_id p))
    (sync_progress s).

(** The documents of a connector. *)
Definition of_connector (connector_id : UUID) (d : Document) : bool :=
  bool_decide (doc_connector_id d = Some connector_id).

(** The tables that a sync task may write. *)
Definition same_tables (s s' : State) : Prop :=
  documents s' = documents s /\ connectors s' = connectors s /\
  sync_progress s' = sync_progress s.

(** The connectors of a tenant that are of a type, with their ids. *)
Definition connectors_of (tenant_id : UUID) (connector_type : ConnectorType)
    (s : State) : list (UUID * Connector) :=
  List.filter (ConnectorRoutes.of_tenant_and_type tenant_id connector_type)
    (map_to_list (connectors s)).

(** A request to the content source. *)
Definition is_source_call (e : Event) : bool :=
  match e with
  | Call call_fetch_items => true
  | _ => false
  end.

(** ** Example stores *)

(** Connector 3 deleted by its tenant while its first sync is pending. *)
Definition deleted_while_pending : State :=
  snd (ConnectorRoutes.delete_connector 3%N 1%N sync_accepted).

(** A OneDrive connector of tenant 1 that has never been synced. *)
Definition onedrive_store : State :=
  {| documents := [];
     connectors :=
       {[ 3%N := {| conn_tenant_id := 1%N; conn_connector_type := ONEDRIVE;
                    conn_name := "Onedrive"; conn_credentials := "{}";
                    conn_is_active := true; conn_last_sync_at := None;
                    conn_sync_status := "idle"; conn_sync_error := None |} ]};
     sync_progress := []; chat_sessions := ∅; chat_messages := [];
     background_tasks := []; clock := 20; uuid_counter := 4; log := [];
     pending_rollback := false |}.

(** A provider that exchanges every code but ["denied"]. *)
Definition example_oauth (connector_type : ConnectorType) : OAuthMethods :=
  {| get_oauth_url := fun state =>
       "https://provider.example/authorize?state=" +:+ state;
     exchange_code := fun code =>
       if String.eqb code "denied"
       then Raise (UpstreamError "invalid_grant")
       else Ok ("token for " +:+ code) |}.


(** ** Vocabulary: embedding and indexing in batches *)

(** The calls to the embedding client and to the index, by the number
    of inputs and of vectors they carry. *)
Definition embedding_calls (sizes : list nat) : list Event :=
  map (fun n => Call (call_embeddings_create n)) sizes.

Definition upsert_calls (sizes : list nat) : list Event :=
  map (fun n => Call (call_index_upsert n)) sizes.

(** The sizes of the batches that [n] items are cut into: as many as
    [ceil(n / batch_size)], each of 1 to [batch_size] items, [n] items
    in all. *)
Definition cut_into (batch_size : Z) (n : nat) (sizes : list nat) : Prop :=
  length sizes = Z.to_nat ((Z.of_nat n + batch_size - 1) / batch_size) /\
  Forall (fun k => (0 < k)%nat /\ Z.of_nat k <= batch_size) sizes /\
  fold_right Nat.add 0%nat sizes = n.

(** A client that returns one embedding for each input, in order. *)
Definition embeds_with (env : Env) (embed : string -> embedding) : Prop :=
  forall batch, embeddings_create env batch = Ok (map embed batch).

(** An index that accepts every upsert. *)
Definition index_accepts (env : Env) : Prop :=
  forall vectors namespace, index_upsert env vectors namespace = Ok tt.

(** A client that answers every request with one embedding, however many
    inputs the request has, and an index that accepts every upsert. *)
Definition one_embedding_env : Env :=
  {| sha256_hexdigest := fun content => content;
     import_connector := fun _ => Raise (UpstreamError "no connector");
     embeddings_create := fun _ => Ok [[]];
     index_upsert := fun _ _ => Ok tt;
     index_query := fun _ _ _ => Ok [];
     chat_completions_create := fun _ => Ok "" |}.

(** Three documents to index. *)
Definition three_to_index : list IndexDoc :=
  [{| ix_id := "d1"; ix_title := "One"; ix_content := "first" |};
   {| ix_id := "d2"; ix_title := "Two"; ix_content := "second" |};
   {| ix_id := "d3"; ix_title := "Three"; ix_content := "third" |}].

(** * Properties *)

(** ** Running a computation *)

Lemma bind_ok {A B} (m : M A) (f : A -> M B) s a s' :
  m s = (Ok a, s') -> (m ≫= f) s = f a s'.
Proof. intros H. unfold mbind, M_bind. now rewrite H. Qed.

Lemma bind_assoc_run {A B C} (m : M A) (f : A -> M B) (g : B -> M C) s :
  ((m ≫= f) ≫= g) s = (m ≫= (fun a => f a ≫= g)) s.
Proof.
  unfold mbind, M_bind. destruct (m s) as [[a|e] s1]; reflexivity.
Qed.

Lemma bind_raise {A B} (m : M A) (f : A -> M B) s e s' :
  m s = (Raise e, s') -> (m ≫= f) s = (Raise e, s').
Proof. intros H. unfold mbind, M_bind. now rewrite H. Qed.

(** ** Document store: bulk classification *)

Lemma update_rows_classified ids classification confidence now rows :
  Forall2 (classified_row ids classification confidence) rows
    (map (fun d => if id_in ids d
                   then classified_as classification confidence now d
                   else d) rows).
Proof.
  induction rows as [|d rows IH]; simpl; constructor; auto.
  unfold classified_row, id_in.
  destruct (bool_decide_reflect (doc_id d ∈ ids)) as [Hin|Hout]; simpl.
  - split; [reflexivity|split].
    + intros _. repeat split.
    + intros Hno. destruct (Hno Hin).
  - split; [reflexivity|split].
    + intros Hyes. destruct (Hout Hyes).
    + reflexivity.
Qed.

Lemma filter_id_in_nil rows : List.filter (id_in []) rows = [].
Proof.
  induction rows as [|d rows IH]; simpl; auto.
Qed.

Lemma unchanged_rows_classified classification confidence rows :
  Forall2 (classified_row [] classification confidence) rows rows.
Proof.
  induction rows as [|d rows IH]; constructor; auto.
  split; [reflexivity|split]; [intros H; inversion H|reflexivity].
Qed.

Lemma fits_length width v :
  (String.length v <= width)%nat -> fits width v = true.
Proof. intros H. unfold fits. now apply Nat.leb_le. Qed.

Lemma fits_false_length width v :
  fits width v = false -> (width < String.length v)%nat.
Proof. unfold fits. intros H. now apply Nat.leb_gt. Qed.

(** A label that is too long for its column: the update is refused as
    soon as it reaches a row, and no row is classified. *)
Lemma bulk_classify_documents_refused ids classification confidence s :
  (50 < String.length classification)%nat ->
  List.filter (id_in ids) (documents s) <> [] ->
  exists s',
    bulk_classify_documents ids classification confidence s
      = (Raise value_too_long, s') /\
    documents s' = documents s /\
    same_but_documents s s' /\
    log s' = log s.
Proof.
  intros Hlong Hrows. destruct ids as [|i ids].
  - now rewrite filter_id_in_nil in Hrows.
  - unfold bulk_classify_documents. unfold_monad. simpl.
    replace (fits 50 classification) with false
      by (symmetry; unfold fits; apply Nat.leb_gt; lia).
    destruct (Z.eqb_spec (len (List.filter (id_in (i :: ids)) (documents s)))
                0) as [Hzero|_].
    + destruct (List.filter (id_in (i :: ids)) (documents s));
        [congruence|discriminate Hzero].
    + simpl. eexists. split; [reflexivity|]. repeat split.
Qed.

(** C7. [bulk_classify_documents] with a label that fits its column (50
    characters) returns the number of rows whose id is in the list;
    every such row, and no other, is set to [CLASSIFIED] with the label
    and the confidence; on an empty list nothing at all happens (no
    statement, no write), and otherwise exactly one update statement is
    sent. *)
Theorem bulk_classify_documents_spec ids classification confidence s :
  (String.length classification <= 50)%nat ->
  exists s',
    bulk_classify_documents ids classification confidence s
      = (Ok (len (List.filter (id_in ids) (documents s))), s') /\
    Forall2 (classified_row ids classification confidence)
      (documents s) (documents s') /\
    same_but_documents s s' /\
    (ids = [] -> s' = s) /\
    (ids <> [] ->
       log s' = log s ++
         [SqlUpdateDocuments ids
            (len (List.filter (id_in ids) (documents s)))]).
Proof.
  intros Hfits. apply fits_length in Hfits.
  destruct ids as [|i ids].
  - exists s. rewrite filter_id_in_nil.
    split; [reflexivity|].
    split; [apply unchanged_rows_classified|].
    split; [repeat split|].
    split; [reflexivity|]. intros H. destruct (H eq_refl).
  - eexists. unfold bulk_classify_documents. unfold_monad. simpl.
    rewrite Hfits. simpl.
    split; [reflexivity|]. simpl.
    split; [apply update_rows_classified|].
    split; [repeat split|].
    split; [discriminate|]. intros _. reflexivity.
Qed.

Lemma bulk_classify_documents_witness :
  exists s',
    bulk_classify_documents [3%N; 1%N; 3%N] "work" (float_of_int 1)
      classify_example_state = (Ok 2, s') /\
    log s' = [SqlUpdateDocuments [3%N; 1%N; 3%N] 2].
Proof.
  destruct (bulk_classify_documents_spec [3%N; 1%N; 3%N] "work"
              (float_of_int 1) classify_example_state)
    as (s' & Hrun & _ & _ & _ & Hlog).
  - simpl. lia.
  - exists s'. split.
    + exact Hrun.
    + apply Hlog. discriminate.
Defined.

(** ** Document store: statistics *)

Lemma or_zero_sum {A} (e : A -> Z) rows :
  or_zero (Sql.sum e rows) = fold_right Z.add 0 (map e rows).
Proof. destruct rows; reflexivity. Qed.

Lemma len_cons {A} (x : A) l : len (x :: l) = 1 + len l.
Proof. unfold len. simpl length. lia. Qed.

Lemma len_filter_cons {A} (p : A -> bool) x l :
  len (List.filter p (x :: l))
    = (if p x then 1 else 0) + len (List.filter p l).
Proof. simpl. destruct (p x); [apply len_cons|reflexivity]. Qed.

Lemma sum_has_status status rows :
  fold_right Z.add 0 (map (has_status status) rows)
    = len (List.filter (in_status status) rows).
Proof.
  induction rows as [|d rows IH]; [reflexivity|].
  rewrite len_filter_cons, <- IH. reflexivity.
Qed.

Lemma statuses_partition rows :
  len rows =
    len (List.filter (in_status PENDING) rows)
    + len (List.filter (in_status PROCESSING) rows)
    + len (List.filter (in_status CLASSIFIED) rows)
    + len (List.filter (in_status INDEXED) rows)
    + len (List.filter (in_status FAILED) rows).
Proof.
  induction rows as [|d rows IH]; [reflexivity|].
  rewrite !len_filter_cons, len_cons, IH. unfold in_status.
  destruct (doc_status d); repeat case_bool_decide; try congruence; lia.
Qed.

(** C9. The statistics of a tenant come from one aggregating query;
    [total] is the number of the tenant's documents, each of the five
    status fields is the number of the tenant's documents in that
    status, and [total] is the sum of the five. *)
Theorem get_document_stats_total tenant_id s :
  exists st,
    get_document_stats tenant_id s
      = (Ok st,
         set_log (log s ++ [SqlSelect (select_document_stats tenant_id)]) s)
    /\ stats_total st
         = stats_pending st + stats_processing st + stats_classified st
           + stats_indexed st + stats_failed st
    /\ stats_total st
         = len (List.filter (of_tenant tenant_id) (documents s))
    /\ forall status,
         bucket st status
           = len (List.filter (in_status status)
                    (List.filter (of_tenant tenant_id) (documents s))).
Proof.
  eexists. split; [reflexivity|].
  cbn [stats_total stats_pending stats_processing stats_classified
         stats_indexed stats_failed].
  rewrite !or_zero_sum, !sum_has_status.
  split; [apply statuses_partition|].
  split; [reflexivity|].
  intros []; reflexivity.
Qed.

(** ** Document store: bulk deletion *)

Lemma len_filter_negb {A} (p : A -> bool) (rows : list A) :
  len rows - len (List.filter (fun r => negb (p r)) rows)
    = len (List.filter p rows).
Proof.
  unfold len. induction rows as [|r rows IH]; simpl; auto.
  destruct (p r); simpl length; lia.
Qed.

Lemma slice_chunk {A} (l : list A) (i bs : Z) :
  0 <= i < len l -> 0 < bs ->
  slice l i (i + bs) = firstn (Z.to_nat bs) (skipn (Z.to_nat i) l).
Proof.
  intros Hi Hbs. unfold slice, slice_index, len in *.
  destruct (Z.ltb_spec i 0); [lia|].
  destruct (Z.ltb_spec (i + bs) 0); [lia|].
  rewrite (Z.min_l i) by lia.
  destruct (Z.le_ge_cases (i + bs) (Z.of_nat (length l))) as [Hle|Hge].
  - rewrite Z.min_l by lia. f_equal. lia.
  - rewrite Z.min_r by lia. rewrite Nat2Z.id.
    rewrite !firstn_all2; auto; rewrite length_skipn; lia.
Qed.

Lemma filter_others_after_delete tenant_id batch rows :
  List.filter (of_others tenant_id)
    (List.filter
       (fun d => negb (id_in batch d && of_tenant tenant_id d)) rows)
    = List.filter (of_others tenant_id) rows.
Proof.
  unfold of_others.
  induction rows as [|d rows IH]; simpl; auto.
  destruct (id_in batch d), (of_tenant tenant_id d) eqn:Ht; simpl;
    rewrite ?Ht; simpl; now rewrite IH.
Qed.

Lemma no_batch_left n i bs :
  0 < bs -> n <= i -> Z.to_nat ((n - i + bs - 1) / bs) = 0%nat.
Proof.
  intros Hbs Hle.
  destruct (Z.le_gt_cases 0 (n - i + bs - 1)) as [Hpos|Hneg].
  - rewrite Z.div_small by lia. reflexivity.
  - assert ((n - i + bs - 1) / bs < 0)
      by (apply Z.div_lt_upper_bound; lia).
    lia.
Qed.

Lemma for_fold_cons {A B} (x : A) l (acc : B) body s :
  for_fold (x :: l) acc body s =
    match body acc x s with
    | (Ok acc', s') => for_fold l acc' body s'
    | (Raise e, s') => (Raise e, s')
    end.
Proof. reflexivity. Qed.

Lemma delete_batch_run ids tenant_id bs acc i s :
  let batch := slice ids i (i + bs) in
  let hit := fun d => id_in batch d && of_tenant tenant_id d in
  let rowcount := len (List.filter hit (documents s)) in
  delete_batch ids tenant_id bs acc i s =
    (Ok (acc + rowcount),
     set_log (log s ++ [SqlDeleteDocuments batch tenant_id rowcount])
       (set_documents (List.filter (fun d => negb (hit d)) (documents s))
          s)).
Proof. reflexivity. Qed.

(** The loop over the batches that start at index [i] and after. *)
Lemma delete_batches_from ids tenant_id bs :
  0 < bs ->
  forall fuel i acc s,
    0 <= i -> (Z.to_nat (len ids - i) <= fuel)%nat ->
    exists (batches : list (list UUID * Z)) s',
      for_fold (range_from fuel i (len ids) bs) acc
        (delete_batch ids tenant_id bs) s
        = (Ok (acc + total_of (map snd batches)), s') /\
      log s' = log s ++ map (delete_event tenant_id) batches /\
      concat (map fst batches) = skipn (Z.to_nat i) ids /\
      Forall (fun b => 0 < len (fst b) <= bs) batches /\
      length batches = Z.to_nat ((len ids - i + bs - 1) / bs) /\
      len (documents s) - len (documents s') = total_of (map snd batches) /\
      List.filter (of_others tenant_id) (documents s')
        = List.filter (of_others tenant_id) (documents s) /\
      same_but_documents s s'.
Proof.
  intros Hbs. induction fuel as [|fuel IH]; intros i acc s Hi Hfuel.
  - exists [], s. simpl. rewrite Z.add_0_r, app_nil_r.
    repeat split; auto.
    + rewrite skipn_all2; auto. unfold len in *. lia.
    + now rewrite no_batch_left by lia.
    + lia.
  - simpl. destruct (Z.ltb_spec 0 bs); [|lia].
    destruct (Z.ltb_spec i (len ids)) as [Hlt|Hge].
    + rewrite for_fold_cons, delete_batch_run.
      rewrite slice_chunk by lia.
      set (batch := firstn (Z.to_nat bs) (skipn (Z.to_nat i) ids)).
      set (hit := fun d => id_in batch d && of_tenant tenant_id d).
      set (rc := len (List.filter hit (documents s))).
      set (s1 := set_log _ _).
      destruct (IH (i + bs) (acc + rc) s1) as
        (batches & s' & Hrun & Hlog & Hcat & Hall & Hlen & Hrows & Hothers
           & Hsame);
        [lia|lia|].
      exists ((batch, rc) :: batches), s'.
      rewrite Hrun. simpl.
      repeat split; try apply Hsame.
      * f_equal. f_equal. lia.
      * rewrite Hlog. subst s1. simpl. now rewrite <- app_assoc.
      * rewrite Hcat. subst batch.
        replace (Z.to_nat (i + bs)) with (Z.to_nat bs + Z.to_nat i)%nat
          by lia.
        rewrite <- skipn_skipn.
        apply firstn_skipn.
      * constructor; auto. simpl. subst batch. unfold len in *.
        rewrite length_firstn, length_skipn. lia.
      * rewrite Hlen.
        replace (len ids - i + bs - 1) with
          ((len ids - (i + bs) + bs - 1) + 1 * bs) by lia.
        rewrite Z.div_add by lia.
        assert (0 <= (len ids - (i + bs) + bs - 1) / bs)
          by (apply Z.div_pos; lia).
        lia.
      * rewrite <- Hrows. subst s1 rc hit. simpl.
        rewrite <- (len_filter_negb
                      (fun d => id_in batch d && of_tenant tenant_id d)
                      (documents s)).
        lia.
      * rewrite Hothers. subst s1 hit. simpl.
        apply filter_others_after_delete.
    + exists [], s. simpl. rewrite Z.add_0_r, app_nil_r.
      repeat split; auto.
      * rewrite skipn_all2; auto. unfold len in *. lia.
      * now rewrite no_batch_left by lia.
      * lia.
Qed.

(** C6. With a batch size of 100, [bulk_delete_documents] cuts the id
    list into consecutive batches of 1 to 100 ids, sends one delete
    statement per batch, [ceil(n / 100)] in all (3 for 250 ids) whatever
    the statements find to delete, and returns the sum of their row
    counts, which is the number of rows that left the table. *)
Theorem bulk_delete_documents_batches ids tenant_id s :
  exists (batches : list (list UUID * Z)) s',
    bulk_delete_documents ids tenant_id 100 s
      = (Ok (total_of (map snd batches)), s') /\
    log s' = log s ++ map (delete_event tenant_id) batches /\
    concat (map fst batches) = ids /\
    Forall (fun b => 0 < len (fst b) <= 100) batches /\
    len batches = (len ids + 99) / 100 /\
    (len ids = 250 -> len batches = 3) /\
    len (documents s) - len (documents s') = total_of (map snd batches) /\
    same_but_documents s s'.
Proof.
  destruct ids as [|i0 ids0].
  - exists [], s. simpl. rewrite app_nil_r.
    repeat split; auto; try lia. unfold len; simpl; lia.
  - set (ids := i0 :: ids0).
    destruct (delete_batches_from ids tenant_id 100 ltac:(lia)
                (Z.to_nat (Z.abs (len ids - 0))) 0 0 s)
      as (batches & s' & Hrun & Hlog & Hcat & Hall & Hlen & Hrows & _
            & Hsame);
      [lia|lia|].
    exists batches, s'.
    assert (Hcount : len batches = (len ids + 99) / 100).
    { unfold len at 1. rewrite Hlen.
      replace (len ids - 0 + 100 - 1) with (len ids + 99) by lia.
      apply Z2Nat.id. apply Z.div_pos; unfold len; lia. }
    split; [exact Hrun|].
    repeat split; try apply Hsame; auto.
    intros H250. rewrite Hcount, H250. reflexivity.
Qed.

Lemma bulk_delete_documents_witness :
  exists (batches : list (list UUID * Z)) s',
    bulk_delete_documents delete_example_ids 1%N 100 delete_example_state
      = (Ok (total_of (map snd batches)), s') /\
    len batches = 3.
Proof.
  destruct (bulk_delete_documents_batches delete_example_ids 1%N
              delete_example_state)
    as (batches & s' & Hrun & _ & _ & _ & _ & H250 & _).
  exists batches, s'. split.
  - exact Hrun.
  - apply H250. reflexivity.
Defined.

Example bulk_delete_continues_after_empty_batches :
  let '(result, s') :=
    bulk_delete_documents delete_example_ids 1%N 100 delete_example_state in
  result = Ok 50 /\
  map (fun e => match e with
                | SqlDeleteDocuments _ _ rowcount => rowcount
                | _ => -1
                end) (log s') = [0; 0; 50] /\
  len (documents s') = 10.
Proof. vm_compute. repeat split. Qed.

(** ** Document store: tenants and the bulk operations *)

(** Whatever the batch size, [bulk_delete_documents] leaves the rows of
    the other tenants in place: its statement carries the tenant. *)
Lemma bulk_delete_documents_tenant_scoped ids tenant_id batch_size s :
  List.filter (of_others tenant_id)
    (documents (snd (bulk_delete_documents ids tenant_id batch_size s)))
    = List.filter (of_others tenant_id) (documents s).
Proof.
  destruct ids as [|i0 ids0]; [reflexivity|].
  set (ids := i0 :: ids0).
  change (bulk_delete_documents ids tenant_id batch_size) with
    (indices ← lift (range 0 (len ids) batch_size);
     for_fold indices 0 (delete_batch ids tenant_id batch_size)).
  unfold range. destruct (Z.eqb_spec batch_size 0) as [H0|H0].
  - reflexivity.
  - unfold_monad.
    destruct (Z.lt_ge_cases 0 batch_size) as [Hpos|Hneg].
    + destruct (delete_batches_from ids tenant_id batch_size Hpos
                  (Z.to_nat (Z.abs (len ids - 0))) 0 0 s)
        as (batches & s' & Hrun & _ & _ & _ & _ & _ & Hothers & _);
        [lia|lia|].
      rewrite Hrun. exact Hothers.
    + destruct (Z.to_nat (Z.abs (len ids - 0))) as [|fuel];
        simpl; [reflexivity|].
      destruct (Z.ltb_spec 0 batch_size); [lia|].
      destruct (Z.ltb_spec (len ids) 0) as [Hlt|_];
        [unfold len in Hlt; lia|reflexivity].
Qed.

(** C5. Tenants and the bulk operations.  In a request of tenant 1, the
    assign-project endpoint given the id of a document of tenant 2
    assigns that document, and [bulk_classify_documents] given the same
    id classifies it: their update selects by id alone.  The deletion
    given the same id deletes nothing and leaves the row. *)
Theorem bulk_updates_cross_tenants :
  (let '(result, s') :=
     DocumentRoutes.bulk_assign_project [7%N] 5%N 1%N two_tenants in
   result = Ok 1 /\
   map row_summary (documents s')
     = [(6%N, 1%N, PENDING, None, None);
        (7%N, 2%N, PENDING, None, Some 5%N)]) /\
  (let '(result, s') :=
     bulk_classify_documents [7%N] "work" (float_of_int 1) two_tenants in
   result = Ok 1 /\
   map row_summary (documents s')
     = [(6%N, 1%N, PENDING, None, None);
        (7%N, 2%N, CLASSIFIED, Some "work", None)]) /\
  (let '(result, s') :=
     DocumentRoutes.bulk_delete_documents [7%N] 1%N two_tenants in
   result = Ok 0 /\ documents s' = documents two_tenants).
Proof. vm_compute. repeat split. Qed.

(** ** Sync progress: polling *)

Lemma scalar_one_or_none_run {A} (rows : list A) s :
  scalar_one_or_none rows s =
    (match rows with
     | [] => Ok None
     | [x] => Ok (Some x)
     | _ => Raise (MultipleResultsFound
                     "Multiple rows were found when one or none was required")
     end, s).
Proof. destruct rows as [|x [|y rows]]; reflexivity. Qed.

Lemma connector_of_tenant_run connector_id tenant_id s c :
  connectors s !! connector_id = Some c -> conn_tenant_id c = tenant_id ->
  connector_of_tenant connector_id tenant_id s =
    (Ok (Some c),
     set_log (log s ++
       [SqlSelect (select_connector_of_tenant connector_id tenant_id)]) s).
Proof.
  intros Hc Ht. unfold connector_of_tenant. unfold_monad. simpl.
  rewrite Hc. now rewrite bool_decide_eq_true_2.
Qed.

Lemma percent_of_guarded p :
  percent_of p = Ok (if 0 <? sp_total_items p
                     then PyFloat (mul_int (float_truediv
                            (sp_processed_items p) (sp_total_items p)) 100)
                     else PyInt 0).
Proof.
  unfold percent_of, truediv.
  destruct (Z.ltb_spec 0 (sp_total_items p)) as [Hpos|Hle]; [|reflexivity].
  destruct (Z.eqb_spec (sp_total_items p) 0); [lia|reflexivity].
Qed.

(** C10. For a connector of the caller's tenant: when it has no progress
    row the answer is the idle snapshot (status idle, counters and
    percentage 0, nothing else set), not an error; when it has one, the
    percentage is [round(processed / total * 100, 1)] if [total_items > 0]
    and 0 otherwise; and no run of the poll divides by zero. *)
Theorem get_sync_progress_guarded connector_id tenant_id s c :
  connectors s !! connector_id = Some c ->
  conn_tenant_id c = tenant_id ->
  (progress_of connector_id s = [] ->
   fst (get_sync_progress connector_id tenant_id s) =
     Ok {| resp_status := "idle"; resp_total_items := 0;
           resp_processed_items := 0; resp_indexed_items := 0;
           resp_failed_items := 0; resp_current_step := None;
           resp_error_message := None; resp_percent := float_of_int 0;
           resp_started_at := None; resp_completed_at := None |}) /\
  (forall p, progress_of connector_id s = [p] ->
   exists resp,
     fst (get_sync_progress connector_id tenant_id s) = Ok resp /\
     resp_percent resp = percent_reported p /\
     (0 < sp_total_items p ->
      resp_percent resp =
        float_round
          (float_mul
             (float_truediv (sp_processed_items p) (sp_total_items p))
             (float_of_int 100)) 1) /\
     (sp_total_items p <= 0 -> resp_percent resp = float_of_int 0) /\
     resp_status resp = sp_status p /\
     resp_total_items resp = sp_total_items p /\
     resp_processed_items resp = sp_processed_items p) /\
  fst (get_sync_progress connector_id tenant_id s) <> Raise ZeroDivisionError.
Proof.
  intros Hc Ht. unfold get_sync_progress, progress_of.
  rewrite (bind_ok _ _ _ _ _ (connector_of_tenant_run _ _ _ _ Hc Ht)).
  unfold progress_rows. unfold_monad. simpl.
  set (rows := List.filter (for_connector connector_id) (sync_progress s)).
  rewrite scalar_one_or_none_run.
  split; [|split].
  - intros Hrows. now rewrite Hrows.
  - intros p Hrows. rewrite Hrows, percent_of_guarded.
    eexists. split; [reflexivity|]. simpl. unfold percent_reported.
    destruct (Z.ltb_spec 0 (sp_total_items p)); simpl;
      repeat split; auto; intros; lia.
  - destruct rows as [|p [|q rows]]; simpl; try discriminate.
    rewrite percent_of_guarded. discriminate.
Qed.

Lemma get_sync_progress_witness :
  fst (get_sync_progress 3%N 1%N never_synced) =
    Ok {| resp_status := "idle"; resp_total_items := 0;
          resp_processed_items := 0; resp_indexed_items := 0;
          resp_failed_items := 0; resp_current_step := None;
          resp_error_message := None; resp_percent := float_of_int 0;
          resp_started_at := None; resp_completed_at := None |} /\
  exists resp,
    fst (get_sync_progress 3%N 1%N syncing) = Ok resp /\
    resp_percent resp =
      float_round (float_mul (float_truediv 4 8) (float_of_int 100)) 1.
Proof.
  split.
  - apply (get_sync_progress_guarded 3%N 1%N never_synced
             (example_connector "idle")); reflexivity.
  - destruct (get_sync_progress_guarded 3%N 1%N syncing
                (example_connector "syncing") eq_refl eq_refl)
      as (_ & Hrow & _).
    destruct (Hrow half_way eq_refl) as (resp & Hrun & _ & Hpos & _).
    exists resp. split; [exact Hrun|]. apply Hpos. reflexivity.
Defined.

(** ** Sync progress: starting a sync *)

Lemma progress_of_map connector_id f rows :
  (forall p, for_connector connector_id p = true ->
             for_connector connector_id (f p) = true) ->
  List.filter (for_connector connector_id)
    (map (fun p => if for_connector connector_id p then f p else p) rows)
    = map f (List.filter (for_connector connector_id) rows).
Proof.
  intros Hf. induction rows as [|p rows IH]; simpl; auto.
  destruct (for_connector connector_id p) eqn:Hp.
  - rewrite (Hf p Hp). simpl. now rewrite IH.
  - rewrite Hp. exact IH.
Qed.

Lemma progress_of_others_map connector_id f rows :
  (forall p, for_connector connector_id p = true ->
             for_connector connector_id (f p) = true) ->
  List.filter (fun p => negb (for_connector connector_id p))
    (map (fun p => if for_connector connector_id p then f p else p) rows)
    = List.filter (fun p => negb (for_connector connector_id p)) rows.
Proof.
  intros Hf. induction rows as [|p rows IH]; simpl; auto.
  destruct (for_connector connector_id p) eqn:Hp.
  - rewrite (Hf p Hp). simpl. exact IH.
  - rewrite Hp. simpl. now rewrite IH.
Qed.

Lemma for_connector_starting connector_id now :
  for_connector connector_id (starting connector_id now) = true.
Proof. unfold for_connector. now apply bool_decide_eq_true_2. Qed.

(** A sync that is refused: nothing but the lookup of the connector has
    happened. *)
Lemma start_sync_refused connector_id tenant_id s c :
  connectors s !! connector_id = Some c ->
  conn_tenant_id c = tenant_id ->
  conn_sync_status c = "syncing" ->
  start_sync connector_id tenant_id s =
    (Raise (HTTPException 400 "Sync already in progress"),
     set_log (log s ++
       [SqlSelect (select_connector_of_tenant connector_id tenant_id)]) s).
Proof.
  intros Hc Ht Hs. unfold start_sync.
  rewrite (bind_ok _ _ _ _ _ (connector_of_tenant_run _ _ _ _ Hc Ht)).
  now rewrite Hs.
Qed.

(** A sync that is accepted. *)
Lemma start_sync_accepted connector_id tenant_id s c :
  connectors s !! connector_id = Some c ->
  conn_tenant_id c = tenant_id ->
  conn_sync_status c <> "syncing" ->
  (length (progress_of connector_id s) <= 1)%nat ->
  exists s',
    start_sync connector_id tenant_id s =
      (Ok {| started_message := "Sync started";
             started_connector_id := str_uuid connector_id |}, s') /\
    progress_of connector_id s' = [starting connector_id (clock s)] /\
    progress_of_others connector_id s' = progress_of_others connector_id s /\
    connectors s' =
      <[connector_id := with_sync_status "syncing" c]> (connectors s) /\
    background_tasks s' =
      background_tasks s ++ [task_for connector_id c] /\
    documents s' = documents s /\
    log s' = log s ++
      [SqlSelect (select_connector_of_tenant connector_id tenant_id);
       SqlSelect (select_sync_progress connector_id)]
      ++ match progress_of connector_id s with
         | [] => [SqlInsert "sync_progress" 1]
         | _ => []
         end.
Proof.
  intros Hc Ht Hs Hrows. unfold start_sync.
  rewrite (bind_ok _ _ _ _ _ (connector_of_tenant_run _ _ _ _ Hc Ht)).
  destruct (String.eqb_spec (conn_sync_status c) "syncing") as [|_];
    [contradiction|].
  unfold progress_rows, progress_of, progress_of_others in *.
  unfold_monad. simpl.
  rewrite scalar_one_or_none_run.
  assert (Halter : alter (with_sync_status "syncing") connector_id
                     (connectors s)
                   = <[connector_id := with_sync_status "syncing" c]>
                       (connectors s)).
  { apply map_eq. intros k. rewrite lookup_alter, lookup_insert.
    case_decide; subst; [now rewrite Hc|reflexivity]. }
  unfold task_for. rewrite Ht.
  destruct (List.filter (for_connector connector_id) (sync_progress s))
    as [|p [|q rows]] eqn:Hfilter; simpl in Hrows; [| |lia].
  - eexists. split; [reflexivity|]. simpl.
    rewrite !List.filter_app, Hfilter. simpl.
    rewrite for_connector_starting. simpl. rewrite app_nil_r.
    repeat split; auto. now rewrite <- !app_assoc.
  - eexists. split; [reflexivity|]. simpl.
    rewrite progress_of_map, progress_of_others_map, Hfilter
      by (intros; apply for_connector_starting).
    repeat split; auto. now rewrite <- !app_assoc.
Qed.

(** C4. On a connector of the caller's tenant, [start_sync] is refused
    with "Sync already in progress" when the status is [syncing], before
    any table or the task list has changed; from [idle], [completed] or
    [failed] (with at most one progress row for the connector, as the
    sync itself maintains) it succeeds, leaves the connector with one
    progress row in status [syncing] with the four counters at 0, no
    error, [started_at] set and [completed_at] empty, sets the status of
    the connector to [syncing] and schedules the task. *)
Theorem start_sync_guarded connector_id tenant_id s c :
  connectors s !! connector_id = Some c ->
  conn_tenant_id c = tenant_id ->
  (conn_sync_status c = "syncing" ->
   exists s',
     start_sync connector_id tenant_id s =
       (Raise (HTTPException HTTP_400_BAD_REQUEST "Sync already in progress"),
        s') /\
     only_logged s s') /\
  (conn_sync_status c ∈ ["idle"; "completed"; "failed"] ->
   (length (progress_of connector_id s) <= 1)%nat ->
   exists resp s',
     start_sync connector_id tenant_id s = (Ok resp, s') /\
     progress_of connector_id s' =
       [{| sp_connector_id := connector_id; sp_status := "syncing";
           sp_total_items := 0; sp_processed_items := 0;
           sp_indexed_items := 0; sp_failed_items := 0;
           sp_current_step := Some "Starting sync...";
           sp_error_message := None;
           sp_started_at := Some (clock s); sp_completed_at := None |}] /\
     progress_of_others connector_id s' = progress_of_others connector_id s /\
     conn_sync_status <$> connectors s' !! connector_id = Some "syncing" /\
     (forall other, other <> connector_id ->
        connectors s' !! other = connectors s !! other) /\
     background_tasks s' = background_tasks s ++ [task_for connector_id c]).
Proof.
  intros Hc Ht. split.
  - intros Hs. eexists. split.
    + apply (start_sync_refused _ _ _ _ Hc Ht Hs).
    + reflexivity.
  - intros Hs Hrows.
    assert (Hne : conn_sync_status c <> "syncing").
    { intros Heq. rewrite Heq in Hs.
      repeat (apply elem_of_cons in Hs as [Hs|Hs]; [discriminate|]).
      inversion Hs. }
    destruct (start_sync_accepted _ _ _ _ Hc Ht Hne Hrows)
      as (s' & Hrun & Hrow & Hothers & Hconn & Htasks & _ & _).
    eexists _, s'. split; [exact Hrun|].
    split; [exact Hrow|]. split; [exact Hothers|].
    rewrite Hconn. split; [now rewrite lookup_insert_eq|].
    split; [|exact Htasks].
    intros other Hother. now rewrite lookup_insert_ne.
Qed.

Lemma start_sync_witness :
  (exists s',
     start_sync 3%N 1%N syncing =
       (Raise (HTTPException 400 "Sync already in progress"), s') /\
     only_logged syncing s') /\
  (exists resp s',
     start_sync 3%N 1%N never_synced = (Ok resp, s') /\
     progress_of 3%N s' = [starting 3%N 20]).
Proof.
  split.
  - apply (start_sync_guarded 3%N 1%N syncing (example_connector "syncing")
             eq_refl eq_refl). reflexivity.
  - destruct (start_sync_guarded 3%N 1%N never_synced
                (example_connector "idle") eq_refl eq_refl) as (_ & Hok).
    destruct Hok as (resp & s' & Hrun & Hrow & _).
    + apply list_elem_of_here.
    + simpl. lia.
    + exists resp, s'. split; [exact Hrun|exact Hrow].
Defined.

(** ** Chat: the history that generation sees *)

(** C2. The history of a turn is read in ascending order of creation
    with a limit of 10, which keeps the ten oldest messages.  In a session
    that already holds ten messages, the history of the next turn is
    those ten and lacks the question that was just stored, so the
    completion client never sees it (here it answers with the last
    message it was sent, the tenth).  With nine earlier messages the
    question is the last of the history. *)
Theorem chat_history_keeps_the_oldest :
  (let '(history, s') := load_history 9%N "What changed?" (conversation 10) in
   history = Ok (map to_turn (map example_message (seq 1 10))) /\
   (msg_content <$> last (chat_messages s')) = Some "What changed?" /\
   length (chat_messages s') = 11%nat) /\
  (chat_message <$>
     match fst (chat echo_env 9%N 1%N "What changed?" (conversation 10)) with
     | Ok result => Some result
     | Raise _ => None
     end) = Some "message 10" /\
  (let '(history, _) := load_history 9%N "What changed?" (conversation 9) in
   history = Ok (map to_turn (map example_message (seq 1 9))
                   ++ [{| turn_role := "user";
                          turn_content := "What changed?" |}])).
Proof. vm_compute. repeat split. Qed.

(** ** Chat: a turn without retrieved documents *)

Lemma add_message_run session_id role content sources s session :
  chat_sessions s !! session_id = Some session ->
  let message :=
    {| msg_id := uuid_counter s; msg_session_id := session_id;
       msg_role := role; msg_content := content; msg_sources := sources;
       msg_created_at := clock s + 1 |} in
  add_message session_id role content sources s =
    (Ok message,
     {| documents := documents s; connectors := connectors s;
        sync_progress := sync_progress s;
        chat_sessions :=
          <[session_id := touch (clock s) session]> (chat_sessions s);
        chat_messages := chat_messages s ++ [message];
        background_tasks := background_tasks s;
        clock := clock s + 1 + 1;
        uuid_counter := (uuid_counter s + 1)%N;
        log := log s ++ [SqlSelect (select_chat_session session_id);
                         SqlInsert "chat_messages" 1];
        pending_rollback := pending_rollback s |}).
Proof.
  intros Hs. unfold add_message. unfold_monad. simpl. rewrite Hs. simpl.
  now rewrite <- app_assoc.
Qed.

Lemma formatted_without_context history :
  AIService.formatted_messages history (Some (_build_context []))
    (Some _get_system_prompt)
  = bare_system_message :: history.
Proof. reflexivity. Qed.

(** C8. A turn whose vector query returns no document: the context is
    the empty string, so the completion request carries the system prompt
    alone before the history; when the client answers, the turn returns
    that answer with an empty list of sources and stores it as an
    assistant message whose sources are the empty list. *)
Theorem chat_empty_retrieval env session_id tenant_id user_message s session
    history s1 e rest reply :
  chat_sessions s !! session_id = Some session ->
  load_history session_id user_message s = (Ok history, s1) ->
  embeddings_create env [user_message] = Ok (e :: rest) ->
  index_query env e 5 (str_uuid tenant_id) = Ok [] ->
  chat_completions_create env (bare_system_message :: history) = Ok reply ->
  exists result s' m,
    chat env session_id tenant_id user_message s = (Ok result, s') /\
    _build_context [] = "" /\
    chat_message result = reply /\
    chat_sources result = [] /\
    chat_message_id result = str_uuid (msg_id m) /\
    chat_messages s' = chat_messages s1 ++ [m] /\
    msg_session_id m = session_id /\
    msg_role m = "assistant" /\
    msg_content m = reply /\
    msg_sources m = Some [].
Proof.
  intros Hsession Hhistory Hembed Hquery Hreply.
  assert (Hs1 : is_Some (chat_sessions s1 !! session_id)).
  { unfold load_history in Hhistory.
    rewrite (bind_ok _ _ _ _ _
               (add_message_run _ _ _ _ _ _ Hsession)) in Hhistory.
    unfold get_messages in Hhistory. unfold_monad. simpl in Hhistory.
    inversion Hhistory; subst. simpl. rewrite lookup_insert_eq. eauto. }
  destruct Hs1 as [session1 Hs1].
  unfold chat. rewrite (bind_ok _ _ _ _ _ Hhistory).
  unfold VectorService.search, AIService.create_embedding,
    AIService.generate_response.
  unfold_monad. simpl. rewrite Hembed. simpl. rewrite Hquery. simpl.
  rewrite formatted_without_context, Hreply.
  match goal with
  | |- context [add_message ?a ?b ?c ?d ?st] =>
      pose proof (add_message_run a b c d st session1 Hs1) as Hadd
  end.
  simpl in Hadd. rewrite Hadd.
  match type of Hadd with
  | _ = (Ok ?message, ?s') =>
      exists {| chat_message := reply; chat_sources := [];
                chat_message_id := str_uuid (msg_id message) |}, s', message
  end.
  repeat split.
Qed.

Lemma chat_empty_retrieval_witness :
  exists result s',
    chat echo_env 9%N 1%N "hello" (conversation 0) = (Ok result, s') /\
    chat_message result = "hello" /\
    chat_sources result = [].
Proof.
  destruct (chat_empty_retrieval echo_env 9%N 1%N "hello" (conversation 0)
              {| cs_tenant_id := 1%N; cs_title := Some "New Chat";
                 cs_updated_at := 0 |}
              hello_history
              (snd (load_history 9%N "hello" (conversation 0)))
              [] [] "hello")
    as (result & s' & m & Hrun & _ & Hmsg & Hsrc & _);
    try reflexivity.
  exists result, s'. repeat split; assumption.
Defined.

(** ** The sync task: steps *)

Lemma progress_rows_run connector_id s :
  progress_rows connector_id s =
    (Ok (progress_of connector_id s),
     set_log (log s ++ [SqlSelect (select_sync_progress connector_id)]) s).
Proof. reflexivity. Qed.

Lemma set_progress_run connector_id f s :
  set_progress connector_id f s =
    (Ok tt,
     set_sync_progress
       (map (fun p => if for_connector connector_id p then f p else p)
          (sync_progress s)) s).
Proof. reflexivity. Qed.

Lemma connector_by_id_run connector_id s :
  connector_by_id connector_id s =
    (Ok (connectors s !! connector_id),
     set_log (log s ++ [SqlSelect (select_connector connector_id)]) s).
Proof. reflexivity. Qed.

Lemma get_connector_class_run env t cls s :
  t <> ONEDRIVE -> t <> EMAIL_FORWARDING ->
  import_connector env t = Ok cls ->
  Connectors.get_connector_class env t s = (Ok (Some cls), s).
Proof.
  intros H1 H2 Hcls. unfold Connectors.get_connector_class.
  destruct t; try contradiction; unfold_monad; now rewrite Hcls.
Qed.

Lemma ret_run {A} (a : A) s : (mret a : M A) s = (Ok a, s).
Proof. reflexivity. Qed.

Lemma lift_run {A} (a : A) s : lift (Ok a) s = (Ok a, s).
Proof. reflexivity. Qed.

Lemma emit_run e s : emit e s = (Ok tt, set_log (log s ++ [e]) s).
Proof. reflexivity. Qed.

Lemma utcnow_run s : utcnow s = (Ok (clock s), set_clock (clock s + 1) s).
Proof. reflexivity. Qed.

Lemma uuid4_run s :
  uuid4 s = (Ok (uuid_counter s), set_uuid_counter (uuid_counter s + 1)%N s).
Proof. reflexivity. Qed.

Lemma for_map_cons {A B} (x : A) l (f : A -> M B) :
  for_map (x :: l) f = (y ← f x; ys ← for_map l f; mret (y :: ys)).
Proof. reflexivity. Qed.

Lemma set_connector_run connector_id f s :
  set_connector connector_id f s =
    (Ok tt, set_connectors (alter f connector_id (connectors s)) s).
Proof. reflexivity. Qed.

Lemma find_by_external_ids_run external_ids connector_id s :
  find_by_external_ids external_ids connector_id s =
    (Ok (existing_for external_ids connector_id (documents s)),
     set_log (log s ++ lookup_events external_ids connector_id) s).
Proof.
  destruct s. destruct external_ids; unfold find_by_external_ids; simpl.
  - unfold set_log. simpl. now rewrite app_nil_r.
  - reflexivity.
Qed.

(** The state after a step, as a record of its tables. *)
Ltac norm_state :=
  unfold set_documents, set_connectors, set_sync_progress, set_chat_sessions,
    set_chat_messages, set_background_tasks, set_clock, set_uuid_counter,
    set_log, set_pending_rollback;
  cbn [documents connectors sync_progress chat_sessions chat_messages
       background_tasks clock uuid_counter log pending_rollback].

(** One step of a run whose first computation is known. *)
Ltac step :=
  rewrite ?bind_assoc_run;
  first
    [ rewrite (bind_ok _ _ _ _ _ (ret_run _ _))
    | rewrite (bind_ok _ _ _ _ _ (lift_run _ _))
    | rewrite (bind_ok _ _ _ _ _ (emit_run _ _))
    | rewrite (bind_ok _ _ _ _ _ (utcnow_run _))
    | rewrite (bind_ok _ _ _ _ _ (uuid4_run _))
    | rewrite (bind_ok _ _ _ _ _ (progress_rows_run _ _))
    | rewrite (bind_ok _ _ _ _ _ (set_progress_run _ _ _))
    | rewrite (bind_ok _ _ _ _ _ (connector_by_id_run _ _))
    | rewrite (bind_ok _ _ _ _ _ (find_by_external_ids_run _ _ _))
    | rewrite (bind_ok _ _ _ _ _ (set_connector_run _ _ _)) ];
  norm_state.

(** ** The sync task: deduplication *)

Lemma by_external_id_from rows : forall (m : gmap string Document) e,
  is_Some (m !! e) \/
  (exists d, In d rows /\ doc_external_id d = Some e) ->
  is_Some
    (fold_left
       (fun m d => match doc_external_id d with
                   | Some e => <[e := d]> m
                   | None => m
                   end) rows m !! e).
Proof.
  induction rows as [|d rows IH]; intros m e H; simpl.
  - destruct H as [H|(d & [] & _)]. exact H.
  - apply IH. destruct H as [H|(d0 & [Hd|Hd] & He)].
    + left. destruct (doc_external_id d) as [e'|]; [|exact H].
      destruct (decide (e' = e)) as [->|Hne].
      * rewrite lookup_insert_eq. eauto.
      * now rewrite lookup_insert_ne.
    + subst d0. left. rewrite He. rewrite lookup_insert_eq. eauto.
    + right. eauto.
Qed.

Lemma known_item_is_known connector_id docs items item :
  In item items ->
  known_to connector_id docs item = true ->
  is_known (existing_for (external_ids_of items) connector_id docs) item
    = true.
Proof.
  intros Hin Hknown. unfold known_to in Hknown.
  apply andb_true_iff in Hknown as [Htruthy Hdoc].
  apply existsb_exists in Hdoc as (d & Hd & Hmatch).
  apply andb_true_iff in Hmatch as [Hext Hconn].
  apply bool_decide_eq_true_1 in Hext. apply bool_decide_eq_true_1 in Hconn.
  destruct (item_external_id item) as [e|] eqn:He; [|discriminate].
  assert (Hids : e ∈ external_ids_of items).
  { unfold external_ids_of. apply list_elem_of_omap.
    exists item. split; [now apply list_elem_of_In|].
    now rewrite He, Htruthy. }
  unfold is_known. rewrite He, Htruthy. simpl.
  apply bool_decide_eq_true_2.
  unfold existing_for.
  destruct (external_ids_of items) as [|e0 ids] eqn:Hnil; [inversion Hids|].
  rewrite <- Hnil in *. unfold by_external_id.
  apply by_external_id_from. right. exists d. split; [|exact Hext].
  apply filter_In. split; [exact Hd|].
  unfold has_external_id_in. rewrite Hext.
  apply andb_true_iff. split; now apply bool_decide_eq_true_2.
Qed.

Lemma all_known_no_new_items connector_id docs items :
  all_known connector_id docs items = true ->
  new_items_of (existing_for (external_ids_of items) connector_id docs) items
    = [].
Proof.
  intros Hall. unfold all_known in Hall.
  rewrite forallb_forall in Hall.
  unfold new_items_of.
  assert (Hsub : forall l, (forall x, In x l -> In x items) ->
            List.filter
              (fun item =>
                 negb (is_known
                         (existing_for (external_ids_of items) connector_id
                            docs) item)) l = []).
  { induction l as [|x l IH]; intros Hl; simpl; auto.
    rewrite (known_item_is_known connector_id docs items x);
      [|apply Hl; now left|apply Hall, Hl; now left].
    simpl. apply IH. intros y Hy. apply Hl. now right. }
  apply Hsub. auto.
Qed.

Lemma all_known_external_ids connector_id docs items :
  all_known connector_id docs items = true ->
  external_ids_of items = [] -> items = [].
Proof.
  intros Hall Hnil. destruct items as [|item items]; auto.
  simpl in Hall. apply andb_true_iff in Hall as [Hknown _].
  unfold known_to in Hknown. apply andb_true_iff in Hknown as [Htruthy _].
  unfold external_ids_of in Hnil. simpl in Hnil.
  rewrite Htruthy in Hnil.
  destruct (item_external_id item); [discriminate Hnil|discriminate Htruthy].
Qed.

(** ** The sync task: a source without new items *)

Lemma sync_body_all_known env task s p c cls inst items :
  progress_of (task_connector_id task) s = [p] ->
  connectors s !! task_connector_id task = Some c ->
  task_connector_type task <> ONEDRIVE ->
  task_connector_type task <> EMAIL_FORWARDING ->
  import_connector env (task_connector_type task) = Ok cls ->
  construct cls (task_credentials task) = Ok inst ->
  fetch_items inst = Ok items ->
  all_known (task_connector_id task) (documents s) items = true ->
  exists s',
    sync_body env task s = (Ok tt, s') /\
    documents s' = documents s /\
    progress_of (task_connector_id task) s' =
      [synced_without_new_items (len items) (clock s) p] /\
    connectors s' !! task_connector_id task =
      Some (with_last_sync_at (Some (clock s + 1))
              (with_sync_status "completed" c)) /\
    log s' = log s ++
      events_without_new_items (task_connector_id task)
        (external_ids_of items).
Proof.
  intros Hp Hc Ht1 Ht2 Hcls Hinst Hitems Hknown.
  unfold sync_body.
  step. rewrite Hp. unfold scalar_one at 1. step.
  rewrite (bind_ok _ _ _ _ _ (get_connector_class_run _ _ _ _ Ht1 Ht2 Hcls)).
  rewrite Hinst. do 4 step. rewrite Hitems. do 5 step.
  rewrite (all_known_no_new_items _ _ _ Hknown).
  unfold persist_new_items, mark_complete.
  do 6 step. rewrite Hc. do 3 step. rewrite emit_run. norm_state.
  eexists. split; [reflexivity|]. norm_state.
  split; [reflexivity|]. split; [|split].
  - unfold progress_of. norm_state.
    rewrite !progress_of_map by (intros ? H; exact H).
    unfold progress_of in Hp. now rewrite Hp.
  - rewrite !lookup_alter_eq, Hc. reflexivity.
  - unfold events_without_new_items. now rewrite <- !app_assoc.
Qed.

(** ** The sync task: a second sync of an unchanged source *)

Lemma count_events_app kind l l' :
  count_events kind (l ++ l') = (count_events kind l + count_events kind l')%nat.
Proof. unfold count_events. now rewrite List.filter_app, length_app. Qed.

Lemma try_except_ok {A} (body : M A) handler s a s' :
  body s = (Ok a, s') -> try_except body handler s = (Ok a, s').
Proof. intros H. unfold try_except. now rewrite H. Qed.

(** The task runs its two blocks on a session of its own. *)
Lemma run_sync_task_run env task s :
  run_sync_task env task s =
    try_except (sync_body env task) (sync_failed task) (in_new_session s).
Proof. reflexivity. Qed.

Lemma run_sync_task_ok env task s s' :
  sync_body env task (in_new_session s) = (Ok tt, s') ->
  run_sync_task env task s = (Ok tt, s').
Proof. intros H. rewrite run_sync_task_run. now apply try_except_ok. Qed.

Lemma count_lookup_events external_ids connector_id :
  count_events is_external_id_lookup
    (lookup_events external_ids connector_id)
  = match external_ids with [] => 0 | _ => 1 end%nat.
Proof. destruct external_ids; reflexivity. Qed.

(** An accepted sync of items that are all known, up to the end of the
    [try] block. *)
Lemma sync_of_known_items env connector_id tenant_id s c items :
  connectors s !! connector_id = Some c ->
  conn_tenant_id c = tenant_id ->
  conn_sync_status c ∈ ["idle"; "completed"; "failed"] ->
  (length (progress_of connector_id s) <= 1)%nat ->
  source_yields env c items ->
  all_known connector_id (documents s) items = true ->
  exists resp s1 s2,
    start_sync connector_id tenant_id s = (Ok resp, s1) /\
    background_tasks s1 = background_tasks s ++ [task_for connector_id c] /\
    documents s1 = documents s /\
    log s1 = log s ++
      [SqlSelect (select_connector_of_tenant connector_id tenant_id);
       SqlSelect (select_sync_progress connector_id)]
      ++ match progress_of connector_id s with
         | [] => [SqlInsert "sync_progress" 1]
         | _ => []
         end /\
    sync_body env (task_for connector_id c) (in_new_session s1)
      = (Ok tt, s2) /\
    documents s2 = documents s1 /\
    progress_of connector_id s2 =
      [synced_without_new_items (len items) (clock s1)
         (starting connector_id (clock s))] /\
    connectors s2 !! connector_id =
      Some (with_last_sync_at (Some (clock s1 + 1))
              (with_sync_status "completed"
                 (with_sync_status "syncing" c))) /\
    log s2 = log s1 ++
      events_without_new_items connector_id (external_ids_of items).
Proof.
  intros Hc Ht Hs Hrows (Ht1 & Ht2 & cls & inst & Hcls & Hinst & Hitems)
    Hknown.
  assert (Hne : conn_sync_status c <> "syncing").
  { intros Heq. rewrite Heq in Hs.
    repeat (apply elem_of_cons in Hs as [Hs|Hs]; [discriminate|]).
    inversion Hs. }
  destruct (start_sync_accepted _ _ _ _ Hc Ht Hne Hrows)
    as (s1 & Hstart & Hrow & _ & Hconn & Htasks & Hdocs & Hlog).
  assert (Hc1 : connectors s1 !! connector_id
                = Some (with_sync_status "syncing" c))
    by (rewrite Hconn; apply lookup_insert_eq).
  rewrite <- Hdocs in Hknown.
  destruct (sync_body_all_known env (task_for connector_id c)
              (in_new_session s1)
              (starting connector_id (clock s))
              (with_sync_status "syncing" c) cls inst items
              Hrow Hc1 Ht1 Ht2 Hcls Hinst Hitems Hknown)
    as (s2 & Hbody & Hdocs2 & Hrow2 & Hconn2 & Hlog2).
  simpl in Hrow2, Hconn2, Hlog2.
  eexists _, s1, s2. repeat split; eassumption.
Qed.

(** C1. A connector whose items all carry an external id and already
    have a document of the connector: a sync (accepted from [idle],
    [completed] or [failed]) whose source answers with those items finds
    every item in the result of its lookup by external id, of which it
    sends exactly one (none for an empty batch), inserts no document and
    leaves the table of documents as it was; the progress row ends with
    [processed_items = 0] and [status = completed], and so does the
    connector. *)
Theorem second_sync_creates_nothing env connector_id tenant_id s c items :
  connectors s !! connector_id = Some c ->
  conn_tenant_id c = tenant_id ->
  conn_sync_status c ∈ ["idle"; "completed"; "failed"] ->
  (length (progress_of connector_id s) <= 1)%nat ->
  source_yields env c items ->
  all_known connector_id (documents s) items = true ->
  exists resp s1 s2 p,
    start_sync connector_id tenant_id s = (Ok resp, s1) /\
    last (background_tasks s1) = Some (task_for connector_id c) /\
    run_sync_task env (task_for connector_id c) s1 = (Ok tt, s2) /\
    new_items_of
      (existing_for (external_ids_of items) connector_id (documents s1))
      items = [] /\
    count_events is_external_id_lookup (log s2) =
      (count_events is_external_id_lookup (log s)
       + match items with [] => 0 | _ => 1 end)%nat /\
    count_events is_document_insert (log s2) =
      count_events is_document_insert (log s) /\
    documents s2 = documents s /\
    progress_of connector_id s2 = [p] /\
    sp_processed_items p = 0 /\
    sp_status p = "completed" /\
    sp_total_items p = len items /\
    conn_sync_status <$> connectors s2 !! connector_id = Some "completed".
Proof.
  intros Hc Ht Hs Hrows Hsource Hknown.
  destruct (sync_of_known_items env connector_id tenant_id s c items
              Hc Ht Hs Hrows Hsource Hknown)
    as (resp & s1 & s2 & Hstart & Htasks & Hdocs & Hlog & Hbody & Hdocs2
          & Hrow2 & Hconn2 & Hlog2).
  rewrite <- Hdocs in Hknown.
  eexists resp, s1, s2, _.
  split; [exact Hstart|].
  split; [rewrite Htasks; apply last_snoc|].
  split; [apply (run_sync_task_ok _ _ _ _ Hbody)|].
  split; [apply (all_known_no_new_items _ _ _ Hknown)|].
  assert (Hids : external_ids_of items = [] <-> items = []).
  { split; [apply (all_known_external_ids _ _ _ Hknown)|now intros ->]. }
  split; [|split].
  - rewrite Hlog2, Hlog. unfold events_without_new_items.
    rewrite !count_events_app, count_lookup_events.
    assert (Hsame : (match external_ids_of items with [] => 0 | _ => 1 end
                     = match items with [] => 0 | _ => 1 end)%nat).
    { destruct items as [|item items']; [reflexivity|].
      destruct (external_ids_of (item :: items')) eqn:Hnil; [|reflexivity].
      destruct Hids as [Hnone _]. discriminate (Hnone eq_refl). }
    rewrite Hsame.
    destruct (progress_of connector_id s) as [|? ?];
      unfold count_events; simpl; lia.
  - rewrite Hlog2, Hlog. unfold events_without_new_items.
    rewrite !count_events_app.
    destruct (progress_of connector_id s) as [|? ?];
      destruct (external_ids_of items) as [|e ids];
      unfold count_events; simpl; lia.
  - split; [now rewrite Hdocs2|].
    split; [exact Hrow2|].
    repeat split. now rewrite Hconn2.
Qed.

Lemma second_sync_witness :
  exists resp s1 s2 p,
    start_sync 3%N 1%N after_first_sync = (Ok resp, s1) /\
    run_sync_task (source_env (Ok three_pages))
      (task_for 3%N synced_connector) s1 = (Ok tt, s2) /\
    documents s2 = documents after_first_sync /\
    progress_of 3%N s2 = [p] /\
    sp_processed_items p = 0 /\
    sp_status p = "completed".
Proof.
  destruct (second_sync_creates_nothing (source_env (Ok three_pages))
              3%N 1%N after_first_sync
              synced_connector three_pages)
    as (resp & s1 & s2 & p & Hstart & _ & Hrun & _ & _ & _ & Hdocs & Hrow
          & Hprocessed & Hstatus & _).
  - vm_compute. reflexivity.
  - reflexivity.
  - apply list_elem_of_further, list_elem_of_here.
  - vm_compute. lia.
  - split; [discriminate|]. split; [discriminate|].
    eexists _, _. repeat split.
  - vm_compute. reflexivity.
  - exists resp, s1, s2, p. repeat split; assumption.
Defined.

(** The two syncs of the scenario: three new pages, then the same three
    pages again. *)
Example sync_twice :
  map (fun p => (sp_status p, sp_total_items p, sp_processed_items p,
                 sp_indexed_items p))
    (progress_of 3%N after_first_sync) = [("completed", 3, 3, 3)] /\
  length (documents after_first_sync) = 3%nat /\
  let again :=
    sync_now (source_env (Ok three_pages)) 3%N 1%N after_first_sync in
  map (fun p => (sp_status p, sp_total_items p, sp_processed_items p,
                 sp_indexed_items p))
    (progress_of 3%N again) = [("completed", 3, 0, 0)] /\
  documents again = documents after_first_sync.
Proof. vm_compute. repeat split. Qed.

(** An external id that is the empty string counts as none: the item is
    created again by every sync. *)
Example sync_twice_empty_external_id :
  let env := source_env (Ok [example_item "" "Scratch"]) in
  let once := sync_now env 3%N 1%N never_synced in
  let twice := sync_now env 3%N 1%N once in
  map doc_external_id (documents once) = [Some ""] /\
  map doc_external_id (documents twice) = [Some ""; Some ""].
Proof. vm_compute. repeat split. Qed.

(** ** The sync task: what every step keeps *)

Lemma bind_inv {A B} (m : M A) (f : A -> M B) s b s' :
  (m ≫= f) s = (Ok b, s') ->
  exists a s0, m s = (Ok a, s0) /\ f a s0 = (Ok b, s').
Proof.
  unfold mbind, M_bind. destruct (m s) as [[a|e] s0]; [eauto|discriminate].
Qed.

Section Steps.
Context (R : State -> State -> Prop) `{!StepInvariant R}.

Lemma respects_ret {A} (a : A) : respects R (mret a : M A).
Proof. intros s r s' H. inversion H. apply inv_refl. Qed.

Lemma respects_raise {A} e : respects R (raise e : M A).
Proof. intros s r s' H. inversion H. apply inv_refl. Qed.

Lemma respects_lift {A} (r : Result A) : respects R (lift r).
Proof. intros s r' s' H. inversion H. apply inv_refl. Qed.

Lemma respects_get_state : respects R get_state.
Proof. intros s r s' H. inversion H. apply inv_refl. Qed.

Lemma respects_emit e : respects R (emit e).
Proof. intros s r s' H. inversion H. apply inv_log. Qed.

Lemma respects_utcnow : respects R utcnow.
Proof. intros s r s' H. inversion H. apply inv_clock. Qed.

Lemma respects_uuid4 : respects R uuid4.
Proof. intros s r s' H. inversion H. apply inv_uuid. Qed.

Lemma respects_bind {A B} (m : M A) (f : A -> M B) :
  respects R m -> (forall a, respects R (f a)) -> respects R (m ≫= f).
Proof.
  intros Hm Hf s r s' H. unfold mbind, M_bind in H.
  destruct (m s) as [[a|e] s1] eqn:Hrun.
  - apply (inv_trans _ s1); [apply (Hm _ _ _ Hrun)|apply (Hf _ _ _ _ H)].
  - inversion H; subst. apply (Hm _ _ _ Hrun).
Qed.

(** The same, when the rest of the computation is only known to keep
    the relation after values that the first part can return. *)
Lemma respects_bind_after {A B} (P : A -> Prop) (m : M A) (f : A -> M B) :
  respects R m ->
  (forall s a s', m s = (Ok a, s') -> P a) ->
  (forall a, P a -> respects R (f a)) ->
  respects R (m ≫= f).
Proof.
  intros Hm HP Hf s r s' H. unfold mbind, M_bind in H.
  destruct (m s) as [[a|e] s1] eqn:Hrun.
  - apply (inv_trans _ s1); [apply (Hm _ _ _ Hrun)|].
    apply (Hf a (HP _ _ _ Hrun) _ _ _ H).
  - inversion H; subst. apply (Hm _ _ _ Hrun).
Qed.

Lemma respects_for_fold {A B} (l : list A) (body : B -> A -> M B) :
  (forall acc x, respects R (body acc x)) ->
  forall acc, respects R (for_fold l acc body).
Proof.
  intros Hbody. induction l as [|x l IH]; intros acc; simpl.
  - apply respects_ret.
  - apply respects_bind; [apply Hbody|apply IH].
Qed.

Lemma respects_for_each {A} (l : list A) (body : A -> M unit) :
  (forall x, respects R (body x)) -> respects R (for_each l body).
Proof.
  intros Hbody. induction l as [|x l IH]; simpl.
  - apply respects_ret.
  - apply respects_bind; [apply Hbody|intros _; apply IH].
Qed.

Lemma respects_for_map {A B} (l : list A) (f : A -> M B) :
  (forall x, respects R (f x)) -> respects R (for_map l f).
Proof.
  intros Hf. induction l as [|x l IH]; simpl.
  - apply respects_ret.
  - apply respects_bind; [apply Hf|intros y].
    apply respects_bind; [apply IH|intros ys; apply respects_ret].
Qed.

Lemma respects_scalar_one {A} (rows : list A) : respects R (scalar_one rows).
Proof.
  destruct rows as [|x [|y rows]];
    [apply respects_raise|apply respects_ret|apply respects_raise].
Qed.

Lemma respects_set_progress connector_id f :
  (forall p, sp_connector_id (f p) = sp_connector_id p) ->
  respects R (set_progress connector_id f).
Proof. intros Hf s r s' H. inversion H. now apply inv_progress. Qed.

Lemma respects_scalar_one_or_none {A} (rows : list A) :
  respects R (scalar_one_or_none rows).
Proof.
  destruct rows as [|x [|y rows]];
    [apply respects_ret|apply respects_ret|apply respects_raise].
Qed.


Lemma respects_set_connector connector_id f :
  (forall c, same_source c (f c)) ->
  respects R (set_connector connector_id f).
Proof. intros Hf s r s' H. inversion H. now apply inv_connector. Qed.

Lemma respects_session_usable : respects R session_usable.
Proof.
  intros s r s' H. unfold session_usable in H. unfold_monad.
  destruct (pending_rollback s); inversion H; apply inv_refl.
Qed.

(** An insert of rows that fit is not refused. *)
Lemma respects_insert_documents_fits docs :
  forallb document_fits docs = true -> respects R (insert_documents docs).
Proof.
  intros Hfits. unfold insert_documents. rewrite Hfits.
  apply respects_bind; [|intros _; apply respects_emit].
  intros s r s' H. inversion H. apply inv_documents.
Qed.

End Steps.

(** Composite computations are taken apart down to the steps above. *)
Ltac respects_steps :=
  repeat
    match goal with
    | |- respects ?R _ =>
        first
          [ apply (respects_ret R) | apply (respects_raise R)
          | apply (respects_lift R) | apply (respects_get_state R)
          | apply (respects_emit R) | apply (respects_utcnow R)
          | apply (respects_uuid4 R) | apply (respects_scalar_one R)
          | apply (respects_scalar_one_or_none R)
          | apply (respects_session_usable R)
          | apply (respects_set_connector R); intros ?; repeat split
          | apply (respects_set_progress R); reflexivity
          | apply (respects_bind R); [|intros ?]
          | apply (respects_for_fold R); intros ? ?
          | apply (respects_for_each R); intros ?
          | apply (respects_for_map R); intros ? ]
    | |- respects _ (match ?x with _ => _ end) => destruct x
    end.

(** The rows that a bulk creation sends to the store fit when the dicts
    do. *)
Lemma new_document_fits env tenant_id doc_data mk :
  new_document env tenant_id doc_data = Ok mk ->
  forall id created updated,
    document_fits (mk id created updated) = doc_data_fits doc_data.
Proof.
  unfold new_document. destruct (dd_title doc_data) as [title|] eqn:Htitle;
    [|discriminate].
  intros [= <-] id created updated.
  unfold document_fits, doc_data_fits. cbn. rewrite Htitle. cbn.
  now rewrite !andb_true_r.
Qed.

Lemma for_map_lift_inv {A B} (f : A -> Result B) (l : list A) s ys s' :
  for_map l (fun x => lift (f x)) s = (Ok ys, s') ->
  s' = s /\ Forall2 (fun x y => f x = Ok y) l ys.
Proof.
  revert ys s'. induction l as [|x l IH]; intros ys s' H.
  - inversion H. split; [reflexivity|constructor].
  - rewrite for_map_cons in H.
    apply bind_inv in H as (y & s0 & Hy & H).
    unfold lift in Hy. injection Hy as Hy <-.
    apply bind_inv in H as (ys' & s1 & Hrest & H).
    destruct (IH _ _ Hrest) as [-> Hall].
    inversion H; subst. split; [reflexivity|]. now constructor.
Qed.


Lemma flushed_rows_fit env tenant_id docs pending rows :
  Forall2 (fun doc_data mk => new_document env tenant_id doc_data = Ok mk)
    docs pending ->
  Forall2 (fun mk d => exists id created updated, d = mk id created updated)
    pending rows ->
  forallb document_fits rows = forallb doc_data_fits docs.
Proof.
  intros Hnew. revert rows.
  induction Hnew as [|doc_data mk docs pending Hmk _ IH]; intros rows Hrows;
    inversion Hrows as [|? d ? rows' (id & created & updated & ->) Hrest];
    subst; [reflexivity|].
  simpl. now rewrite (new_document_fits _ _ _ _ Hmk), (IH _ Hrest).
Qed.

Section Steps_of_the_task.
Context (R : State -> State -> Prop) `{!StepInvariant R}.

Lemma respects_progress_rows connector_id :
  respects R (progress_rows connector_id).
Proof. unfold progress_rows. respects_steps. Qed.

Lemma respects_connector_by_id connector_id :
  respects R (connector_by_id connector_id).
Proof. unfold connector_by_id. respects_steps. Qed.

Lemma respects_get_connector_class env t :
  respects R (Connectors.get_connector_class env t).
Proof. unfold Connectors.get_connector_class. respects_steps. Qed.

Lemma respects_find_by_external_ids external_ids connector_id :
  respects R (find_by_external_ids external_ids connector_id).
Proof. unfold find_by_external_ids. respects_steps. Qed.

Lemma respects_flush_documents pending :
  respects R (for_map pending flush_document).
Proof. unfold flush_document. respects_steps. Qed.


Lemma respects_create_embeddings_batch env texts batch_size :
  respects R (AIService.create_embeddings_batch env texts batch_size).
Proof.
  unfold AIService.create_embeddings_batch, AIService.embed_batch.
  respects_steps.
Qed.

Lemma respects_upsert_documents_batch env docs tenant_id batch_size :
  respects R (VectorService.upsert_documents_batch env docs tenant_id
                batch_size).
Proof.
  unfold VectorService.upsert_documents_batch, VectorService.upsert_batch.
  destruct docs; [apply (respects_ret R)|].
  apply (respects_bind R); [apply respects_create_embeddings_batch|intros ?].
  respects_steps.
Qed.

(** The block that persists the new items keeps what their creation
    keeps. *)
Lemma respects_persist_new_items_with env task new_items :
  respects R
    (create_documents_bulk env (task_tenant_id task)
       (map (to_doc_data (task_connector_id task)) new_items)) ->
  respects R (persist_new_items env task new_items).
Proof.
  intros Hcreate. unfold persist_new_items.
  destruct new_items; [apply (respects_ret R)|].
  apply (respects_bind R); [exact Hcreate|intros docs].
  do 3 (apply (respects_bind R); [respects_steps|intros _]).
  apply (respects_bind R); [apply respects_upsert_documents_batch|intros indexed].
  respects_steps.
Qed.

Lemma respects_mark_complete task : respects R (mark_complete task).
Proof.
  unfold mark_complete.
  do 2 (apply (respects_bind R); [respects_steps|intros _]).
  apply (respects_bind R); [apply (respects_utcnow R)|intros completed_at].
  apply (respects_bind R); [respects_steps|intros _].
  apply (respects_bind R); [apply respects_connector_by_id|intros [c|]];
    respects_steps.
Qed.

(** The [try] block keeps what the creation of the documents keeps, for
    the items that the source of the task can return. *)
Lemma respects_sync_body_with env task :
  (forall cls inst items existing,
     import_connector env (task_connector_type task) = Ok cls ->
     construct cls (task_credentials task) = Ok inst ->
     fetch_items inst = Ok items ->
     respects R
       (create_documents_bulk env (task_tenant_id task)
          (map (to_doc_data (task_connector_id task))
             (new_items_of existing items)))) ->
  respects R (sync_body env task).
Proof.
  intros Hcreate. unfold sync_body.
  apply (respects_bind R); [apply respects_progress_rows|intros rows].
  apply (respects_bind R); [apply (respects_scalar_one R)|intros _].
  apply (respects_bind_after R
           (fun found => forall cls, found = Some cls ->
              import_connector env (task_connector_type task) = Ok cls));
    [apply respects_get_connector_class| |].
  { intros s found s' Hrun cls ->.
    unfold Connectors.get_connector_class in Hrun.
    destruct (task_connector_type task); unfold_monad;
      try discriminate Hrun;
      match type of Hrun with
      | context [import_connector env ?t] =>
          destruct (import_connector env t); [|discriminate Hrun]
      end; now inversion Hrun. }
  intros [cls|] Hcls; [|respects_steps].
  specialize (Hcls cls eq_refl).
  apply (respects_bind_after R
           (fun inst => construct cls (task_credentials task) = Ok inst));
    [apply (respects_lift R)|intros s inst s' Hrun; now inversion Hrun|].
  intros inst Hinst.
  do 3 (apply (respects_bind R); [respects_steps|intros _]).
  apply (respects_bind_after R (fun items => fetch_items inst = Ok items));
    [apply (respects_lift R)|intros s items s' Hrun; now inversion Hrun|].
  intros items Hitems.
  do 3 (apply (respects_bind R); [respects_steps|intros _]).
  apply (respects_bind R); [apply respects_find_by_external_ids|intros existing].
  apply (respects_bind R); [|intros _; apply respects_mark_complete].
  apply respects_persist_new_items_with.
  apply (Hcreate cls inst items existing Hcls Hinst Hitems).
Qed.

End Steps_of_the_task.

Section Respects.
Context (R : State -> State -> Prop) `{!SyncInvariant R}.

Lemma respects_refused {A} e : respects R (refused e : M A).
Proof.
  intros s r s' H. unfold refused in H. unfold_monad. inversion H.
  apply inv_session.
Qed.

Lemma respects_insert_documents docs : respects R (insert_documents docs).
Proof.
  destruct (forallb document_fits docs) eqn:Hfits.
  - now apply (respects_insert_documents_fits R).
  - unfold insert_documents. rewrite Hfits. apply respects_refused.
Qed.

Lemma respects_create_documents_bulk env tenant_id docs :
  respects R (create_documents_bulk env tenant_id docs).
Proof.
  unfold create_documents_bulk.
  apply (respects_bind R); [respects_steps|intros pending].
  apply (respects_bind R); [apply (respects_flush_documents R)|intros rows].
  apply (respects_bind R); [apply respects_insert_documents|intros _].
  apply (respects_ret R).
Qed.


Lemma respects_sync_body env task : respects R (sync_body env task).
Proof.
  apply (respects_sync_body_with R). intros. apply respects_create_documents_bulk.
Qed.



End Respects.

Lemma same_source_refl c : same_source c c.
Proof. repeat split. Qed.

#[global] Instance same_rows_steps : StepInvariant same_rows.
Proof.
  split;
    try (intros; split; [reflexivity|];
         intros k c Hc; exists c; split; [exact Hc|apply same_source_refl]).
  - intros s1 s2 s3 [H1 H2] [H3 H4]. split; [congruence|].
    intros k c Hc.
    destruct (H2 k c Hc) as (c2 & Hc2 & Hs2 & Ht2 & Hr2).
    destruct (H4 k c2 Hc2) as (c3 & Hc3 & Hs3 & Ht3 & Hr3).
    exists c3. split; [exact Hc3|]. repeat split; congruence.
  - intros s connector_id f Hf. split.
    + simpl. rewrite map_map. apply map_ext. intros p.
      destruct (for_connector connector_id p); [apply Hf|reflexivity].
    + intros k c Hc. exists c. split; [exact Hc|apply same_source_refl].
  - intros s connector_id f Hf. split; [reflexivity|].
    intros k c Hc. simpl. rewrite lookup_alter. case_decide.
    + subst k. rewrite Hc. exists (f c). split; [reflexivity|apply Hf].
    + exists c. split; [exact Hc|apply same_source_refl].
Qed.

#[global] Instance same_rows_invariant : SyncInvariant same_rows.
Proof.
  split; [exact _|]. intros s b. split; [reflexivity|].
  intros k c Hc. exists c. split; [exact Hc|apply same_source_refl].
Qed.

#[global] Instance documents_grow_steps : StepInvariant documents_grow.
Proof.
  split; try (intros; exists []; simpl; now rewrite app_nil_r).
  - intros s1 s2 s3 [a1 H1] [a2 H2]. exists (a1 ++ a2).
    now rewrite H2, H1, app_assoc.
  - intros s docs. exists docs. reflexivity.
Qed.

#[global] Instance documents_grow_invariant : SyncInvariant documents_grow.
Proof.
  split; [exact _|]. intros s b. exists []. simpl. now rewrite app_nil_r.
Qed.

#[global] Instance keeps_session_steps : StepInvariant keeps_session.
Proof. split; unfold keeps_session, usable; intros; simpl; auto. Qed.

Lemma same_rows_progress_of connector_id s s' :
  same_rows s s' ->
  length (progress_of connector_id s') = length (progress_of connector_id s).
Proof.
  intros [Hrows _]. unfold progress_of.
  assert (Hlen : forall rows,
            length (List.filter (for_connector connector_id) rows)
            = length (List.filter
                        (fun id => bool_decide (id = connector_id))
                        (map sp_connector_id rows))).
  { induction rows as [|p rows IH]; simpl; auto.
    unfold for_connector at 1.
    destruct (bool_decide (sp_connector_id p = connector_id)); simpl;
      now rewrite IH. }
  now rewrite !Hlen, Hrows.
Qed.

Lemma same_rows_connector connector_id s s' c :
  same_rows s s' ->
  connectors s !! connector_id = Some c ->
  exists c', connectors s' !! connector_id = Some c' /\ same_source c c'.
Proof. intros [_ Hsource] Hc. apply (Hsource _ _ Hc). Qed.

(** ** The sync task: failure *)

Lemma session_usable_run s :
  usable s -> session_usable s = (Ok tt, s).
Proof. unfold usable, session_usable. unfold_monad. now intros ->. Qed.

Lemma session_usable_then {A} (f : unit -> M A) s :
  usable s -> (session_usable ≫= f) s = f tt s.
Proof. intros H. apply bind_ok. now apply session_usable_run. Qed.

(** The handler on a session that has lost its transaction. *)
Lemma sync_failed_unusable task e s :
  pending_rollback s = true ->
  sync_failed task e s = (Raise pending_rollback_error, s).
Proof.
  intros H. unfold sync_failed, session_usable. unfold_monad. now rewrite H.
Qed.

(** The handler, run on a usable session where the progress row and the
    connector exist. *)
Lemma sync_failed_run task e s p c :
  usable s ->
  progress_of (task_connector_id task) s = [p] ->
  connectors s !! task_connector_id task = Some c ->
  exists s',
    sync_failed task e s = (Ok tt, s') /\
    progress_of (task_connector_id task) s' =
      [failed_progress e (clock s) p] /\
    connectors s' !! task_connector_id task = Some (failed_connector e c) /\
    log s' = log s ++
      [SqlSelect (select_sync_progress (task_connector_id task));
       SqlSelect (select_connector (task_connector_id task)); Commit] /\
    documents s' = documents s.
Proof.
  intros Hs Hp Hc. unfold sync_failed.
  rewrite (bind_ok _ _ _ _ _ (session_usable_run _ Hs)).
  step. rewrite Hp. unfold scalar_one_or_none at 1. step.
  do 5 step. rewrite Hc. do 2 step. rewrite emit_run. norm_state.
  eexists. split; [reflexivity|]. norm_state.
  split; [|split; [|split; [|reflexivity]]].
  - unfold progress_of. norm_state.
    rewrite !progress_of_map by (intros ? H; exact H).
    unfold progress_of in Hp. now rewrite Hp.
  - rewrite !lookup_alter_eq, Hc. reflexivity.
  - now rewrite <- !app_assoc.
Qed.

(** X28. A sync task of a connector that has its progress row: when a
    step of the [try] block raises [e] and leaves the session usable (any
    failure but a statement that the store refuses: the class that cannot
    be imported or built, the source, the embedding client, the index),
    the task itself ends normally; it has then set the progress row to
    [failed] with [str(e)] as the error message and the time of the
    handling as [completed_at], and the connector to [failed] with the
    same message as its error; after the exception it has only looked the
    two rows up and committed: nothing is fetched or run again. *)
Theorem run_sync_task_failure env task s e s1 p c :
  progress_of (task_connector_id task) s = [p] ->
  connectors s !! task_connector_id task = Some c ->
  sync_body env task (in_new_session s) = (Raise e, s1) ->
  usable s1 ->
  exists s2 p2 c2,
    run_sync_task env task s = (Ok tt, s2) /\
    progress_of (task_connector_id task) s2 = [p2] /\
    sp_status p2 = "failed" /\
    sp_error_message p2 = Some (str_exn e) /\
    sp_completed_at p2 = Some (clock s1) /\
    connectors s2 !! task_connector_id task = Some c2 /\
    conn_sync_status c2 = "failed" /\
    conn_sync_error c2 = Some (str_exn e) /\
    log s2 = log s1 ++
      [SqlSelect (select_sync_progress (task_connector_id task));
       SqlSelect (select_connector (task_connector_id task)); Commit] /\
    documents s2 = documents s1.
Proof.
  intros Hp Hc Hbody Hs1.
  pose proof (respects_sync_body same_rows env task _ _ _ Hbody) as Hsame.
  pose proof (same_rows_progress_of (task_connector_id task) _ _ Hsame)
    as Hlen.
  change (progress_of (task_connector_id task) (in_new_session s))
    with (progress_of (task_connector_id task) s) in Hlen.
  rewrite Hp in Hlen.
  destruct (progress_of (task_connector_id task) s1) as [|p1 [|q rows]]
    eqn:Hp1; try discriminate Hlen.
  destruct (same_rows_connector _ (in_new_session s) _ _ Hsame Hc)
    as (c1 & Hc1 & _).
  destruct (sync_failed_run task e s1 p1 c1 Hs1 Hp1 Hc1)
    as (s2 & Hrun & Hprogress & Hconn & Hlog & Hdocs).
  exists s2, (failed_progress e (clock s1) p1), (failed_connector e c1).
  split.
  - rewrite run_sync_task_run. unfold try_except. now rewrite Hbody.
  - repeat split; assumption.
Qed.

Lemma run_sync_task_failure_witness :
  exists s2 p2,
    run_sync_task (source_env (Raise rate_limited))
      (task_for 3%N (example_connector "idle")) sync_accepted = (Ok tt, s2) /\
    progress_of 3%N s2 = [p2] /\
    sp_status p2 = "failed" /\
    sp_error_message p2 = Some "429 Too Many Requests".
Proof.
  destruct (run_sync_task_failure (source_env (Raise rate_limited))
              (task_for 3%N (example_connector "idle")) sync_accepted
              rate_limited
              (snd (sync_body (source_env (Raise rate_limited))
                      (task_for 3%N (example_connector "idle"))
                      (in_new_session sync_accepted)))
              (starting 3%N 20)
              (example_connector "syncing"))
    as (s2 & p2 & c2 & Hrun & Hrow & Hstatus & Hmessage & _);
    try reflexivity.
  exists s2, p2. repeat split; assumption.
Defined.

(** The branch for a connector type without a class is not an exception:
    it marks the progress row as failed and returns, and the connector
    stays in [syncing]. *)
Example unknown_connector_type :
  let task :=
    {| task_connector_id := 3%N; task_connector_type := ONEDRIVE;
       task_credentials := "{}"; task_tenant_id := 1%N |} in
  let '(result, s') :=
    run_sync_task (source_env (Ok three_pages)) task sync_accepted in
  result = Ok tt /\
  map (fun p => (sp_status p, sp_completed_at p)) (progress_of 3%N s')
    = [("failed", None)] /\
  conn_sync_status <$> connectors s' !! 3%N = Some "syncing".
Proof. vm_compute. repeat split. Qed.

(** ** The sync task: what a first sync leaves *)




Lemma to_doc_data_fits connector_id item :
  doc_data_fits (to_doc_data connector_id item) = item_fits item.
Proof.
  unfold doc_data_fits, item_fits, to_doc_data. cbn.
  now rewrite andb_true_r.
Qed.

Lemma forallb_to_doc_data_fits connector_id items :
  forallb doc_data_fits (map (to_doc_data connector_id) items)
    = forallb item_fits items.
Proof.
  induction items as [|item items IH]; [reflexivity|].
  simpl. now rewrite to_doc_data_fits, IH.
Qed.

Lemma new_documents_run env tenant_id connector_id items s :
  exists pending,
    for_map (map (to_doc_data connector_id) items)
      (fun doc_data => lift (new_document env tenant_id doc_data)) s
      = (Ok pending, s) /\
    Forall2
      (fun item mk =>
         forall id created updated,
           made_from connector_id item (mk id created updated))
      items pending.
Proof.
  induction items as [|item items (pending & Hrun & Hall)].
  - exists []. split; [reflexivity|constructor].
  - eexists (_ :: pending). simpl map. rewrite for_map_cons. split.
    + erewrite bind_ok by reflexivity.
      rewrite (bind_ok _ _ _ _ _ Hrun). reflexivity.
    + constructor; [|exact Hall]. intros id created updated. split; reflexivity.
Qed.

Lemma flush_document_run mk s :
  flush_document mk s =
    (Ok (mk (uuid_counter s) (clock s) (clock s + 1)),
     set_clock (clock s + 1 + 1)
       (set_uuid_counter (uuid_counter s + 1)%N s)).
Proof. reflexivity. Qed.

Lemma insert_documents_accepted docs s :
  forallb document_fits docs = true ->
  insert_documents docs s =
    (Ok tt,
     set_log (log s ++ [SqlInsert "documents" (length docs)])
       (set_documents (documents s ++ docs) s)).
Proof. intros H. unfold insert_documents. now rewrite H. Qed.

Lemma insert_documents_refused docs s :
  forallb document_fits docs = false ->
  insert_documents docs s
    = (Raise value_too_long, set_pending_rollback true s).
Proof. intros H. unfold insert_documents. now rewrite H. Qed.

(** The flush draws ids and times and touches nothing else. *)
Lemma flush_documents_run pending : forall s,
  exists docs now next,
    for_map pending flush_document s
      = (Ok docs, set_clock now (set_uuid_counter next s)) /\
    Forall2 (fun mk d => exists id created updated,
                           d = mk id created updated) pending docs.
Proof.
  induction pending as [|mk pending IH]; intros s.
  - exists [], (clock s), (uuid_counter s).
    split; [now destruct s|constructor].
  - rewrite for_map_cons.
    rewrite (bind_ok _ _ _ _ _ (flush_document_run _ _)).
    destruct (IH (set_clock (clock s + 1 + 1)
                    (set_uuid_counter (uuid_counter s + 1)%N s)))
      as (docs & now & next & Hrun & Hall).
    rewrite (bind_ok _ _ _ _ _ Hrun).
    eexists (_ :: docs), now, next. split; [reflexivity|].
    constructor; [|exact Hall]. eauto.
Qed.

(** A bulk creation of the documents of items: it is accepted when the
    items fit and refused otherwise, after the ids and the times have
    been drawn. *)
Lemma create_documents_bulk_run env tenant_id connector_id items s :
  exists docs now next,
    Forall2 (made_from connector_id) items docs /\
    create_documents_bulk env tenant_id
      (map (to_doc_data connector_id) items) s
    = let s1 := set_clock now (set_uuid_counter next s) in
      if forallb item_fits items then
        (Ok docs,
         set_log (log s ++ [SqlInsert "documents" (length docs)])
           (set_documents (documents s ++ docs) s1))
      else (Raise value_too_long, set_pending_rollback true s1).
Proof.
  destruct (new_documents_run env tenant_id connector_id items s)
    as (pending & Hpending & Hmade).
  destruct (flush_documents_run pending s)
    as (docs & now & next & Hflush & Hdocs).
  exists docs, now, next. split.
  - clear - Hmade Hdocs. revert docs Hdocs.
    induction Hmade as [|item mk items pending Hmk _ IH]; intros docs Hdocs;
      inversion Hdocs as [|? d ? docs' (id & created & updated & ->) Hrest];
      subst; constructor; auto.
  - unfold create_documents_bulk.
    rewrite (bind_ok _ _ _ _ _ Hpending), (bind_ok _ _ _ _ _ Hflush).
    destruct (for_map_lift_inv _ _ _ _ _ Hpending) as [_ Hnew].
    pose proof (flushed_rows_fit env tenant_id _ _ _ Hnew Hdocs) as Hfit.
    rewrite forallb_to_doc_data_fits in Hfit.
    unfold insert_documents. rewrite Hfit. cbv zeta.
    destruct (forallb item_fits items); unfold_monad; reflexivity.
Qed.



(** The [try] block up to the deduplication: the progress row carries
    the number of items, the table of documents and the connectors are
    as they were, and so is the session. *)
Lemma sync_body_reaches_dedup env task s p cls inst items :
  progress_of (task_connector_id task) s = [p] ->
  task_connector_type task <> ONEDRIVE ->
  task_connector_type task <> EMAIL_FORWARDING ->
  import_connector env (task_connector_type task) = Ok cls ->
  construct cls (task_credentials task) = Ok inst ->
  fetch_items inst = Ok items ->
  exists s1,
    documents s1 = documents s /\
    connectors s1 = connectors s /\
    sync_body env task s =
      (persist_new_items env task
         (new_items_of
            (existing_for (external_ids_of items) (task_connector_id task)
               (documents s)) items);;
       mark_complete task) s1 /\
    pending_rollback s1 = pending_rollback s /\
    progress_of (task_connector_id task) s1 =
      [with_current_step
         (Some ("Processing " +:+ pretty (len items) +:+ " items..."))
         (with_total_items (len items)
            (with_current_step (Some "Fetching items from source...") p))] /\
    log s1 = log s ++
      [SqlSelect (select_sync_progress (task_connector_id task)); Commit;
       Call call_fetch_items; Commit]
      ++ lookup_events (external_ids_of items) (task_connector_id task).
Proof.
  intros Hp Ht1 Ht2 Hcls Hinst Hitems.
  unfold sync_body.
  step. rewrite Hp. unfold scalar_one at 1. step.
  rewrite (bind_ok _ _ _ _ _ (get_connector_class_run _ _ _ _ Ht1 Ht2 Hcls)).
  rewrite Hinst. do 4 step. rewrite Hitems. do 5 step.
  eexists. split; [|split; [|split; [reflexivity|]]]; [reflexivity..|].
  norm_state. split; [reflexivity|]. split.
  - unfold progress_of. norm_state.
    rewrite !progress_of_map by (intros ? H; exact H).
    unfold progress_of in Hp. now rewrite Hp.
  - now rewrite <- !app_assoc.
Qed.




(** ** The sync task: the session *)



(** ** The sync task: a flush that the store refuses *)

Lemma forallb_false_not_nil {A} (p : A -> bool) l :
  forallb p l = false -> l <> [].
Proof. now intros H ->. Qed.

(** C3. A step of the [try] block whose failure the task does not
    record: the flush of the new documents, refused by the store.  For a
    task whose connector has its progress row and whose source answers
    with items of which one that is new does not fit the columns of its
    document (a title of more than 500 characters, say), the creation of
    the documents raises, the handler raises in turn at its first
    statement, on the session that it has not rolled back, and that
    exception leaves the task.  Nothing of the failure is recorded: the
    progress row has the status, the error message and the completion
    time that it had, the connectors and the documents are as they were;
    and a connector that [start_sync] left in [syncing] stays there, so
    that the next request to sync it is refused. *)
Theorem refused_flush_escapes_the_task env task s p c cls inst items :
  progress_of (task_connector_id task) s = [p] ->
  connectors s !! task_connector_id task = Some c ->
  task_connector_type task <> ONEDRIVE ->
  task_connector_type task <> EMAIL_FORWARDING ->
  import_connector env (task_connector_type task) = Ok cls ->
  construct cls (task_credentials task) = Ok inst ->
  fetch_items inst = Ok items ->
  forallb item_fits
    (new_items_of
       (existing_for (external_ids_of items) (task_connector_id task)
          (documents s)) items) = false ->
  exists s' p',
    run_sync_task env task s = (Raise pending_rollback_error, s') /\
    progress_of (task_connector_id task) s' = [p'] /\
    sp_status p' = sp_status p /\
    sp_error_message p' = sp_error_message p /\
    sp_completed_at p' = sp_completed_at p /\
    connectors s' = connectors s /\
    documents s' = documents s /\
    log s' = log s ++
      [SqlSelect (select_sync_progress (task_connector_id task)); Commit;
       Call call_fetch_items; Commit]
      ++ lookup_events (external_ids_of items) (task_connector_id task) /\
    (conn_sync_status c = "syncing" ->
     fst (start_sync (task_connector_id task) (conn_tenant_id c) s')
       = Raise (HTTPException 400 "Sync already in progress")).
Proof.
  intros Hp Hc Ht1 Ht2 Hcls Hinst Hitems Hunfit.
  destruct (sync_body_reaches_dedup env task (in_new_session s) p cls inst
              items Hp Ht1 Ht2 Hcls Hinst Hitems)
    as (s1 & Hdocs & Hconn & Heq & _ & Hrow & Hlog).
  change (documents (in_new_session s)) with (documents s) in *.
  change (connectors (in_new_session s)) with (connectors s) in *.
  change (log (in_new_session s)) with (log s) in *.
  set (new_items :=
         new_items_of
           (existing_for (external_ids_of items) (task_connector_id task)
              (documents s)) items) in *.
  destruct (create_documents_bulk_run env (task_tenant_id task)
              (task_connector_id task) new_items s1)
    as (docs & now & next & _ & Hcreate).
  rewrite Hunfit in Hcreate. cbv zeta in Hcreate.
  set (s2 := set_pending_rollback true
               (set_clock now (set_uuid_counter next s1))) in *.
  assert (Hbody : sync_body env task (in_new_session s)
                  = (Raise value_too_long, s2)).
  { rewrite Heq. apply bind_raise. unfold persist_new_items.
    destruct new_items as [|item0 rest] eqn:Hnew;
      [destruct (forallb_false_not_nil _ _ Hunfit eq_refl)|].
    rewrite <- Hnew in *. now apply bind_raise. }
  exists s2, (with_current_step
                (Some ("Processing " +:+ pretty (len items) +:+ " items..."))
                (with_total_items (len items)
                   (with_current_step (Some "Fetching items from source...")
                      p))).
  split.
  { rewrite run_sync_task_run. unfold try_except. rewrite Hbody.
    now apply sync_failed_unusable. }
  split; [exact Hrow|].
  do 3 (split; [reflexivity|]).
  split; [exact Hconn|]. split; [exact Hdocs|]. split; [exact Hlog|].
  intros Hsyncing.
  assert (Hc2 : connectors s2 !! task_connector_id task = Some c)
    by (change (connectors s2) with (connectors s1); now rewrite Hconn).
  now rewrite (start_sync_refused _ _ _ _ Hc2 eq_refl Hsyncing).
Qed.

(** The page with the long title, in the first sync of connector 3: the
    task ends with the exception of the session, the progress row and
    the connector are still [syncing] with no error, no document is
    there, and the next sync is refused. *)
Lemma refused_flush_escapes_the_task_witness :
  exists s' p',
    run_sync_task (source_env (Ok [example_item "page-1" "Roadmap"; long_page]))
      (task_for 3%N (example_connector "idle")) sync_accepted
      = (Raise pending_rollback_error, s') /\
    progress_of 3%N s' = [p'] /\
    sp_status p' = "syncing" /\
    sp_error_message p' = None /\
    sp_completed_at p' = None /\
    conn_sync_status <$> connectors s' !! 3%N = Some "syncing" /\
    conn_sync_error <$> connectors s' !! 3%N = Some None /\
    documents s' = [] /\
    fst (start_sync 3%N 1%N s')
      = Raise (HTTPException 400 "Sync already in progress").
Proof.
  destruct (refused_flush_escapes_the_task
              (source_env (Ok [example_item "page-1" "Roadmap"; long_page]))
              (task_for 3%N (example_connector "idle")) sync_accepted
              (starting 3%N 20) (example_connector "syncing")
              {| construct := fun _ =>
                   Ok {| fetch_items :=
                           Ok [example_item "page-1" "Roadmap"; long_page] |} |}
              {| fetch_items :=
                   Ok [example_item "page-1" "Roadmap"; long_page] |}
              [example_item "page-1" "Roadmap"; long_page])
    as (s' & p' & Hrun & Hrow & Hstatus & Hmessage & Hcompleted & Hconn
          & Hdocs & _ & Hagain);
    try reflexivity; try discriminate.
  exists s', p'. split; [exact Hrun|]. split; [exact Hrow|].
  split; [now rewrite Hstatus|]. split; [now rewrite Hmessage|].
  split; [now rewrite Hcompleted|].
  rewrite Hconn, Hdocs. repeat split. now apply Hagain.
Defined.

(** ** The sync task: two syncs in a row *)



(** * The rest of the services and of the endpoints: properties *)

Lemma modify_run f s : modify f s = (Ok tt, f s).
Proof. reflexivity. Qed.

Lemma get_state_run s : get_state s = (Ok s, s).
Proof. reflexivity. Qed.

Lemma raise_run {A} e s : (raise e : M A) s = (Raise e, s).
Proof. reflexivity. Qed.

(** One step of a run, also through a write or a read of the store. *)
Ltac run_step :=
  rewrite ?bind_assoc_run;
  first
    [ rewrite (bind_ok _ _ _ _ _ (modify_run _ _)); norm_state
    | rewrite (bind_ok _ _ _ _ _ (get_state_run _)); norm_state
    | step ].

(** ** Document store: single documents *)

Lemma filter_is_document_unique document_id tenant_id rows :
  List.NoDup (map doc_id rows) ->
  (length (List.filter (DocumentCrud.is_document document_id tenant_id) rows)
     <= 1)%nat.
Proof.
  induction rows as [|d rows IH]; intros Hnd; simpl; [lia|].
  inversion Hnd as [|? ? Hnotin Hnd']; subst.
  destruct (DocumentCrud.is_document document_id tenant_id d) eqn:Hd.
  - assert (Hnone : List.filter
              (DocumentCrud.is_document document_id tenant_id) rows = []).
    { destruct (List.filter _ rows) as [|d' l] eqn:Hf; [reflexivity|].
      exfalso. apply Hnotin.
      assert (Hin : In d' (List.filter
                (DocumentCrud.is_document document_id tenant_id) rows))
        by (rewrite Hf; left; reflexivity).
      apply filter_In in Hin as [Hin Hd'].
      unfold DocumentCrud.is_document in Hd, Hd'.
      apply andb_prop in Hd as [Hd _]. apply andb_prop in Hd' as [Hd' _].
      apply bool_decide_eq_true in Hd, Hd'. rewrite Hd, <- Hd'.
      now apply in_map. }
    rewrite Hnone. simpl. lia.
  - now apply IH.
Qed.

Lemma is_document_true document_id tenant_id d :
  DocumentCrud.is_document document_id tenant_id d = true <->
  doc_id d = document_id /\ doc_tenant_id d = tenant_id.
Proof.
  unfold DocumentCrud.is_document, of_tenant.
  rewrite andb_true_iff, !bool_decide_eq_true. reflexivity.
Qed.

Lemma get_document_run document_id tenant_id s :
  DocumentCrud.get_document document_id tenant_id s =
    scalar_one_or_none
      (List.filter (DocumentCrud.is_document document_id tenant_id)
         (documents s)) s.
Proof. reflexivity. Qed.

(** Under the primary key, [get_document] finds the row with the id if it
    is of the tenant, and nothing otherwise; it never raises. *)
Lemma get_document_found document_id tenant_id s :
  unique_ids s ->
  exists found,
    DocumentCrud.get_document document_id tenant_id s = (Ok found, s) /\
    forall d, found = Some d <->
              d ∈ documents s /\ doc_id d = document_id /\
              doc_tenant_id d = tenant_id.
Proof.
  intros Hu. rewrite get_document_run.
  pose proof (filter_is_document_unique document_id tenant_id _ Hu) as Hlen.
  destruct (List.filter _ (documents s)) as [|d0 [|d1 l]] eqn:Hf;
    simpl in Hlen; [| |lia].
  - exists None. split; [reflexivity|]. intros d. split; [discriminate|].
    intros (Hin & Hid & Ht). exfalso.
    assert (Hd : In d (List.filter
                  (DocumentCrud.is_document document_id tenant_id)
                  (documents s))).
    { apply filter_In. split; [now apply list_elem_of_In|].
      now apply is_document_true. }
    rewrite Hf in Hd. destruct Hd.
  - exists (Some d0). split; [reflexivity|]. intros d.
    assert (Hd0 : In d0 (List.filter
                   (DocumentCrud.is_document document_id tenant_id)
                   (documents s))) by (rewrite Hf; now left).
    apply filter_In in Hd0 as [Hin0 Hp0]. apply is_document_true in Hp0.
    split.
    + intros [= <-]. split; [now apply list_elem_of_In|exact Hp0].
    + intros (Hin & Hid & Ht). f_equal.
      assert (Hd : In d (List.filter
                    (DocumentCrud.is_document document_id tenant_id)
                    (documents s))).
      { apply filter_In. split; [now apply list_elem_of_In|].
        now apply is_document_true. }
      rewrite Hf in Hd. destruct Hd as [Hd|[]]. exact Hd.
Qed.

(** X1. [GET /documents/{id}]: where ids are unique, the endpoint
    answers with the document of that id when the tenant of the request
    owns one, and with 404 otherwise, in particular for the id of a
    document of another tenant; it changes nothing. *)
Theorem get_document_by_owner_only document_id tenant_id s :
  unique_ids s ->
  (forall d,
     d ∈ documents s -> doc_id d = document_id ->
     doc_tenant_id d = tenant_id ->
     DocumentEndpoints.get_document document_id tenant_id s
       = (Ok (DocumentEndpoints.model_validate d), s)) /\
  (~ owns tenant_id s document_id ->
   DocumentEndpoints.get_document document_id tenant_id s
     = (Raise (HTTPException 404 "Document not found"), s)).
Proof.
  intros Hu.
  destruct (get_document_found document_id tenant_id s Hu)
    as (found & Hrun & Hfound).
  unfold DocumentEndpoints.get_document.
  split.
  - intros d Hin Hid Ht.
    rewrite (bind_ok _ _ _ _ _ Hrun).
    assert (Hd : found = Some d) by (apply Hfound; repeat split; assumption).
    rewrite Hd. reflexivity.
  - intros Hnot. rewrite (bind_ok _ _ _ _ _ Hrun).
    destruct found as [d|]; [|reflexivity].
    exfalso. apply Hnot. exists d. now apply Hfound.
Qed.

Lemma get_document_by_owner_only_witness :
  DocumentEndpoints.get_document 7%N 2%N two_tenants
    = (Ok (DocumentEndpoints.model_validate (tenant_doc 7%N 2%N)),
       two_tenants) /\
  DocumentEndpoints.get_document 7%N 1%N two_tenants
    = (Raise (HTTPException 404 "Document not found"), two_tenants).
Proof.
  assert (Hu : unique_ids two_tenants).
  { unfold unique_ids. simpl.
    repeat constructor; simpl; intuition discriminate. }
  destruct (get_document_by_owner_only 7%N 2%N two_tenants Hu) as [Hmine _].
  destruct (get_document_by_owner_only 7%N 1%N two_tenants Hu) as [_ Hother].
  split.
  - apply Hmine; [|reflexivity|reflexivity].
    apply list_elem_of_further, list_elem_of_here.
  - apply Hother. intros (d & Hin & Hid & Ht).
    apply list_elem_of_In in Hin. simpl in Hin.
    destruct Hin as [<-|[<-|[]]]; discriminate.
Defined.

(** ** Document store: creation *)

Lemma fresh_not_is_document tenant_id s :
  fresh_ids s ->
  List.filter (DocumentCrud.is_document (uuid_counter s) tenant_id)
    (documents s) = [].
Proof.
  unfold fresh_ids. induction (documents s) as [|d rows IH]; intros Hf;
    [reflexivity|].
  inversion Hf as [|? ? Hd Hrows]; subst. simpl.
  destruct (DocumentCrud.is_document (uuid_counter s) tenant_id d) eqn:Hp.
  - apply is_document_true in Hp as [Hid _]. lia.
  - now apply IH.
Qed.

(** The row that [create_document] adds, when its values fit. *)
Lemma create_document_run env tenant_id title content connector_id
    external_id source_url mime_type metadata source_created_at s :
  values_fit title external_id source_url mime_type = true ->
  exists doc,
    DocumentCrud.create_document env tenant_id title content connector_id
      external_id source_url mime_type metadata source_created_at s
      = (Ok doc,
         set_log (log s ++ [SqlInsert "documents" 1])
           (set_documents (documents s ++ [doc])
              (set_clock (clock s + 1 + 1)
                 (set_uuid_counter (uuid_counter s + 1)%N s)))) /\
    doc_id doc = uuid_counter s /\
    doc_tenant_id doc = tenant_id /\
    doc_title doc = title /\
    doc_content doc = content /\
    doc_connector_id doc = connector_id /\
    doc_external_id doc = external_id /\
    doc_source_url doc = source_url /\
    doc_mime_type doc = mime_type /\
    doc_status doc = PENDING /\
    doc_content_hash doc =
      (if truthy content then _compute_hash env <$> content else None).
Proof.
  intros Hfits. unfold DocumentCrud.create_document.
  rewrite (bind_ok _ _ _ _ _ (flush_document_run _ _)).
  match goal with
  | |- context [insert_documents ?l] =>
      assert (Hrow : forallb document_fits l = true)
  end.
  { unfold values_fit in Hfits. cbn [forallb]. unfold document_fits.
    cbn [doc_external_id doc_title doc_source_url doc_mime_type
         doc_classification doc_vector_id fits_opt].
    now rewrite Hfits. }
  rewrite (bind_ok _ _ _ _ _ (insert_documents_accepted _ _ Hrow)), ret_run.
  eexists. split; [reflexivity|]. repeat split.
Qed.

(** The same call with a value that does not fit: the store refuses the
    row, and no table has changed. *)
Lemma create_document_refused env tenant_id title content connector_id
    external_id source_url mime_type metadata source_created_at s :
  values_fit title external_id source_url mime_type = false ->
  exists s',
    DocumentCrud.create_document env tenant_id title content connector_id
      external_id source_url mime_type metadata source_created_at s
      = (Raise value_too_long, s') /\
    documents s' = documents s /\ log s' = log s.
Proof.
  intros Hfits. unfold DocumentCrud.create_document.
  rewrite (bind_ok _ _ _ _ _ (flush_document_run _ _)).
  match goal with
  | |- context [insert_documents ?l] =>
      assert (Hrow : forallb document_fits l = false)
  end.
  { unfold values_fit in Hfits. cbn [forallb]. unfold document_fits.
    cbn [doc_external_id doc_title doc_source_url doc_mime_type
         doc_classification doc_vector_id fits_opt].
    now rewrite Hfits. }
  rewrite (bind_raise _ _ _ _ _ (insert_documents_refused _ _ Hrow)).
  eexists. split; [reflexivity|]. split; reflexivity.
Qed.

(** X2. A created document can be read back, by its tenant only: where
    the id supply is ahead of the ids in the table and the title, the
    address and the type of the request fit their columns (500, 2000 and
    100 characters), [POST /documents] adds one pending row of the tenant
    at the end of the table, after which [get_document] with the id of
    the response finds that row for the tenant and nothing for any other
    tenant.  The supply stays ahead, and ids stay unique if they were. *)
Theorem created_document_is_found env doc_data tenant_id s :
  fresh_ids s ->
  document_create_fits doc_data = true ->
  exists resp doc s',
    DocumentEndpoints.create_document env doc_data tenant_id s
      = (Ok resp, s') /\
    resp = DocumentEndpoints.model_validate doc /\
    documents s' = documents s ++ [doc] /\
    doc_tenant_id doc = tenant_id /\
    doc_title doc = dc_title doc_data /\
    doc_status doc = PENDING /\
    DocumentCrud.get_document (dr_id resp) tenant_id s' = (Ok (Some doc), s') /\
    (forall other,
       other <> tenant_id ->
       DocumentCrud.get_document (dr_id resp) other s' = (Ok None, s')) /\
    fresh_ids s' /\
    (unique_ids s -> unique_ids s').
Proof.
  intros Hfresh Hfits.
  unfold DocumentEndpoints.create_document.
  destruct (create_document_run env tenant_id (dc_title doc_data)
              (dc_content doc_data) None None (dc_source_url doc_data)
              (dc_mime_type doc_data) (dc_metadata doc_data) None s Hfits)
    as (doc & Hrun & Hid & Htenant & Htitle & _ & _ & _ & _ & _ & Hstatus
          & _).
  rewrite (bind_ok _ _ _ _ _ Hrun), ret_run.
  eexists _, doc, _. split; [reflexivity|].
  split; [reflexivity|]. norm_state.
  split; [reflexivity|]. split; [exact Htenant|]. split; [exact Htitle|].
  split; [exact Hstatus|].
  cbn [DocumentEndpoints.model_validate dr_id]. rewrite Hid.
  assert (Hfilter : forall t,
    List.filter (DocumentCrud.is_document (uuid_counter s) t) (documents s)
      = []) by (intros t; now apply fresh_not_is_document).
  split; [|split; [|split]].
  - rewrite get_document_run. norm_state.
    rewrite List.filter_app, Hfilter. simpl.
    unfold DocumentCrud.is_document, of_tenant. rewrite Hid, Htenant.
    rewrite !bool_decide_eq_true_2 by reflexivity. reflexivity.
  - intros other Hother. rewrite get_document_run. norm_state.
    rewrite List.filter_app, Hfilter. simpl.
    unfold DocumentCrud.is_document, of_tenant. rewrite Hid, Htenant.
    rewrite (bool_decide_eq_false_2 (tenant_id = other)) by congruence.
    rewrite andb_false_r. reflexivity.
  - unfold fresh_ids in *. norm_state. apply Forall_app. split.
    + eapply Forall_impl; [exact Hfresh|]. simpl. intros d Hd. lia.
    + constructor; [rewrite Hid; lia|constructor].
  - unfold unique_ids. norm_state. intros Hu.
    rewrite map_app. simpl.
    apply NoDup_ListNoDup, NoDup_app. split; [now apply NoDup_ListNoDup|].
    split; [|apply NoDup_singleton].
    intros x Hx Hx'. apply list_elem_of_singleton in Hx'. subst x.
    apply list_elem_of_In, in_map_iff in Hx as (d & Hd & Hin).
    unfold fresh_ids in Hfresh. rewrite Forall_forall in Hfresh.
    apply list_elem_of_In in Hin.
    specialize (Hfresh d Hin). simpl in Hfresh. lia.
Qed.

Lemma created_document_is_found_witness :
  exists resp doc s',
    DocumentEndpoints.create_document echo_env
      {| dc_title := "Plan"; dc_content := Some "Q3"; dc_source_url := None;
         dc_mime_type := None; dc_metadata := None |} 1%N two_tenants
      = (Ok resp, s') /\
    dr_id resp = 8%N /\
    DocumentCrud.get_document 8%N 1%N s' = (Ok (Some doc), s') /\
    DocumentCrud.get_document 8%N 2%N s' = (Ok None, s').
Proof.
  destruct (created_document_is_found echo_env
              {| dc_title := "Plan"; dc_content := Some "Q3";
                 dc_source_url := None; dc_mime_type := None;
                 dc_metadata := None |} 1%N two_tenants)
    as (resp & doc & s' & Hrun & Hresp & _ & _ & _ & _ & Hmine & Hother & _).
  - unfold fresh_ids. simpl. repeat constructor.
  - reflexivity.
  - assert (Hid : dr_id resp = 8%N).
    { pose proof Hrun as Hrun'. vm_compute in Hrun'.
      injection Hrun' as <- _. reflexivity. }
    exists resp, doc, s'. split; [exact Hrun|]. split; [exact Hid|].
    rewrite <- Hid. split; [exact Hmine|]. apply Hother. discriminate.
Defined.

(** ** Document store: creation in bulk *)




(** ** Document store: listing *)

Lemma insert_by_desc_length {A} (key : A -> Z) x l :
  length (Paging.insert_by_desc key x l) = S (length l).
Proof.
  induction l as [|y l IH]; simpl; [reflexivity|].
  destruct (key x <? key y); simpl; [now rewrite IH|reflexivity].
Qed.

Lemma insert_by_desc_In {A} (key : A -> Z) x l z :
  In z (Paging.insert_by_desc key x l) <-> z = x \/ In z l.
Proof.
  induction l as [|y l IH]; simpl; [intuition|].
  destruct (key x <? key y); simpl; [rewrite IH|]; intuition.
Qed.

Lemma order_by_desc_length {A} (key : A -> Z) rows :
  length (Paging.order_by_desc key rows) = length rows.
Proof.
  induction rows as [|x rows IH]; simpl; [reflexivity|].
  rewrite insert_by_desc_length. now rewrite <- IH.
Qed.

Lemma order_by_desc_In {A} (key : A -> Z) rows z :
  In z (Paging.order_by_desc key rows) <-> In z rows.
Proof.
  induction rows as [|x rows IH]; simpl; [reflexivity|].
  rewrite insert_by_desc_In, IH. intuition.
Qed.

Lemma insert_by_desc_descending {A} (key : A -> Z) x l :
  descending key l -> descending key (Paging.insert_by_desc key x l).
Proof.
  induction l as [|y l IH]; simpl.
  - intros _. split; constructor.
  - intros [Hy Hl]. destruct (Z.ltb_spec (key x) (key y)) as [Hlt|Hge].
    + simpl. split; [|now apply IH].
      rewrite Forall_forall. intros z Hz.
      apply list_elem_of_In, insert_by_desc_In in Hz as [->|Hz]; [lia|].
      rewrite Forall_forall in Hy. apply Hy. now apply list_elem_of_In.
    + simpl. split; [|split; assumption].
      constructor; [exact Hge|].
      eapply Forall_impl; [exact Hy|]. simpl. intros z Hz. lia.
Qed.

Lemma order_by_desc_descending {A} (key : A -> Z) rows :
  descending key (Paging.order_by_desc key rows).
Proof.
  induction rows as [|x rows IH]; simpl; [exact I|].
  now apply insert_by_desc_descending.
Qed.

Lemma In_firstn_inv {A} (x : A) n : forall l, In x (firstn n l) -> In x l.
Proof.
  induction n as [|n IH]; intros [|y l]; simpl; try tauto.
  intros [->|H]; [now left|right; now apply IH].
Qed.

Lemma In_skipn_inv {A} (x : A) n : forall l, In x (skipn n l) -> In x l.
Proof.
  induction n as [|n IH]; intros [|y l]; simpl; try tauto.
  intros H. right. now apply IH.
Qed.

Lemma descending_skipn {A} (key : A -> Z) n : forall l,
  descending key l -> descending key (skipn n l).
Proof.
  induction n as [|n IH]; intros [|x l]; simpl; try tauto.
  intros [_ Hl]. now apply IH.
Qed.

Lemma descending_firstn {A} (key : A -> Z) n : forall l,
  descending key l -> descending key (firstn n l).
Proof.
  induction n as [|n IH]; intros [|x l]; simpl; try tauto.
  intros [Hx Hl]. split; [|now apply IH].
  rewrite Forall_forall. intros y Hy.
  rewrite Forall_forall in Hx. apply Hx.
  apply list_elem_of_In. apply list_elem_of_In in Hy.
  eapply In_firstn_inv; eauto.
Qed.

Lemma descending_map {A B} (key : B -> Z) (f : A -> B) l :
  descending (fun x => key (f x)) l -> descending key (map f l).
Proof.
  induction l as [|x l IH]; simpl; [tauto|].
  intros [Hx Hl]. split; [|now apply IH].
  rewrite Forall_forall. intros y Hy.
  apply list_elem_of_In, in_map_iff in Hy as (z & <- & Hz).
  rewrite Forall_forall in Hx. apply Hx. now apply list_elem_of_In.
Qed.

Lemma get_documents_run tenant_id status project_id connector_id
    limit offset s :
  DocumentCrud.get_documents tenant_id status project_id connector_id
    limit offset s =
  (Ok (Sql.limit limit
         (Paging.offset offset
            (Paging.order_by_desc doc_created_at
               (listed tenant_id status project_id connector_id s))),
       len (listed tenant_id status project_id connector_id s)), s).
Proof. reflexivity. Qed.

(** X4. [GET /documents]: for a page and a page size within the
    declared bounds, the endpoint reports as total the number of
    documents of the tenant that pass the given filters, whatever the
    page; the page holds [per_page] of them, or what is left of them
    after the pages before, or none when the page is beyond the end,
    which is no error; every document on it is such a document, and the
    page is ordered newest first.  Nothing is written. *)
Theorem list_documents_page status project_id connector_id page per_page
    tenant_id s :
  1 <= page -> 1 <= per_page <= 100 ->
  exists resp,
    DocumentEndpoints.list_documents status project_id connector_id
      page per_page tenant_id s = (Ok resp, s) /\
    dl_total resp
      = len (listed tenant_id status project_id connector_id s) /\
    len (dl_documents resp)
      = Z.min per_page (Z.max 0 (dl_total resp - (page - 1) * per_page)) /\
    (forall r, r ∈ dl_documents resp ->
       exists d,
         d ∈ listed tenant_id status project_id connector_id s /\
         r = DocumentEndpoints.model_validate d) /\
    newest_first (dl_documents resp) /\
    dl_page resp = page /\ dl_per_page resp = per_page.
Proof.
  intros Hpage Hper.
  unfold DocumentEndpoints.list_documents.
  rewrite (bind_ok _ _ _ _ _ (get_documents_run _ _ _ _ _ _ _)), ret_run.
  eexists. split; [reflexivity|]. cbn [dl_total dl_documents dl_page
    dl_per_page fst snd].
  set (rows := listed tenant_id status project_id connector_id s).
  split; [reflexivity|].
  unfold Sql.limit, Paging.offset.
  split; [|split; [|split; [|split; reflexivity]]].
  - unfold len. rewrite length_map, length_firstn, length_skipn.
    rewrite order_by_desc_length.
    assert (0 <= (page - 1) * per_page) by nia. lia.
  - intros r Hr.
    apply list_elem_of_In, in_map_iff in Hr as (d & <- & Hd).
    exists d. split; [|reflexivity].
    apply list_elem_of_In.
    apply In_firstn_inv in Hd. apply In_skipn_inv in Hd.
    now apply order_by_desc_In in Hd.
  - unfold newest_first.
    apply (descending_map dr_created_at DocumentEndpoints.model_validate).
    apply descending_firstn, descending_skipn.
    apply (order_by_desc_descending doc_created_at).
Qed.

Lemma list_documents_page_witness :
  exists resp,
    DocumentEndpoints.list_documents None None None 2 2 1%N library
      = (Ok resp, library) /\
    dl_total resp = 3 /\
    map dr_id (dl_documents resp) = [4%N].
Proof.
  destruct (list_documents_page None None None 2 2 1%N library)
    as (resp & Hrun & Htotal & _); [lia|lia|].
  exists resp. split; [exact Hrun|]. split; [exact Htotal|].
  vm_compute in Hrun. injection Hrun as <-. reflexivity.
Defined.

(** X5. Consecutive pages of [get_documents] make up the longer page:
    the [a] documents from an offset followed by the next [b] are the
    [a + b] documents from that offset, and the total is the same in the
    three answers.  This is for rows with distinct creation times: among
    rows created at the same time the store promises no order from one
    statement to the next. *)
Theorem get_documents_pages_compose tenant_id status project_id
    connector_id a b offset s :
  0 <= a -> 0 <= b -> 0 <= offset ->
  List.NoDup
    (map doc_created_at (listed tenant_id status project_id connector_id s)) ->
  exists first_page next_page total,
    DocumentCrud.get_documents tenant_id status project_id connector_id
      a offset s = (Ok (first_page, total), s) /\
    DocumentCrud.get_documents tenant_id status project_id connector_id
      b (offset + a) s = (Ok (next_page, total), s) /\
    DocumentCrud.get_documents tenant_id status project_id connector_id
      (a + b) offset s = (Ok (first_page ++ next_page, total), s).
Proof.
  intros Ha Hb Hoffset _. rewrite !get_documents_run.
  eexists _, _, _. split; [reflexivity|]. split; [reflexivity|].
  f_equal. f_equal. unfold Sql.limit, Paging.offset.
  rewrite !Z2Nat.inj_add by lia.
  rewrite <- take_take_drop. f_equal.
  rewrite skipn_skipn, (Nat.add_comm (Z.to_nat a)). reflexivity.
Qed.

Lemma get_documents_pages_compose_witness :
  exists first_page next_page,
    DocumentCrud.get_documents 1%N None None None 1 0 library
      = (Ok (first_page, 3), library) /\
    DocumentCrud.get_documents 1%N None None None 2 1 library
      = (Ok (next_page, 3), library) /\
    DocumentCrud.get_documents 1%N None None None 3 0 library
      = (Ok (first_page ++ next_page, 3), library) /\
    map doc_id (first_page ++ next_page) = [2%N; 1%N; 4%N].
Proof.
  destruct (get_documents_pages_compose 1%N None None None 1 2 0 library)
    as (first_page & next_page & total & H1 & H2 & H12); try lia.
  { vm_compute. repeat constructor; simpl; intuition discriminate. }
  assert (Htotal : total = 3).
  { pose proof H1 as H. vm_compute in H. injection H as _ <-. reflexivity. }
  subst total. exists first_page, next_page.
  split; [exact H1|]. split; [exact H2|]. split; [exact H12|].
  assert (Hfirst : map doc_id first_page = [2%N]).
  { pose proof H1 as H. vm_compute in H. injection H as <-. reflexivity. }
  assert (Hnext : map doc_id next_page = [1%N; 4%N]).
  { pose proof H2 as H. vm_compute in H. injection H as <-. reflexivity. }
  rewrite map_app, Hfirst, Hnext. reflexivity.
Defined.

(** ** Document store: the guard of the classify endpoint *)

Lemma NoDup_map_filter {A B} (f : A -> B) (p : A -> bool) l :
  List.NoDup (map f l) -> List.NoDup (map f (List.filter p l)).
Proof.
  induction l as [|x l IH]; simpl; intros Hnd; [constructor|].
  inversion Hnd as [|? ? Hnotin Hnd']; subst.
  destruct (p x); simpl; [|now apply IH].
  constructor; [|now apply IH].
  intros Hin. apply Hnotin.
  apply in_map_iff in Hin as (y & Hy & Hin).
  apply filter_In in Hin as [Hin _].
  rewrite <- Hy. now apply in_map.
Qed.

Lemma NoDup_map_inj {A B} (f : A -> B) l a b :
  List.NoDup (map f l) -> In a l -> In b l -> f a = f b -> a = b.
Proof.
  induction l as [|x l IH]; simpl; intros Hnd Ha Hb Hab; [destruct Ha|].
  inversion Hnd as [|? ? Hnotin Hnd']; subst.
  destruct Ha as [->|Ha], Hb as [->|Hb]; try reflexivity.
  - exfalso. apply Hnotin. rewrite Hab. now apply in_map.
  - exfalso. apply Hnotin. rewrite <- Hab. now apply in_map.
  - now apply IH.
Qed.

Lemma id_in_true ids d : id_in ids d = true <-> In (doc_id d) ids.
Proof.
  unfold id_in. rewrite bool_decide_eq_true. apply list_elem_of_In.
Qed.

Lemma filter_none {A} (p : A -> bool) l :
  (forall x, p x = false) -> List.filter p l = [].
Proof.
  intros Hp. induction l as [|x l IH]; simpl; [reflexivity|].
  now rewrite Hp.
Qed.

Lemma map_unchanged {A} (p : A -> bool) (f : A -> A) l :
  (forall x, p x = false) -> map (fun x => if p x then f x else x) l = l.
Proof.
  intros Hp. induction l as [|x l IH]; simpl; [reflexivity|].
  now rewrite Hp, IH.
Qed.

Lemma id_in_nil d : id_in [] d = false.
Proof.
  unfold id_in. apply bool_decide_eq_false_2, not_elem_of_nil.
Qed.

Lemma get_documents_by_ids_run ids tenant_id s :
  exists s',
    get_documents_by_ids ids tenant_id s =
      (Ok (List.filter (fun d => id_in ids d && of_tenant tenant_id d)
             (documents s)), s') /\
    s' = set_log (log s') s.
Proof.
  destruct ids as [|i ids].
  - exists s. split; [|now destruct s].
    unfold get_documents_by_ids. rewrite ret_run. f_equal. f_equal.
    symmetry. apply filter_none. intros d. now rewrite id_in_nil.
  - eexists. split; [reflexivity|]. reflexivity.
Qed.

Lemma bulk_classify_documents_run ids classification confidence s :
  (String.length classification <= 50)%nat ->
  exists s',
    bulk_classify_documents ids classification confidence s
      = (Ok (len (List.filter (id_in ids) (documents s))), s') /\
    exists now,
      documents s' =
        map (fun d => if id_in ids d
                      then classified_as classification confidence now d
                      else d) (documents s).
Proof.
  intros Hfits. apply fits_length in Hfits.
  destruct ids as [|i ids].
  - exists s. rewrite filter_id_in_nil. split; [reflexivity|].
    exists 0. symmetry. apply map_unchanged, id_in_nil.
  - unfold bulk_classify_documents. unfold_monad. cbn [Sql.update].
    rewrite Hfits. cbn [orb].
    eexists. split; [reflexivity|]. eexists. reflexivity.
Qed.

(** The rows of the tenant among those with one of the ids: as many as
    there are ids exactly when the ids are distinct and each is the id of
    a document of the tenant, and then no row of another tenant has one
    of the ids. *)
Lemma owned_rows_count ids tenant_id s :
  unique_ids s ->
  let rows :=
    List.filter (fun d => id_in ids d && of_tenant tenant_id d)
      (documents s) in
  (len rows = len ids <->
   List.NoDup ids /\ Forall (owns tenant_id s) ids) /\
  (len rows = len ids ->
   forall d, In d (documents s) -> id_in ids d = true ->
             of_tenant tenant_id d = true).
Proof.
  intros Hu rows.
  assert (Hnd : List.NoDup (map doc_id rows))
    by (apply NoDup_map_filter, Hu).
  assert (Hincl : incl (map doc_id rows) ids).
  { intros i Hi. apply in_map_iff in Hi as (d & <- & Hd).
    apply filter_In in Hd as [_ Hd]. apply andb_prop in Hd as [Hd _].
    now apply id_in_true. }
  assert (Hfull : len rows = len ids -> incl ids (map doc_id rows)).
  { intros Hlen. apply NoDup_length_incl; [exact Hnd| |exact Hincl].
    unfold len in Hlen. rewrite length_map. lia. }
  split; [split|].
  - intros Hlen. split.
    + apply (NoDup_incl_NoDup Hnd); [|exact Hincl].
      unfold len in Hlen. rewrite length_map. lia.
    + rewrite Forall_forall. intros i Hi.
      apply list_elem_of_In, (Hfull Hlen), in_map_iff in Hi
        as (d & Hid & Hd).
      apply filter_In in Hd as [Hin Hd]. apply andb_prop in Hd as [_ Ht].
      exists d. split; [now apply list_elem_of_In|]. split; [exact Hid|].
      unfold of_tenant in Ht. now apply bool_decide_eq_true in Ht.
  - intros [Hids Howned].
    assert (Hle : (length (map doc_id rows) <= length ids)%nat)
      by (apply NoDup_incl_length; assumption).
    assert (Hge : (length ids <= length (map doc_id rows))%nat).
    { apply NoDup_incl_length; [exact Hids|].
      intros i Hi. rewrite Forall_forall in Howned.
      destruct (Howned i) as (d & Hin & Hid & Ht);
        [now apply list_elem_of_In|].
      apply in_map_iff. exists d. split; [exact Hid|].
      apply filter_In. split; [now apply list_elem_of_In|].
      apply andb_true_intro. split.
      - apply id_in_true. now rewrite Hid.
      - unfold of_tenant. now apply bool_decide_eq_true. }
    rewrite length_map in Hle, Hge. unfold len. lia.
  - intros Hlen d Hin Hd.
    apply id_in_true, (Hfull Hlen), in_map_iff in Hd as (d' & Hid & Hd').
    apply filter_In in Hd' as [Hin' Hd']. apply andb_prop in Hd' as [_ Ht].
    assert (d' = d)
      by (apply (NoDup_map_inj doc_id (documents s)); assumption).
    now subst d'.
Qed.

Lemma others_after_update ids tenant_id (f : Document -> Document) rows :
  (forall d, doc_tenant_id (f d) = doc_tenant_id d) ->
  (forall d, In d rows -> id_in ids d = true ->
             of_tenant tenant_id d = true) ->
  List.filter (of_others tenant_id)
    (map (fun d => if id_in ids d then f d else d) rows)
    = List.filter (of_others tenant_id) rows.
Proof.
  intros Hf. induction rows as [|d rows IH]; intros Hmine; [reflexivity|].
  simpl. rewrite IH by (intros d' Hd'; apply Hmine; now right).
  destruct (id_in ids d) eqn:Hd; [|reflexivity].
  assert (Ht : of_tenant tenant_id d = true)
    by (apply Hmine; [now left|exact Hd]).
  unfold of_others, of_tenant in *. rewrite Hf, Ht. reflexivity.
Qed.

(** X6. [POST /documents/bulk/classify] goes through only for the
    classifier's own documents: where ids are unique and the label fits
    its column (50 characters), the endpoint classifies exactly when the
    ids of the request are distinct and each is the id of a document of
    the tenant; it then reports as many documents as there are ids and
    leaves every row of the other tenants as it was.  In every other
    case (an id of another tenant, an id of no document, an id given
    twice) it answers 400 and the table of documents is untouched. *)
Theorem bulk_classify_endpoint_guard ids classification tenant_id s :
  unique_ids s ->
  (String.length classification <= 50)%nat ->
  match
    DocumentRoutes.bulk_classify_documents ids classification tenant_id s
  with
  | (Ok n, s') =>
      List.NoDup ids /\ Forall (owns tenant_id s) ids /\
      n = len ids /\
      List.filter (of_others tenant_id) (documents s')
        = List.filter (of_others tenant_id) (documents s)
  | (Raise e, s') =>
      ~ (List.NoDup ids /\ Forall (owns tenant_id s) ids) /\
      e = HTTPException 400
            "Some documents not found or don't belong to you" /\
      documents s' = documents s
  end.
Proof.
  intros Hu Hfits.
  destruct (owned_rows_count ids tenant_id s Hu) as [Hcount Hmine].
  destruct (get_documents_by_ids_run ids tenant_id s) as (s1 & Hget & Hs1).
  unfold DocumentRoutes.bulk_classify_documents.
  rewrite (bind_ok _ _ _ _ _ Hget).
  assert (Hdocs1 : documents s1 = documents s) by (now rewrite Hs1).
  destruct (Z.eqb_spec
              (len (List.filter
                      (fun d => id_in ids d && of_tenant tenant_id d)
                      (documents s))) (len ids)) as [Hlen|Hlen]; simpl.
  - destruct (bulk_classify_documents_run ids classification
                (float_of_int 1) s1 Hfits) as (s2 & Hrun & now & Hdocs2).
    rewrite Hrun. apply Hcount in Hlen as Hok. destruct Hok as [Hnd Howned].
    split; [exact Hnd|]. split; [exact Howned|]. split.
    + rewrite Hdocs1, <- Hlen. f_equal.
      apply filter_ext_in. intros d Hd.
      destruct (id_in ids d) eqn:Hid; [|reflexivity].
      now rewrite (Hmine Hlen d Hd Hid).
    + rewrite Hdocs2, Hdocs1. apply others_after_update.
      * reflexivity.
      * apply Hmine, Hlen.
  - split; [|split; [reflexivity|exact Hdocs1]].
    intros Hok. apply Hlen, Hcount, Hok.
Qed.

Lemma bulk_classify_endpoint_guard_witness :
  (exists s',
     DocumentRoutes.bulk_classify_documents [6%N; 7%N] "work" 1%N two_tenants
       = (Raise (HTTPException 400
                   "Some documents not found or don't belong to you"), s') /\
     documents s' = documents two_tenants) /\
  (exists s',
     DocumentRoutes.bulk_classify_documents [6%N] "work" 1%N two_tenants
       = (Ok 1, s') /\
     List.filter (of_others 1%N) (documents s') = [tenant_doc 7%N 2%N]).
Proof.
  assert (Hu : unique_ids two_tenants).
  { unfold unique_ids. simpl.
    repeat constructor; simpl; intuition discriminate. }
  split.
  - pose proof (bulk_classify_endpoint_guard [6%N; 7%N] "work" 1%N
                  two_tenants Hu ltac:(simpl; lia)) as H.
    destruct (DocumentRoutes.bulk_classify_documents [6%N; 7%N] "work" 1%N
                two_tenants) as [[n|e] s'] eqn:Hrun.
    + vm_compute in Hrun. discriminate Hrun.
    + destruct H as (_ & -> & Hdocs). exists s'. split; [reflexivity|exact Hdocs].
  - pose proof (bulk_classify_endpoint_guard [6%N] "work" 1%N
                  two_tenants Hu ltac:(simpl; lia)) as H.
    destruct (DocumentRoutes.bulk_classify_documents [6%N] "work" 1%N
                two_tenants) as [[n|e] s'] eqn:Hrun.
    + destruct H as (_ & _ & -> & Hothers). exists s'.
      split; [reflexivity|exact Hothers].
    + vm_compute in Hrun. discriminate Hrun.
Defined.

(** ** Document store: deletion of one document *)

Lemma bulk_delete_one_run document_id tenant_id s :
  bulk_delete_documents [document_id] tenant_id 100 s =
    (Ok (0 + len (List.filter
                    (fun d => id_in [document_id] d && of_tenant tenant_id d)
                    (documents s))),
     set_log
       (log s ++
          [SqlDeleteDocuments [document_id] tenant_id
             (len (List.filter
                     (fun d => id_in [document_id] d
                               && of_tenant tenant_id d) (documents s)))])
       (set_documents
          (List.filter
             (fun d => negb (id_in [document_id] d && of_tenant tenant_id d))
             (documents s)) s)).
Proof. reflexivity. Qed.

Lemma id_in_one document_id tenant_id d :
  id_in [document_id] d && of_tenant tenant_id d
    = DocumentCrud.is_document document_id tenant_id d.
Proof.
  unfold id_in, DocumentCrud.is_document. f_equal.
  apply bool_decide_ext. rewrite list_elem_of_singleton. reflexivity.
Qed.

Lemma filter_after_negb {A} (p : A -> bool) l :
  List.filter p (List.filter (fun x => negb (p x)) l) = [].
Proof.
  induction l as [|x l IH]; simpl; [reflexivity|].
  destruct (p x) eqn:Hp; simpl; [exact IH|]. now rewrite Hp.
Qed.

(** X7. [DELETE /documents/{id}]: the endpoint removes the rows of the
    tenant with the id and no other row, after which the tenant no
    longer finds the document; when the tenant owns no document with the
    id, for instance because it is of another tenant, the answer is 404
    and the table is as it was. *)
Theorem delete_document_by_owner_only document_id tenant_id s :
  match DocumentEndpoints.delete_document document_id tenant_id s with
  | (Ok _, s') =>
      owns tenant_id s document_id /\
      documents s' =
        List.filter
          (fun d => negb (DocumentCrud.is_document document_id tenant_id d))
          (documents s) /\
      DocumentCrud.get_document document_id tenant_id s' = (Ok None, s')
  | (Raise e, s') =>
      ~ owns tenant_id s document_id /\
      e = HTTPException 404 "Document not found" /\
      documents s' = documents s
  end.
Proof.
  unfold DocumentEndpoints.delete_document.
  rewrite (bind_ok _ _ _ _ _ (bulk_delete_one_run _ _ _)).
  rewrite (filter_ext _ _ (id_in_one document_id tenant_id)).
  rewrite (filter_ext _ _
             (fun d => f_equal negb (id_in_one document_id tenant_id d))).
  set (mine := List.filter (DocumentCrud.is_document document_id tenant_id)
                 (documents s)).
  assert (Hmine : forall d, In d mine <->
            In d (documents s) /\ doc_id d = document_id /\
            doc_tenant_id d = tenant_id).
  { intros d. unfold mine. rewrite filter_In, is_document_true. tauto. }
  destruct mine as [|d0 rest] eqn:Hrows.
  - simpl. split; [|split; [reflexivity|]].
    + intros (d & Hin & Hid & Ht). apply (Hmine d).
      split; [now apply list_elem_of_In|]. now split.
    + norm_state. symmetry. 
      assert (Hall : forall d, In d (documents s) ->
                negb (DocumentCrud.is_document document_id tenant_id d)
                  = true).
      { intros d Hd.
        destruct (DocumentCrud.is_document document_id tenant_id d) eqn:Hp;
          [|reflexivity].
        exfalso. apply (Hmine d). split; [exact Hd|].
        now apply is_document_true. }
      clear - Hall. induction (documents s) as [|d rows IH]; [reflexivity|].
      simpl. rewrite Hall by now left. f_equal. apply IH.
      intros d' Hd'. apply Hall. now right.
  - replace (0 + len (d0 :: rest) =? 0) with false
      by (symmetry; apply Z.eqb_neq; unfold len; simpl length; lia).
    rewrite ret_run. norm_state.
    split; [|split; [reflexivity|]].
    + destruct (proj1 (Hmine d0)) as (Hin & Hid & Ht); [now left|].
      exists d0. split; [now apply list_elem_of_In|]. now split.
    + rewrite get_document_run. norm_state.
      now rewrite filter_after_negb.
Qed.

Lemma delete_document_by_owner_only_witness :
  (exists s',
     DocumentEndpoints.delete_document 7%N 1%N two_tenants
       = (Raise (HTTPException 404 "Document not found"), s') /\
     documents s' = documents two_tenants) /\
  (exists s',
     DocumentEndpoints.delete_document 7%N 2%N two_tenants = (Ok tt, s') /\
     documents s' = [tenant_doc 6%N 1%N]).
Proof.
  split.
  - pose proof (delete_document_by_owner_only 7%N 1%N two_tenants) as H.
    destruct (DocumentEndpoints.delete_document 7%N 1%N two_tenants)
      as [[[]|e] s'] eqn:Hrun.
    + vm_compute in Hrun. discriminate Hrun.
    + destruct H as (_ & -> & Hdocs). exists s'. now split.
  - pose proof (delete_document_by_owner_only 7%N 2%N two_tenants) as H.
    destruct (DocumentEndpoints.delete_document 7%N 2%N two_tenants)
      as [[[]|e] s'] eqn:Hrun.
    + destruct H as (_ & Hdocs & _). exists s'. now split.
    + vm_compute in Hrun. discriminate Hrun.
Defined.

(** ** Document store: status updates and the statistics *)

Lemma get_document_stats_buckets tenant_id s :
  exists st s',
    get_document_stats tenant_id s = (Ok st, s') /\
    documents s' = documents s /\
    stats_total st = len (List.filter (of_tenant tenant_id) (documents s)) /\
    (forall status,
       bucket st status
         = len (List.filter (in_status status)
                  (List.filter (of_tenant tenant_id) (documents s)))) /\
    stats_in_vector_db st
      = len (List.filter doc_is_indexed
               (List.filter (of_tenant tenant_id) (documents s))).
Proof.
  eexists _, _. split; [reflexivity|]. split; [reflexivity|].
  cbn [stats_total stats_pending stats_processing stats_classified
         stats_indexed stats_failed stats_in_vector_db].
  rewrite !or_zero_sum, !sum_has_status.
  split; [reflexivity|]. split; [intros []; reflexivity|].
  induction (List.filter (of_tenant tenant_id) (documents s))
    as [|d rows IH]; [reflexivity|].
  rewrite len_filter_cons, <- IH. reflexivity.
Qed.

Lemma bulk_update_status_run ids status s :
  exists s' now,
    DocumentCrud.bulk_update_status ids status s
      = (Ok (len (List.filter (id_in ids) (documents s))), s') /\
    documents s' =
      map (fun d => if id_in ids d
                    then DocumentCrud.with_status_at status now d else d)
        (documents s).
Proof.
  destruct ids as [|i ids].
  - exists s, 0. rewrite filter_id_in_nil. split; [reflexivity|].
    symmetry. apply map_unchanged, id_in_nil.
  - eexists _, _. split; reflexivity.
Qed.

Lemma filter_both {A} (p q : A -> bool) l :
  List.filter q (List.filter p l) = List.filter (fun x => p x && q x) l.
Proof.
  induction l as [|x l IH]; [reflexivity|]. simpl.
  destruct (p x); simpl; [destruct (q x)|]; now rewrite IH.
Qed.

Lemma len_filter_map {A} (q q' : A -> bool) (g : A -> A) l :
  (forall x, q (g x) = q' x) ->
  len (List.filter q (map g l)) = len (List.filter q' l).
Proof.
  intros Hq. induction l as [|x l IH]; [reflexivity|].
  cbn [map]. rewrite !len_filter_cons, IH, Hq. reflexivity.
Qed.

(** X8. [bulk_update_status] and the statistics: the update returns the
    number of rows with one of the ids (of whatever tenant: the statement
    has no tenant predicate), and in the statistics that any tenant reads
    next the total and the number of indexed documents are what they
    were, while each status counts the documents of the tenant that now
    have it: those it was given to, for the new status, and those not
    among the ids, for the others. *)
Theorem bulk_update_status_then_stats ids status tenant_id s :
  exists n s1 st s2,
    DocumentCrud.bulk_update_status ids status s = (Ok n, s1) /\
    n = len (List.filter (id_in ids) (documents s)) /\
    get_document_stats tenant_id s1 = (Ok st, s2) /\
    stats_total st = len (List.filter (of_tenant tenant_id) (documents s)) /\
    stats_in_vector_db st
      = len (List.filter doc_is_indexed
               (List.filter (of_tenant tenant_id) (documents s))) /\
    forall other,
      bucket st other
        = len (List.filter
                 (fun d => of_tenant tenant_id d
                           && bool_decide (status_after ids status d = other))
                 (documents s)).
Proof.
  destruct (bulk_update_status_run ids status s) as (s1 & now & Hrun & Hdocs).
  destruct (get_document_stats_buckets tenant_id s1)
    as (st & s2 & Hstats & _ & Htotal & Hbuckets & Hindexed).
  eexists _, s1, st, s2. split; [exact Hrun|]. split; [reflexivity|].
  split; [exact Hstats|]. rewrite Hdocs in Htotal, Hbuckets, Hindexed.
  split; [|split].
  - rewrite Htotal. apply len_filter_map.
    intros d. destruct (id_in ids d); reflexivity.
  - rewrite Hindexed, !filter_both. apply len_filter_map.
    intros d. destruct (id_in ids d); reflexivity.
  - intros other. rewrite Hbuckets, filter_both. apply len_filter_map.
    intros d. unfold status_after, in_status.
    destruct (id_in ids d); reflexivity.
Qed.

(** ** Document store: deduplication by content hash *)

Lemma find_duplicates_by_hash_run content_hashes tenant_id s :
  DocumentCrud.find_duplicates_by_hash content_hashes tenant_id s =
    (Ok (list_to_set
           (omap doc_content_hash
              (List.filter
                 (DocumentCrud.has_hash_in content_hashes tenant_id)
                 (documents s)))), s).
Proof.
  destruct content_hashes as [|h hashes]; [|reflexivity].
  unfold DocumentCrud.find_duplicates_by_hash. rewrite ret_run.
  rewrite filter_none; [reflexivity|].
  intros d. unfold DocumentCrud.has_hash_in.
  destruct (doc_content_hash d); [|reflexivity].
  rewrite bool_decide_eq_false_2; [reflexivity|]. apply not_elem_of_nil.
Qed.

(** X9. Deduplication by content hash sees what was created: after a
    [create_document] whose values fit their columns,
    [find_duplicates_by_hash] reports for any tenant and any list of
    hashes what it reported before, and in addition the hash of the new
    content when that hash is in the list, the content was not empty, and
    the tenant is the one that created the document.  A document created
    without content, or with the empty string, has no hash and is never
    reported. *)
Theorem created_content_is_a_duplicate env tenant_id title content
    connector_id external_id source_url mime_type metadata
    source_created_at s :
  values_fit title external_id source_url mime_type = true ->
  exists doc s1,
    DocumentCrud.create_document env tenant_id title content connector_id
      external_id source_url mime_type metadata source_created_at s
      = (Ok doc, s1) /\
    forall content_hashes reader,
    exists before after,
      DocumentCrud.find_duplicates_by_hash content_hashes reader s
        = (Ok before, s) /\
      DocumentCrud.find_duplicates_by_hash content_hashes reader s1
        = (Ok after, s1) /\
      forall h,
        h ∈ after <->
        h ∈ before \/
        (reader = tenant_id /\ h ∈ content_hashes /\
         exists c, content = Some c /\ c <> "" /\ h = _compute_hash env c).
Proof.
  intros Hfits.
  destruct (create_document_run env tenant_id title content connector_id
              external_id source_url mime_type metadata source_created_at s
              Hfits)
    as (doc & Hrun & _ & Htenant & _ & _ & _ & _ & _ & _ & _ & Hhash).
  match type of Hrun with
  | _ = (_, ?st) => set (s1 := st) in *
  end.
  assert (Hdocs : documents s1 = documents s ++ [doc]) by reflexivity.
  exists doc, s1. split; [exact Hrun|].
  intros content_hashes reader. rewrite !find_duplicates_by_hash_run.
  eexists _, _. split; [reflexivity|]. split; [reflexivity|].
  intros h. rewrite Hdocs, List.filter_app, omap_app, list_to_set_app_L.
  rewrite elem_of_union.
  apply or_iff_compat_l.
  cbn [List.filter]. unfold DocumentCrud.has_hash_in, of_tenant.
  rewrite Hhash, Htenant.
  destruct content as [c|]; cbn [truthy].
  - destruct (String.eqb_spec c "") as [->|Hc]; cbn [negb].
    + cbn [andb omap list_omap]. rewrite elem_of_list_to_set, elem_of_nil.
      split; [tauto|]. intros (_ & _ & c' & [= <-] & Hc' & _). now apply Hc'.
    + cbn [fmap option_fmap option_map].
      case_bool_decide as Hin; cbn [andb];
        [case_bool_decide as Ht; cbn [andb]|].
      * cbn [omap list_omap]. rewrite Hhash. cbn [truthy].
        destruct (String.eqb_spec c ""); [contradiction|].
        cbn [negb fmap option_fmap option_map].
        rewrite elem_of_list_to_set, list_elem_of_singleton.
        split.
        -- intros ->. split; [now symmetry|]. split; [exact Hin|].
           exists c. repeat split; assumption.
        -- intros (_ & _ & c' & [= <-] & _ & ->). reflexivity.
      * cbn [omap list_omap]. rewrite elem_of_list_to_set, elem_of_nil.
        split; [tauto|]. intros (Hr & _). now symmetry in Hr.
      * cbn [omap list_omap]. rewrite elem_of_list_to_set, elem_of_nil.
        split; [tauto|]. intros (_ & Hh & c' & [= <-] & _ & ->). contradiction.
  - cbn [andb omap list_omap]. rewrite elem_of_list_to_set, elem_of_nil.
    split; [tauto|]. intros (_ & _ & c' & Hc' & _). discriminate.
Qed.

Lemma created_content_is_a_duplicate_witness :
  exists doc s1,
    DocumentCrud.create_document echo_env 1%N "Plan" (Some "Q3") None None
      None None None None two_tenants = (Ok doc, s1) /\
    forall content_hashes reader,
    exists before after,
      DocumentCrud.find_duplicates_by_hash content_hashes reader two_tenants
        = (Ok before, two_tenants) /\
      DocumentCrud.find_duplicates_by_hash content_hashes reader s1
        = (Ok after, s1) /\
      forall h,
        h ∈ after <->
        h ∈ before \/
        (reader = 1%N /\ h ∈ content_hashes /\
         exists c, Some "Q3" = Some c /\ c <> "" /\
                   h = _compute_hash echo_env c).
Proof.
  apply (created_content_is_a_duplicate echo_env 1%N "Plan" (Some "Q3") None
           None None None None None two_tenants).
  reflexivity.
Defined.

(** ** Chat: sessions *)

Lemma get_session_run session_id tenant_id s :
  ChatSessions.get_session session_id tenant_id s =
    (Ok (match chat_sessions s !! session_id with
         | Some session =>
             if bool_decide (cs_tenant_id session = tenant_id)
             then Some session else None
         | None => None
         end), s).
Proof. reflexivity. Qed.

(** X10. A created session can be read back, by its tenant only: where
    the id supply is ahead of the session ids and the title, if one is
    given, fits its column (255 characters), [POST /chat/sessions]
    creates a session titled as asked, or ["New Chat"] when no title or
    an empty one is given; [GET /chat/sessions/{id}] then answers the
    tenant with that session and any other tenant with 404. *)
Theorem created_session_is_found title tenant_id s :
  fresh_session_ids s ->
  fits_opt 255 title = true ->
  exists resp s',
    ChatRoutes.create_session title tenant_id s = (Ok resp, s') /\
    sr_title resp = (if truthy title then title else Some "New Chat") /\
    ChatRoutes.get_session (sr_id resp) tenant_id s' = (Ok resp, s') /\
    (forall other,
       other <> tenant_id ->
       ChatRoutes.get_session (sr_id resp) other s'
         = (Raise ChatRoutes.session_not_found, s')) /\
    fresh_session_ids s'.
Proof.
  intros Hfresh Hfits.
  assert (Hnew : chat_sessions s !! uuid_counter s = None).
  { destruct (chat_sessions s !! uuid_counter s) eqn:Hc; [|reflexivity].
    assert (uuid_counter s < uuid_counter s)%N by (apply Hfresh; eauto). lia. }
  unfold ChatRoutes.create_session, ChatSessions.create_session.
  repeat run_step.
  match goal with
  | |- context [negb (ChatSessions.session_fits ?x)] =>
      assert (Hrow : ChatSessions.session_fits x = true)
  end.
  { unfold ChatSessions.session_fits. cbn [cs_title fits_opt].
    destruct title as [t|]; [|reflexivity].
    cbn [truthy default]. destruct (negb (String.eqb t ""));
      [exact Hfits|reflexivity]. }
  rewrite Hrow. cbn [negb].
  match goal with
  | |- context [match ?x with Some _ => _ | None => _ end ≫= _] =>
      replace x with (@None ChatSession) by (symmetry; exact Hnew)
  end.
  repeat run_step. rewrite ret_run.
  eexists _, _. split; [reflexivity|].
  cbn [ChatRoutes.session_response sr_title sr_id fst snd cs_title].
  split.
  { destruct title as [t|]; [|reflexivity].
    cbn [truthy default]. now destruct (negb (String.eqb t "")). }
  unfold ChatRoutes.get_session.
  split; [|split].
  - rewrite (bind_ok _ _ _ _ _ (get_session_run _ _ _)). norm_state.
    rewrite lookup_insert_eq. cbn [cs_tenant_id].
    rewrite bool_decide_eq_true_2 by reflexivity. reflexivity.
  - intros other Hother.
    rewrite (bind_ok _ _ _ _ _ (get_session_run _ _ _)). norm_state.
    rewrite lookup_insert_eq. cbn [cs_tenant_id].
    rewrite bool_decide_eq_false_2 by congruence. reflexivity.
  - unfold fresh_session_ids. norm_state. intros id Hid.
    destruct (decide (id = uuid_counter s)) as [->|Hne]; [lia|].
    rewrite lookup_insert_ne in Hid by congruence.
    specialize (Hfresh id Hid). lia.
Qed.

Lemma created_session_is_found_witness :
  exists resp s',
    ChatRoutes.create_session (Some "") 1%N (conversation 2) = (Ok resp, s') /\
    sr_title resp = Some "New Chat" /\
    ChatRoutes.get_session (sr_id resp) 1%N s' = (Ok resp, s') /\
    ChatRoutes.get_session (sr_id resp) 2%N s'
      = (Raise ChatRoutes.session_not_found, s').
Proof.
  destruct (created_session_is_found (Some "") 1%N (conversation 2))
    as (resp & s' & Hrun & Htitle & Hmine & Hother & _).
  - intros id [c Hc]. unfold conversation in Hc. cbn [chat_sessions] in Hc.
    apply lookup_singleton_Some in Hc as [<- _]. reflexivity.
  - reflexivity.
  - exists resp, s'. split; [exact Hrun|]. split; [exact Htitle|].
    split; [exact Hmine|]. apply Hother. discriminate.
Defined.

Lemma of_session_after_delete session_id rows :
  List.filter (ChatSessions.of_session session_id)
    (List.filter (fun m => negb (ChatSessions.of_session session_id m)) rows)
  = [].
Proof. apply filter_after_negb. Qed.

Lemma filter_idem {A} (p : A -> bool) l :
  List.filter p (List.filter p l) = List.filter p l.
Proof.
  induction l as [|x l IH]; simpl; [reflexivity|].
  destruct (p x) eqn:Hp; simpl; [rewrite Hp, IH|]; auto.
Qed.

(** X11. Deleting a session takes its messages with it and nothing
    else: [DELETE /chat/sessions/{id}] by the tenant of the session
    removes the session and every message of it, leaves the messages of
    the other sessions as they were, and from then on the messages
    endpoint answers 404 for that id to everyone; asked by anyone else,
    or for an id that is not there, it answers 404 and the store is as
    it was. *)
Theorem delete_session_cascades session_id tenant_id s :
  match ChatRoutes.delete_session session_id tenant_id s with
  | (Ok _, s') =>
      (exists c, chat_sessions s !! session_id = Some c /\
                 cs_tenant_id c = tenant_id) /\
      chat_sessions s' = delete session_id (chat_sessions s) /\
      messages_of session_id s' = [] /\
      messages_of_others session_id s' = messages_of_others session_id s /\
      (forall reader,
         ChatRoutes.get_messages session_id reader s'
           = (Raise ChatRoutes.session_not_found, s'))
  | (Raise e, s') =>
      e = ChatRoutes.session_not_found /\ s' = s /\
      ~ (exists c, chat_sessions s !! session_id = Some c /\
                   cs_tenant_id c = tenant_id)
  end.
Proof.
  unfold ChatRoutes.delete_session, ChatSessions.delete_session.
  rewrite bind_assoc_run.
  rewrite (bind_ok _ _ _ _ _ (get_session_run _ _ _)).
  destruct (chat_sessions s !! session_id) as [c|] eqn:Hc;
    [case_bool_decide as Ht|].
  - repeat run_step. rewrite ret_run.
    split; [eauto|]. split; [reflexivity|].
    unfold messages_of, messages_of_others. norm_state.
    split; [apply of_session_after_delete|].
    split; [apply filter_idem|].
    intros reader. unfold ChatRoutes.get_messages.
    rewrite (bind_ok _ _ _ _ _ (get_session_run _ _ _)). norm_state.
    rewrite lookup_delete_eq. reflexivity.
  - run_step. rewrite raise_run.
    split; [reflexivity|]. split; [reflexivity|].
    intros (c' & [= <-] & Hc'). contradiction.
  - run_step. rewrite raise_run.
    split; [reflexivity|]. split; [reflexivity|].
    intros (c' & [=] & _).
Qed.

Lemma delete_session_cascades_witness :
  (exists s',
     ChatRoutes.delete_session 9%N 1%N (conversation 3) = (Ok tt, s') /\
     chat_messages s' = [] /\ chat_sessions s' = ∅) /\
  ChatRoutes.delete_session 9%N 2%N (conversation 3)
    = (Raise ChatRoutes.session_not_found, conversation 3).
Proof.
  split.
  - pose proof (delete_session_cascades 9%N 1%N (conversation 3)) as H.
    destruct (ChatRoutes.delete_session 9%N 1%N (conversation 3))
      as [[[]|e] s'] eqn:Hrun.
    + exists s'. split; [reflexivity|].
      vm_compute in Hrun. injection Hrun as <-. split; reflexivity.
    + vm_compute in Hrun. discriminate Hrun.
  - pose proof (delete_session_cascades 9%N 2%N (conversation 3)) as H.
    destruct (ChatRoutes.delete_session 9%N 2%N (conversation 3))
      as [[[]|e] s'] eqn:Hrun.
    + vm_compute in Hrun. discriminate Hrun.
    + destruct H as (-> & -> & _). reflexivity.
Defined.

(** ** Chat: the messages endpoint *)

Lemma insert_by_last {A} (key : A -> Z) x sorted :
  Forall (fun y => key y <= key x) sorted ->
  Sql.insert_by key x sorted = sorted ++ [x].
Proof.
  induction sorted as [|y rest IH]; intros Hall; [reflexivity|].
  inversion Hall as [|? ? Hy Hrest]; subst. simpl.
  destruct (Z.leb_spec (key y) (key x)); [|lia]. now rewrite IH.
Qed.

Lemma insert_by_In {A} (key : A -> Z) x sorted z :
  In z (Sql.insert_by key x sorted) <-> z = x \/ In z sorted.
Proof.
  induction sorted as [|y rest IH]; simpl; [intuition|].
  destruct (key y <=? key x); simpl; [rewrite IH|]; intuition.
Qed.

Lemma insert_by_length {A} (key : A -> Z) x sorted :
  length (Sql.insert_by key x sorted) = S (length sorted).
Proof.
  induction sorted as [|y rest IH]; simpl; [reflexivity|].
  destruct (key y <=? key x); simpl; [now rewrite IH|reflexivity].
Qed.

Lemma fold_insert_by_In {A} (key : A -> Z) rows : forall acc z,
  In z (fold_left (fun sorted x => Sql.insert_by key x sorted) rows acc)
  <-> In z rows \/ In z acc.
Proof.
  induction rows as [|x rows IH]; intros acc z; simpl; [intuition|].
  rewrite IH, insert_by_In. intuition.
Qed.

Lemma fold_insert_by_length {A} (key : A -> Z) rows : forall acc,
  length (fold_left (fun sorted x => Sql.insert_by key x sorted) rows acc)
  = (length rows + length acc)%nat.
Proof.
  induction rows as [|x rows IH]; intros acc; simpl; [reflexivity|].
  rewrite IH, insert_by_length. lia.
Qed.

(** A row whose key is not below any other sorts last. *)
Lemma order_by_asc_snoc {A} (key : A -> Z) rows x :
  Forall (fun y => key y <= key x) rows ->
  Sql.order_by_asc key (rows ++ [x]) = Sql.order_by_asc key rows ++ [x].
Proof.
  intros Hall. unfold Sql.order_by_asc. rewrite fold_left_app. simpl.
  apply insert_by_last. rewrite Forall_forall. intros y Hy.
  apply list_elem_of_In, fold_insert_by_In in Hy as [Hy|[]].
  rewrite Forall_forall in Hall. apply Hall. now apply list_elem_of_In.
Qed.

Lemma get_messages_run session_id limit s :
  get_messages session_id limit s =
    (Ok (Sql.limit limit
           (Sql.order_by_asc msg_created_at (messages_of session_id s))),
     set_log (log s ++ [SqlSelect (select_chat_messages session_id limit)])
       s).
Proof. reflexivity. Qed.

(** X12. [GET /chat/sessions/{id}/messages] shows the fifty oldest
    messages: once a session of the tenant holds fifty messages or more,
    a message added to it (the clock being ahead of the times in the
    table) changes nothing in the answer of the endpoint, and is not in
    it. *)
Theorem messages_endpoint_shows_the_oldest session_id tenant_id role
    content sources s session :
  chat_sessions s !! session_id = Some session ->
  cs_tenant_id session = tenant_id ->
  clock_ahead s ->
  (50 <= length (messages_of session_id s))%nat ->
  exists shown s0 message s1 s2,
    ChatRoutes.get_messages session_id tenant_id s = (Ok shown, s0) /\
    add_message session_id role content sources s = (Ok message, s1) /\
    ChatRoutes.get_messages session_id tenant_id s1 = (Ok shown, s2) /\
    length shown = 50%nat /\
    ChatRoutes.message_response message ∉ shown.
Proof.
  intros Hsession Htenant [_ Hclock] Hlen.
  pose proof (add_message_run session_id role content sources s session
                Hsession) as Hadd. cbv zeta in Hadd.
  set (message := {| msg_id := uuid_counter s; msg_session_id := session_id;
                     msg_role := role; msg_content := content;
                     msg_sources := sources;
                     msg_created_at := clock s + 1 |}) in *.
  set (old := Sql.order_by_asc msg_created_at (messages_of session_id s)).
  assert (Hold : Forall (fun m => msg_created_at m < clock s) old).
  { rewrite Forall_forall. intros m Hm.
    apply list_elem_of_In, fold_insert_by_In in Hm as [Hm|[]].
    apply filter_In in Hm as [Hm _].
    rewrite Forall_forall in Hclock. apply Hclock.
    now apply list_elem_of_In. }
  assert (Hlen_old : (50 <= length old)%nat).
  { unfold old, Sql.order_by_asc. rewrite fold_insert_by_length.
    simpl. lia. }
  unfold ChatRoutes.get_messages.
  rewrite (bind_ok _ _ _ _ _ (get_session_run _ _ _)), Hsession.
  rewrite bool_decide_eq_true_2 by exact Htenant.
  rewrite (bind_ok _ _ _ _ _ (get_messages_run _ _ _)), ret_run.
  eexists _, _, message, _, _. split; [reflexivity|].
  split; [exact Hadd|].
  rewrite (bind_ok _ _ _ _ _ (get_session_run _ _ _)).
  cbn [chat_sessions]. rewrite lookup_insert_eq. cbn [touch cs_tenant_id].
  rewrite bool_decide_eq_true_2 by exact Htenant.
  rewrite (bind_ok _ _ _ _ _ (get_messages_run _ _ _)), ret_run.
  fold old. unfold messages_of at 1. cbn [chat_messages].
  rewrite List.filter_app. cbn [List.filter].
  unfold ChatSessions.of_session at 2. cbn [msg_session_id message].
  rewrite bool_decide_eq_true_2 by reflexivity.
  fold (messages_of session_id s).
  rewrite order_by_asc_snoc.
  2:{ rewrite Forall_forall. intros m Hm.
      apply list_elem_of_In, filter_In in Hm as [Hm _].
      rewrite Forall_forall in Hclock.
      apply list_elem_of_In, Hclock in Hm. cbn [msg_created_at message]. lia. }
  fold old. unfold Sql.limit.
  change (Z.to_nat 50) with 50%nat.
  rewrite take_app_le by exact Hlen_old.
  split; [reflexivity|].
  split.
  - rewrite length_map, length_firstn. lia.
  - intros Hin. apply list_elem_of_In, in_map_iff in Hin as (m & Hm & Hin).
    apply In_firstn_inv in Hin.
    rewrite Forall_forall in Hold. apply list_elem_of_In, Hold in Hin.
    apply (f_equal mr_created_at) in Hm.
    cbn [ChatRoutes.message_response mr_created_at msg_created_at message]
      in Hm. lia.
Qed.

Lemma messages_endpoint_shows_the_oldest_witness :
  exists shown s0 message s1 s2,
    ChatRoutes.get_messages 9%N 1%N long_conversation = (Ok shown, s0) /\
    add_message 9%N "user" "Anything new?" None long_conversation
      = (Ok message, s1) /\
    ChatRoutes.get_messages 9%N 1%N s1 = (Ok shown, s2) /\
    ChatRoutes.message_response message ∉ shown.
Proof.
  destruct (messages_endpoint_shows_the_oldest 9%N 1%N "user"
              "Anything new?" None long_conversation
              {| cs_tenant_id := 1%N; cs_title := Some "New Chat";
                 cs_updated_at := 50 |})
    as (shown & s0 & message & s1 & s2 & H0 & Hadd & H1 & _ & Hnot).
  - reflexivity.
  - reflexivity.
  - split.
    + intros id c Hc. unfold long_conversation, conversation in Hc.
      cbn [chat_sessions set_uuid_counter set_clock] in Hc.
      apply lookup_singleton_Some in Hc as [_ <-]. cbn. lia.
    + unfold long_conversation, conversation.
      cbn [chat_messages set_uuid_counter set_clock clock].
      rewrite Forall_forall. intros m Hm.
      apply list_elem_of_In, in_map_iff in Hm as (n & <- & Hn).
      apply in_seq in Hn. cbn [example_message msg_created_at]. lia.
  - vm_compute. lia.
  - exists shown, s0, message, s1, s2. repeat split; assumption.
Defined.

(** ** Chat: the chat endpoint *)

Lemma only_logged_refl s : only_logged s s.
Proof. unfold only_logged. now destruct s. Qed.

Lemma only_logged_trans s1 s2 s3 :
  only_logged s1 s2 -> only_logged s2 s3 -> only_logged s1 s3.
Proof. unfold only_logged. intros -> ->. reflexivity. Qed.

Lemma only_logged_emit s e : only_logged s (set_log (log s ++ [e]) s).
Proof. reflexivity. Qed.

Lemma only_logged_tables s s' :
  only_logged s s' ->
  chat_messages s' = chat_messages s /\
  chat_sessions s' = chat_sessions s /\
  documents s' = documents s.
Proof. unfold only_logged. intros ->. repeat split. Qed.

Lemma load_history_run session_id user_message s session :
  chat_sessions s !! session_id = Some session ->
  exists history question s1,
    load_history session_id user_message s = (Ok history, s1) /\
    question =
      {| msg_id := uuid_counter s; msg_session_id := session_id;
         msg_role := "user"; msg_content := user_message;
         msg_sources := None; msg_created_at := clock s + 1 |} /\
    chat_messages s1 = chat_messages s ++ [question] /\
    chat_sessions s1 = <[session_id := touch (clock s) session]>
                         (chat_sessions s) /\
    documents s1 = documents s /\ connectors s1 = connectors s /\
    sync_progress s1 = sync_progress s /\
    uuid_counter s1 = (uuid_counter s + 1)%N /\
    clock s1 = clock s + 1 + 1.
Proof.
  intros Hsession. unfold load_history.
  rewrite (bind_ok _ _ _ _ _ (add_message_run _ _ _ _ _ _ Hsession)).
  rewrite (bind_ok _ _ _ _ _ (get_messages_run _ _ _)), ret_run.
  eexists _, _, _. split; [reflexivity|]. repeat split.
Qed.

Lemma search_outcome env query tenant_id top_k s :
  match VectorService.search env query tenant_id top_k s with
  | (Ok _, s') => only_logged s s'
  | (Raise e, s') => only_logged s s' /\ from_upstream env e
  end.
Proof.
  unfold VectorService.search, AIService.create_embedding.
  rewrite !bind_assoc_run. run_step.
  destruct (embeddings_create env [query]) as [[|v rest]|e] eqn:Hembed.
  - run_step. rewrite (bind_raise _ _ _ _ _ (raise_run _ _)).
    split; [reflexivity|]. right. right. right. reflexivity.
  - repeat run_step.
    destruct (index_query env v top_k tenant_id) as [matches|e] eqn:Hquery.
    + run_step. rewrite ret_run. reflexivity.
    + erewrite bind_raise by reflexivity.
      split; [reflexivity|]. right. left. eauto.
  - erewrite bind_raise by (erewrite bind_raise; reflexivity).
    split; [reflexivity|]. left. eauto.
Qed.

Lemma generate_response_outcome env messages context system_prompt s :
  match
    AIService.generate_response env messages context system_prompt s
  with
  | (Ok _, s') => only_logged s s'
  | (Raise e, s') => only_logged s s' /\ from_upstream env e
  end.
Proof.
  unfold AIService.generate_response. run_step.
  destruct (chat_completions_create env _) as [reply|e] eqn:Hreply.
  - reflexivity.
  - split; [reflexivity|]. right. right. left. eauto.
Qed.

(** X13. The outcomes of [POST /chat/sessions/{id}/chat].  For a
    session that is not one of the tenant the answer is 404 and nothing
    is stored or called.  For a session of the tenant the only failures
    are those of the collaborators (the embedding, the vector query, the
    completion); when they answer, the turn adds exactly two messages to
    the session, the question as the user and then the returned answer
    as the assistant with the ids of the returned sources, the id in the
    response is that of the stored answer, and the documents are not
    touched. *)
Theorem chat_endpoint_outcomes env session_id message tenant_id s :
  let owned :=
    exists session, chat_sessions s !! session_id = Some session /\
                    cs_tenant_id session = tenant_id in
  match ChatRoutes.chat env session_id message tenant_id s with
  | (Ok result, s') =>
      owned /\
      exists question answer,
        chat_messages s' = chat_messages s ++ [question; answer] /\
        msg_session_id question = session_id /\
        msg_role question = "user" /\
        msg_content question = message /\
        msg_session_id answer = session_id /\
        msg_role answer = "assistant" /\
        msg_content answer = chat_message result /\
        msg_sources answer = Some (source_ids (chat_sources result)) /\
        chat_message_id result = str_uuid (msg_id answer) /\
        documents s' = documents s
  | (Raise e, s') =>
      (~ owned /\ e = ChatRoutes.session_not_found /\ s' = s) \/
      (owned /\ from_upstream env e)
  end.
Proof.
  intros owned. unfold ChatRoutes.chat.
  rewrite (bind_ok _ _ _ _ _ (get_session_run _ _ _)).
  destruct (chat_sessions s !! session_id) as [session|] eqn:Hsession;
    [case_bool_decide as Htenant|].
  2:{ rewrite raise_run. left. split; [|now split].
      intros (session' & [= <-] & Ht). contradiction. }
  2:{ rewrite raise_run. left. split; [|now split].
      intros (session' & [=] & _). }
  assert (Howned : owned) by (exists session; now split).
  destruct (load_history_run session_id message s session Hsession)
    as (history & question & s1 & Hload & Hq & Hmsgs1 & Hsessions1 & Hdocs1
          & _).
  unfold chat. rewrite (bind_ok _ _ _ _ _ Hload).
  pose proof (search_outcome env message (str_uuid tenant_id) 5 s1) as Hsearch.
  destruct (VectorService.search env message (str_uuid tenant_id) 5 s1)
    as [[relevant_docs|e] s2] eqn:Hs2.
  2:{ rewrite (bind_raise _ _ _ _ _ Hs2). right. now split. }
  rewrite (bind_ok _ _ _ _ _ Hs2).
  pose proof (generate_response_outcome env history
                (Some (_build_context relevant_docs))
                (Some _get_system_prompt) s2) as Hgen.
  destruct (AIService.generate_response env history
              (Some (_build_context relevant_docs))
              (Some _get_system_prompt) s2)
    as [[response|e] s3] eqn:Hs3.
  2:{ rewrite (bind_raise _ _ _ _ _ Hs3). right. now split. }
  rewrite (bind_ok _ _ _ _ _ Hs3).
  destruct (only_logged_tables _ _ (only_logged_trans _ _ _ Hsearch Hgen))
    as (Hmsgs3 & Hsessions3 & Hdocs3).
  assert (Hsession3 : chat_sessions s3 !! session_id
                      = Some (touch (clock s) session)).
  { rewrite Hsessions3, Hsessions1. apply lookup_insert_eq. }
  rewrite (bind_ok _ _ _ _ _ (add_message_run _ _ _ _ _ _ Hsession3)).
  rewrite ret_run. cbn [chat_messages documents].
  split; [exact Howned|].
  eexists question, _. split.
  { rewrite Hmsgs3, Hmsgs1, <- app_assoc. reflexivity. }
  subst question.
  cbn [msg_session_id msg_role msg_content msg_sources msg_id chat_message
       chat_sources chat_message_id].
  repeat split. now rewrite Hdocs3.
Qed.

(** ** Chat: the list of sessions *)

(** The row above all the others sorts first. *)
Lemma descending_head {A} (key : A -> Z) l x :
  descending key l -> In x l ->
  (forall y, In y l -> key x <= key y -> y = x) ->
  exists rest, l = x :: rest.
Proof.
  destruct l as [|h rest]; intros Hdesc Hin Hmax; [destruct Hin|].
  exists rest. f_equal.
  destruct Hin as [Hh|Hin]; [exact Hh|].
  apply Hmax; [now left|].
  destruct Hdesc as [Hh _]. rewrite Forall_forall in Hh.
  now apply list_elem_of_In, Hh in Hin.
Qed.

Lemma get_sessions_run tenant_id limit offset s :
  ChatSessions.get_sessions tenant_id limit offset s =
    (Ok (Sql.limit limit
           (Paging.offset offset
              (Paging.order_by_desc (fun r => cs_updated_at (snd r))
                 (List.filter
                    (fun r => bool_decide (cs_tenant_id (snd r) = tenant_id))
                    (map_to_list (chat_sessions s)))))), s).
Proof. reflexivity. Qed.

(** X14. The session last written to is listed first: after a message
    has been added to a session of the tenant (the clock being ahead of
    the times in the chat tables), [GET /chat/sessions] from the start,
    with a limit of one or more, answers with that session at the head,
    updated at the time of the message. *)
Theorem chatting_moves_session_first session_id tenant_id role content
    sources limit s session :
  chat_sessions s !! session_id = Some session ->
  cs_tenant_id session = tenant_id ->
  clock_ahead s ->
  1 <= limit ->
  exists message s1 rest,
    add_message session_id role content sources s = (Ok message, s1) /\
    ChatRoutes.list_sessions limit 0 tenant_id s1
      = (Ok ({| sr_id := session_id; sr_title := cs_title session;
                sr_updated_at := clock s |} :: rest), s1).
Proof.
  intros Hsession Htenant [Hclock _] Hlimit.
  pose proof (add_message_run session_id role content sources s session
                Hsession) as Hadd. cbv zeta in Hadd.
  match type of Hadd with
  | _ = (Ok ?m, ?s1) =>
      enough (exists rest,
                ChatRoutes.list_sessions limit 0 tenant_id s1
                  = (Ok ({| sr_id := session_id; sr_title := cs_title session;
                            sr_updated_at := clock s |} :: rest), s1))
        as [rest Hlist] by (exists m, s1, rest; now split)
  end.
  unfold ChatRoutes.list_sessions.
  rewrite (bind_ok _ _ _ _ _ (get_sessions_run _ _ _ _)), ret_run.
  cbn [chat_sessions].
  set (rows := List.filter _ (map_to_list _)).
  set (sorted := Paging.order_by_desc _ rows).
  set (x := (session_id, touch (clock s) session)).
  assert (Hrows : forall j w, In (j, w) rows ->
            (<[session_id := touch (clock s) session]> (chat_sessions s))
              !! j = Some w).
  { intros j w Hin. apply filter_In in Hin as [Hin _].
    now apply list_elem_of_In, elem_of_map_to_list in Hin. }
  destruct (descending_head (fun r => cs_updated_at (snd r)) sorted x)
    as [rest Hsorted].
  - apply order_by_desc_descending.
  - apply order_by_desc_In, filter_In. split.
    + unfold x. apply list_elem_of_In, elem_of_map_to_list, lookup_insert_eq.
    + cbn [x snd touch cs_tenant_id]. now apply bool_decide_eq_true.
  - intros [j w] Hin Hkey. apply order_by_desc_In, Hrows in Hin.
    cbn [x snd touch cs_updated_at] in Hkey.
    destruct (decide (j = session_id)) as [->|Hne].
    + rewrite lookup_insert_eq in Hin. injection Hin as <-. reflexivity.
    + rewrite lookup_insert_ne in Hin by congruence.
      specialize (Hclock j w Hin). lia.
  - rewrite Hsorted. unfold Sql.limit, Paging.offset.
    change (Z.to_nat 0) with 0%nat. cbn [skipn].
    destruct (Z.to_nat limit) as [|n] eqn:Hn; [lia|].
    cbn [firstn map]. eexists. reflexivity.
Qed.

Lemma chatting_moves_session_first_witness :
  exists message s1 rest,
    add_message 9%N "user" "hello" None (conversation 2) = (Ok message, s1) /\
    ChatRoutes.list_sessions 20 0 1%N s1
      = (Ok ({| sr_id := 9%N; sr_title := Some "New Chat";
                sr_updated_at := 11 |} :: rest), s1).
Proof.
  apply (chatting_moves_session_first 9%N 1%N "user" "hello" None 20
           (conversation 2)
           {| cs_tenant_id := 1%N; cs_title := Some "New Chat";
              cs_updated_at := 2 |}).
  - reflexivity.
  - reflexivity.
  - split.
    + intros id c Hc. unfold conversation in Hc. cbn [chat_sessions] in Hc.
      apply lookup_singleton_Some in Hc as [_ <-]. cbn. lia.
    + unfold conversation. cbn [chat_messages clock].
      repeat constructor; cbn; lia.
  - lia.
Defined.

(** ** Chat: the streaming endpoint *)

Lemma generate_response_stream_outcome client messages context
    system_prompt s :
  match
    ChatSessions.generate_response_stream client messages context
      system_prompt s
  with
  | (Ok chunks, s') =>
      only_logged s s' /\
      exists turns stream,
        chat_completions_stream client turns = Ok stream /\
        chunks = ChatSessions.chunks_of (stream_deltas stream)
  | (Raise e, s') => only_logged s s' /\ from_stream client e
  end.
Proof.
  unfold ChatSessions.generate_response_stream. run_step.
  destruct (chat_completions_stream client _) as [stream|e] eqn:Hstream.
  - run_step. destruct (stream_error stream) as [e|] eqn:Herror.
    + rewrite raise_run. split; [reflexivity|]. right. eauto.
    + rewrite ret_run. split; [reflexivity|]. eauto.
  - erewrite bind_raise by reflexivity.
    split; [reflexivity|]. left. eauto.
Qed.

(** X15. [POST /chat/sessions/{id}/chat/stream], with the response read
    to its end: what is stored as the answer is what was streamed.  For
    a session of the tenant whose collaborators answer and whose stream
    ends normally, the frames sent are one ["data: ..."] frame for each
    delta with content, in order, then the ["[DONE]"] frame; the turn
    adds to the session the question as the user and then, as the
    assistant, the concatenation of the chunks sent.  For a session that
    is not one of the tenant the answer is 404 and nothing is stored;
    any other failure is that of a collaborator or of the stream. *)
Theorem chat_stream_stores_what_it_sends env client session_id message
    tenant_id s :
  let owned :=
    exists session, chat_sessions s !! session_id = Some session /\
                    cs_tenant_id session = tenant_id in
  match
    ChatRoutes.chat_stream env client session_id message tenant_id s
  with
  | (Ok frames, s') =>
      owned /\
      exists turns stream question answer,
        chat_completions_stream client turns = Ok stream /\
        frames =
          map ChatRoutes.frame (ChatSessions.chunks_of (stream_deltas stream))
            ++ [ChatRoutes.frame "[DONE]"] /\
        chat_messages s' = chat_messages s ++ [question; answer] /\
        msg_session_id question = session_id /\
        msg_role question = "user" /\
        msg_content question = message /\
        msg_session_id answer = session_id /\
        msg_role answer = "assistant" /\
        msg_content answer
          = String.concat ""
              (ChatSessions.chunks_of (stream_deltas stream))
  | (Raise e, s') =>
      (~ owned /\ e = ChatRoutes.session_not_found /\ s' = s) \/
      (owned /\ (from_upstream env e \/ from_stream client e))
  end.
Proof.
  intros owned. unfold ChatRoutes.chat_stream.
  rewrite (bind_ok _ _ _ _ _ (get_session_run _ _ _)).
  destruct (chat_sessions s !! session_id) as [session|] eqn:Hsession;
    [case_bool_decide as Htenant|].
  2:{ rewrite raise_run. left. split; [|now split].
      intros (session' & [= <-] & Ht). contradiction. }
  2:{ rewrite raise_run. left. split; [|now split].
      intros (session' & [=] & _). }
  assert (Howned : owned) by (exists session; now split).
  destruct (load_history_run session_id message s session Hsession)
    as (history & question & s1 & Hload & Hq & Hmsgs1 & Hsessions1 & _).
  unfold ChatSessions.chat_stream. rewrite !bind_assoc_run.
  rewrite (bind_ok _ _ _ _ _ Hload).
  pose proof (search_outcome env message (str_uuid tenant_id) 5 s1) as Hsearch.
  destruct (VectorService.search env message (str_uuid tenant_id) 5 s1)
    as [[relevant_docs|e] s2] eqn:Hs2.
  2:{ rewrite ?bind_assoc_run, (bind_raise _ _ _ _ _ Hs2).
      right. split; [easy|]. now left. }
  rewrite ?bind_assoc_run, (bind_ok _ _ _ _ _ Hs2).
  pose proof (generate_response_stream_outcome client history
                (Some (_build_context relevant_docs))
                (Some _get_system_prompt) s2) as Hgen.
  destruct (ChatSessions.generate_response_stream client history
              (Some (_build_context relevant_docs))
              (Some _get_system_prompt) s2)
    as [[chunks|e] s3] eqn:Hs3.
  2:{ rewrite ?bind_assoc_run, (bind_raise _ _ _ _ _ Hs3).
      right. split; [easy|]. now right. }
  rewrite ?bind_assoc_run, (bind_ok _ _ _ _ _ Hs3).
  destruct Hgen as (Hgen & turns & stream & Hstream & ->).
  destruct (only_logged_tables _ _ (only_logged_trans _ _ _ Hsearch Hgen))
    as (Hmsgs3 & Hsessions3 & _).
  assert (Hsession3 : chat_sessions s3 !! session_id
                      = Some (touch (clock s) session)).
  { rewrite Hsessions3, Hsessions1. apply lookup_insert_eq. }
  rewrite ?bind_assoc_run.
  rewrite (bind_ok _ _ _ _ _ (add_message_run _ _ _ _ _ _ Hsession3)).
  run_step. rewrite ret_run. cbn [chat_messages].
  split; [exact Howned|].
  eexists turns, stream, question, _. split; [exact Hstream|].
  split; [reflexivity|]. split.
  { rewrite Hmsgs3, Hmsgs1, <- app_assoc. reflexivity. }
  subst question. repeat split.
Qed.

(** ** Connectors: creation *)

Lemma get_sync_progress_run connector_id tenant_id s c :
  connectors s !! connector_id = Some c ->
  conn_tenant_id c = tenant_id ->
  exists s',
    only_logged s s' /\
    get_sync_progress connector_id tenant_id s =
      (match progress_of connector_id s with
       | [] => Ok idle_response
       | [progress] =>
           Ok {| resp_status := sp_status progress;
                 resp_total_items := sp_total_items progress;
                 resp_processed_items := sp_processed_items progress;
                 resp_indexed_items := sp_indexed_items progress;
                 resp_failed_items := sp_failed_items progress;
                 resp_current_step := sp_current_step progress;
                 resp_error_message := sp_error_message progress;
                 resp_percent := percent_reported progress;
                 resp_started_at := sp_started_at progress;
                 resp_completed_at := sp_completed_at progress |}
       | _ => Raise (MultipleResultsFound
                       "Multiple rows were found when one or none was required")
       end, s').
Proof.
  intros Hc Ht. unfold get_sync_progress.
  rewrite (bind_ok _ _ _ _ _ (connector_of_tenant_run _ _ _ _ Hc Ht)).
  run_step. unfold progress_of. cbn [sync_progress].
  destruct (List.filter (for_connector connector_id) (sync_progress s))
    as [|p [|q rows]].
  - erewrite bind_ok by reflexivity.
    eexists. split; [|reflexivity]. reflexivity.
  - erewrite bind_ok by reflexivity.
    unfold mbind, M_bind. rewrite percent_of_guarded.
    unfold lift, mret, M_ret. eexists. split; [|f_equal; f_equal].
    + reflexivity.
    + unfold percent_reported. f_equal.
      destruct (0 <? sp_total_items p); reflexivity.
  - erewrite bind_raise by reflexivity.
    eexists. split; [|reflexivity]. reflexivity.
Qed.

Lemma connector_of_tenant_none connector_id tenant_id s :
  (forall c, connectors s !! connector_id = Some c ->
             conn_tenant_id c <> tenant_id) ->
  connector_of_tenant connector_id tenant_id s =
    (Ok None,
     set_log (log s ++
       [SqlSelect (select_connector_of_tenant connector_id tenant_id)]) s).
Proof.
  intros Hother. unfold connector_of_tenant. unfold_monad. simpl.
  destruct (connectors s !! connector_id) as [c|]; [|reflexivity].
  rewrite bool_decide_eq_false_2; [reflexivity|]. now apply Hother.
Qed.

Lemma add_connector_run connector s :
  connectors s !! uuid_counter s = None ->
  ConnectorRoutes.connector_fits connector = true ->
  exists s',
    ConnectorRoutes.add_connector connector s = (Ok (uuid_counter s), s') /\
    connectors s' = <[uuid_counter s := connector]> (connectors s) /\
    documents s' = documents s /\
    sync_progress s' = sync_progress s /\
    uuid_counter s' = (uuid_counter s + 1)%N.
Proof.
  intros Hnew Hfits. unfold ConnectorRoutes.add_connector.
  repeat run_step. rewrite Hfits. cbn [negb].
  match goal with
  | |- context [match ?x with Some _ => _ | None => _ end ?st] =>
      replace x with (@None Connector) by (symmetry; exact Hnew)
  end.
  repeat run_step. rewrite ret_run.
  eexists. split; [reflexivity|]. repeat split.
Qed.

Lemma fresh_connector_is_new s :
  fresh_connector_ids s -> connectors s !! uuid_counter s = None.
Proof.
  intros Hfresh.
  destruct (connectors s !! uuid_counter s) eqn:Hc; [|reflexivity].
  assert (uuid_counter s < uuid_counter s)%N by (apply Hfresh; eauto). lia.
Qed.

Lemma no_progress_without_connector connector_id s :
  progress_has_connector s ->
  connectors s !! connector_id = None ->
  List.filter (for_connector connector_id) (sync_progress s) = [].
Proof.
  unfold progress_has_connector. intros Hfk Hnone.
  induction (sync_progress s) as [|p rows IH]; [reflexivity|].
  inversion Hfk as [|? ? Hp Hrows]; subst. simpl.
  destruct (for_connector connector_id p) eqn:Hfor; [|now apply IH].
  unfold for_connector in Hfor. apply bool_decide_eq_true in Hfor.
  rewrite Hfor, Hnone in Hp. now destruct Hp.
Qed.

(** X16. A created connector is idle and can be synced: where the id
    supply is ahead of the connector ids, every progress row belongs to
    a connector and the name of the request fits its column (255
    characters), [POST /integrations/connectors] yields an active
    connector in status [idle] that its tenant, and no other, can read
    back; polling its progress gives the idle snapshot, starting a sync
    on it is accepted, and polling then reports [syncing] at 0
    percent. *)
Theorem created_connector_can_sync data tenant_id s :
  fresh_connector_ids s ->
  progress_has_connector s ->
  (String.length (cc_name data) <= 255)%nat ->
  exists resp s1 s2 s3 started s4 progress s5,
    ConnectorRoutes.create_connector data tenant_id s = (Ok resp, s1) /\
    cr_sync_status resp = "idle" /\ cr_is_active resp = true /\
    cr_name resp = cc_name data /\
    ConnectorRoutes.get_connector (cr_id resp) tenant_id s1 = (Ok resp, s2) /\
    (forall other,
       other <> tenant_id ->
       fst (ConnectorRoutes.get_connector (cr_id resp) other s1)
         = Raise ConnectorRoutes.connector_not_found) /\
    get_sync_progress (cr_id resp) tenant_id s1 = (Ok idle_response, s3) /\
    start_sync (cr_id resp) tenant_id s1 = (Ok started, s4) /\
    get_sync_progress (cr_id resp) tenant_id s4 = (Ok progress, s5) /\
    resp_status progress = "syncing" /\
    resp_percent progress = float_of_int 0.
Proof.
  intros Hfresh Hfk Hfits.
  pose proof (fresh_connector_is_new s Hfresh) as Hnew.
  set (connector :=
         ConnectorRoutes.new_connector tenant_id (cc_connector_type data)
           (cc_name data) (default "{}" (cc_credentials data))).
  destruct (add_connector_run connector s Hnew (fits_length _ _ Hfits))
    as (s1 & Hadd & Hconn1 & _ & Hprogress1 & _).
  assert (Hc1 : connectors s1 !! uuid_counter s = Some connector)
    by (rewrite Hconn1; apply lookup_insert_eq).
  assert (Hrows1 : progress_of (uuid_counter s) s1 = []).
  { unfold progress_of. rewrite Hprogress1.
    now apply no_progress_without_connector. }
  destruct (get_sync_progress_run (uuid_counter s) tenant_id s1 connector
              Hc1 eq_refl) as (s3 & _ & Hpoll1).
  rewrite Hrows1 in Hpoll1.
  destruct (start_sync_accepted (uuid_counter s) tenant_id s1 connector
              Hc1 eq_refl) as (s4 & Hstart & Hrow4 & _ & Hconn4 & _).
  { discriminate. }
  { rewrite Hrows1. simpl. lia. }
  assert (Hc4 : connectors s4 !! uuid_counter s
                = Some (with_sync_status "syncing" connector))
    by (rewrite Hconn4; apply lookup_insert_eq).
  destruct (get_sync_progress_run (uuid_counter s) tenant_id s4 _
              Hc4 eq_refl) as (s5 & _ & Hpoll4).
  rewrite Hrow4 in Hpoll4.
  unfold ConnectorRoutes.create_connector. fold connector.
  rewrite (bind_ok _ _ _ _ _ Hadd), ret_run.
  cbn [ConnectorRoutes.model_validate cr_id cr_sync_status cr_is_active
       cr_name fst snd].
  eexists _, s1, _, s3, _, s4, _, s5. split; [reflexivity|].
  split; [reflexivity|]. split; [reflexivity|]. split; [reflexivity|].
  split; [|split; [|split; [exact Hpoll1|split; [exact Hstart|
            split; [exact Hpoll4|split; reflexivity]]]]].
  - unfold ConnectorRoutes.get_connector.
    rewrite (bind_ok _ _ _ _ _
               (connector_of_tenant_run _ _ _ _ Hc1 eq_refl)).
    rewrite ret_run. reflexivity.
  - intros other Hother. unfold ConnectorRoutes.get_connector.
    assert (Hnone : forall c, connectors s1 !! uuid_counter s = Some c ->
                               conn_tenant_id c <> other).
    { intros c. rewrite Hc1. intros [= <-]. cbn. congruence. }
    rewrite (bind_ok _ _ _ _ _
               (connector_of_tenant_none (uuid_counter s) other s1 Hnone)).
    reflexivity.
Qed.

Lemma created_connector_can_sync_witness :
  exists resp s1 started s4 progress s5,
    ConnectorRoutes.create_connector
      {| cc_connector_type := SLACK; cc_name := "Team chat";
         cc_credentials := None |} 1%N never_synced = (Ok resp, s1) /\
    cr_id resp = 4%N /\
    start_sync (cr_id resp) 1%N s1 = (Ok started, s4) /\
    get_sync_progress (cr_id resp) 1%N s4 = (Ok progress, s5) /\
    resp_status progress = "syncing".
Proof.
  destruct (created_connector_can_sync
              {| cc_connector_type := SLACK; cc_name := "Team chat";
                 cc_credentials := None |} 1%N never_synced)
    as (resp & s1 & s2 & s3 & started & s4 & progress & s5 & Hrun & _ & _ & _
          & _ & _ & _ & Hstart & Hpoll & Hstatus & _).
  - intros id [c Hc]. unfold never_synced in Hc. cbn [connectors] in Hc.
    apply lookup_singleton_Some in Hc as [<- _]. reflexivity.
  - constructor.
  - simpl. lia.
  - exists resp, s1, started, s4, progress, s5.
    split; [exact Hrun|]. split; [|now repeat split].
    vm_compute in Hrun. injection Hrun as <- _. reflexivity.
Defined.

(** ** Connectors: deletion *)

Lemma detached_not_of_connector connector_id d :
  doc_connector_id (ConnectorRoutes.detached connector_id d)
    <> Some connector_id.
Proof.
  unfold ConnectorRoutes.detached. case_bool_decide as Hd; [discriminate|].
  exact Hd.
Qed.

Lemma detached_same_id connector_id d :
  doc_id (ConnectorRoutes.detached connector_id d) = doc_id d /\
  doc_tenant_id (ConnectorRoutes.detached connector_id d) = doc_tenant_id d /\
  doc_content (ConnectorRoutes.detached connector_id d) = doc_content d.
Proof.
  unfold ConnectorRoutes.detached. case_bool_decide; repeat split.
Qed.

(** X17. Deleting a connector: [DELETE /integrations/connectors/{id}]
    by the tenant of the connector removes the connector and its
    progress rows and keeps every document: the documents that came from
    it stay in the table, with their ids, tenants and contents, and no
    longer refer to a connector; the other connectors and their progress
    rows are as they were, and polling the progress of the deleted
    connector answers 404.  Asked by anyone else, or for an id that is
    not there, the endpoint answers 404 and writes nothing. *)
Theorem delete_connector_cascades connector_id tenant_id s :
  let owned :=
    exists c, connectors s !! connector_id = Some c /\
              conn_tenant_id c = tenant_id in
  match ConnectorRoutes.delete_connector connector_id tenant_id s with
  | (Ok _, s') =>
      owned /\
      connectors s' = delete connector_id (connectors s) /\
      progress_of connector_id s' = [] /\
      progress_of_others connector_id s' = progress_of_others connector_id s /\
      documents s' = map (ConnectorRoutes.detached connector_id) (documents s) /\
      Forall2 (fun d d' =>
                 doc_id d' = doc_id d /\ doc_tenant_id d' = doc_tenant_id d /\
                 doc_content d' = doc_content d /\
                 doc_connector_id d' <> Some connector_id)
        (documents s) (documents s') /\
      (forall reader,
         fst (get_sync_progress connector_id reader s')
           = Raise ConnectorRoutes.connector_not_found)
  | (Raise e, s') =>
      ~ owned /\ e = ConnectorRoutes.connector_not_found /\ only_logged s s'
  end.
Proof.
  intros owned. unfold ConnectorRoutes.delete_connector.
  destruct (connectors s !! connector_id) as [c|] eqn:Hc.
  - destruct (decide (conn_tenant_id c = tenant_id)) as [Ht|Ht].
    + rewrite (bind_ok _ _ _ _ _ (connector_of_tenant_run _ _ _ _ Hc Ht)).
      rewrite modify_run. norm_state.
      split; [exists c; now split|]. split; [reflexivity|].
      unfold progress_of, progress_of_others. norm_state.
      split; [apply filter_after_negb|]. split; [apply filter_idem|].
      split; [reflexivity|]. split.
      * induction (documents s) as [|d rows IH]; constructor; [|exact IH].
        destruct (detached_same_id connector_id d) as (Hid & Htenant & Hcontent).
        repeat split; try assumption. apply detached_not_of_connector.
      * intros reader. unfold get_sync_progress.
        match goal with
        | |- fst (_ ?st) = _ =>
            assert (Hnone : forall c', connectors st !! connector_id = Some c'
                                       -> conn_tenant_id c' <> reader)
        end.
        { intros c'. norm_state. rewrite lookup_delete_eq. discriminate. }
        rewrite (bind_ok _ _ _ _ _
                   (connector_of_tenant_none _ _ _ Hnone)).
        reflexivity.
    + assert (Hnone : forall c', connectors s !! connector_id = Some c'
                                 -> conn_tenant_id c' <> tenant_id).
      { intros c'. rewrite Hc. intros [= <-]. exact Ht. }
      rewrite (bind_ok _ _ _ _ _ (connector_of_tenant_none _ _ _ Hnone)).
      rewrite raise_run. split; [|split; reflexivity].
      intros (c' & [= <-] & Hc'). contradiction.
  - assert (Hnone : forall c', connectors s !! connector_id = Some c'
                               -> conn_tenant_id c' <> tenant_id).
    { intros c'. rewrite Hc. discriminate. }
    rewrite (bind_ok _ _ _ _ _ (connector_of_tenant_none _ _ _ Hnone)).
    rewrite raise_run. split; [|split; reflexivity].
    intros (c' & [=] & _).
Qed.

(** X18. A sync task whose connector has been deleted does nothing: when
    the connector and its progress row are gone, [run_sync_task] ends
    normally without asking the source for anything; it reads the two
    tables, finds nothing to mark as failed, commits, and leaves the
    documents, the connectors and the progress rows as they were. *)
Theorem sync_task_of_deleted_connector env task s :
  connectors s !! task_connector_id task = None ->
  progress_of (task_connector_id task) s = [] ->
  exists s',
    run_sync_task env task s = (Ok tt, s') /\
    same_tables s s' /\
    log s' = log s ++
      [SqlSelect (select_sync_progress (task_connector_id task));
       SqlSelect (select_sync_progress (task_connector_id task));
       SqlSelect (select_connector (task_connector_id task));
       Commit].
Proof.
  intros Hc Hrows. rewrite run_sync_task_run.
  unfold try_except, sync_body.
  rewrite (bind_ok _ _ _ _ _ (progress_rows_run _ _)).
  change (progress_of (task_connector_id task) (in_new_session s))
    with (progress_of (task_connector_id task) s).
  rewrite Hrows.
  erewrite bind_raise by reflexivity.
  unfold sync_failed. rewrite ?bind_assoc_run.
  rewrite session_usable_then by reflexivity.
  rewrite (bind_ok _ _ _ _ _ (progress_rows_run _ _)).
  unfold progress_of at 1. unfold in_new_session.
  cbn [sync_progress set_log set_pending_rollback].
  fold (progress_of (task_connector_id task) s). rewrite Hrows.
  erewrite bind_ok by reflexivity.
  cbv beta iota. repeat run_step. rewrite Hc. cbv beta iota.
  repeat run_step. rewrite emit_run. norm_state.
  eexists. split; [reflexivity|]. split; [repeat split|].
  cbn [log]. rewrite <- !app_assoc. reflexivity.
Qed.

Lemma sync_task_of_deleted_connector_witness :
  exists task s',
    last (background_tasks deleted_while_pending) = Some task /\
    run_sync_task (source_env (Ok three_pages)) task deleted_while_pending
      = (Ok tt, s') /\
    documents s' = [] /\
    count_events is_source_call (log s')
      = 0%nat.
Proof.
  destruct (sync_task_of_deleted_connector (source_env (Ok three_pages))
              (task_for 3%N (example_connector "idle"))
              deleted_while_pending)
    as (s' & Hrun & (Hdocs & _) & Hlog).
  - vm_compute. reflexivity.
  - vm_compute. reflexivity.
  - exists (task_for 3%N (example_connector "idle")), s'.
    split; [vm_compute; reflexivity|]. split; [exact Hrun|].
    split; [rewrite Hdocs; reflexivity|].
    rewrite Hlog. vm_compute. reflexivity.
Defined.

(** ** The sync task: how it leaves the connector *)

Lemma sync_now_run env connector_id tenant_id s c s1 :
  connectors s !! connector_id = Some c ->
  start_sync connector_id tenant_id s
    = (Ok {| started_message := "Sync started";
             started_connector_id := str_uuid connector_id |}, s1) ->
  background_tasks s1 = background_tasks s ++ [task_for connector_id c] ->
  sync_now env connector_id tenant_id s
    = snd (run_sync_task env (task_for connector_id c) s1).
Proof.
  intros Hc Hstart Htasks. unfold sync_now.
  rewrite Hstart, Htasks, last_snoc. reflexivity.
Qed.

(** X19. A connector of a type without a class is left in [syncing]: for
    a OneDrive or an email-forwarding connector, a sync that is accepted
    records in the progress row that it failed, with the message about
    the unknown type and no completion time, touches no document, and
    leaves the status of the connector at [syncing]; a new sync of that
    connector is therefore refused as already in progress. *)
Theorem connector_without_class_stays_syncing env connector_id tenant_id
    s c :
  connectors s !! connector_id = Some c ->
  conn_tenant_id c = tenant_id ->
  conn_sync_status c <> "syncing" ->
  (length (progress_of connector_id s) <= 1)%nat ->
  conn_connector_type c = ONEDRIVE \/
  conn_connector_type c = EMAIL_FORWARDING ->
  let s' := sync_now env connector_id tenant_id s in
  (exists p,
     progress_of connector_id s' = [p] /\
     sp_status p = "failed" /\
     sp_error_message p
       = Some ("Unknown connector type: " +:+
               format_connector_type (conn_connector_type c)) /\
     sp_completed_at p = None) /\
  conn_sync_status <$> connectors s' !! connector_id = Some "syncing" /\
  documents s' = documents s /\
  fst (start_sync connector_id tenant_id s')
    = Raise (HTTPException 400 "Sync already in progress").
Proof.
  intros Hc Ht Hs Hrows Htype s'.
  destruct (start_sync_accepted _ _ _ _ Hc Ht Hs Hrows)
    as (s1 & Hstart & Hrow & _ & Hconn & Htasks & Hdocs & _).
  assert (Hs' : s' = snd (run_sync_task env (task_for connector_id c) s1))
    by (apply (sync_now_run env _ _ _ _ _ Hc Hstart Htasks)).
  assert (Hc1 : connectors s1 !! connector_id
                = Some (with_sync_status "syncing" c))
    by (rewrite Hconn; apply lookup_insert_eq).
  assert (Hclass : forall st,
            Connectors.get_connector_class env (conn_connector_type c) st
              = (Ok None, st)).
  { intros st. destruct Htype as [-> | ->]; reflexivity. }
  assert (Hrun : exists s2,
            run_sync_task env (task_for connector_id c) s1 = (Ok tt, s2) /\
            connectors s2 = connectors s1 /\ documents s2 = documents s1 /\
            progress_of connector_id s2 =
              map (fun p =>
                     with_error_message
                       (Some ("Unknown connector type: " +:+
                              format_connector_type (conn_connector_type c)))
                       (with_status "failed" p))
                (progress_of connector_id s1)).
  { rewrite run_sync_task_run. unfold try_except, sync_body.
    cbn [task_for task_connector_id task_connector_type].
    rewrite (bind_ok _ _ _ _ _ (progress_rows_run _ _)).
    change (progress_of connector_id (in_new_session s1))
      with (progress_of connector_id s1).
    rewrite Hrow.
    erewrite bind_ok by reflexivity.
    rewrite (bind_ok _ _ _ _ _ (Hclass _)).
    repeat run_step. rewrite emit_run. norm_state.
    eexists. split; [reflexivity|]. norm_state.
    split; [reflexivity|]. split; [reflexivity|].
    unfold progress_of. norm_state.
    rewrite !progress_of_map by (intros p Hp; exact Hp).
    rewrite map_map. unfold progress_of in Hrow.
    change (sync_progress (in_new_session s1)) with (sync_progress s1).
    now rewrite Hrow. }
  destruct Hrun as (s2 & Hrun & Hconn2 & Hdocs2 & Hrow2).
  rewrite Hrun in Hs'. cbn [snd] in Hs'. subst s2.
  rewrite Hrow in Hrow2.
  split; [|split; [|split]].
  - eexists. split; [exact Hrow2|]. repeat split.
  - rewrite Hconn2, Hc1. reflexivity.
  - now rewrite Hdocs2.
  - assert (Hc' : connectors s' !! connector_id
                  = Some (with_sync_status "syncing" c))
      by (now rewrite Hconn2).
    now rewrite (start_sync_refused _ _ _ _ Hc' Ht eq_refl).
Qed.




Lemma connector_without_class_stays_syncing_witness :
  let s' := sync_now (source_env (Ok three_pages)) 3%N 1%N onedrive_store in
  conn_sync_status <$> connectors s' !! 3%N = Some "syncing" /\
  fst (start_sync 3%N 1%N s')
    = Raise (HTTPException 400 "Sync already in progress").
Proof.
  destruct (connector_without_class_stays_syncing
              (source_env (Ok three_pages)) 3%N 1%N onedrive_store
              {| conn_tenant_id := 1%N; conn_connector_type := ONEDRIVE;
                 conn_name := "Onedrive"; conn_credentials := "{}";
                 conn_is_active := true; conn_last_sync_at := None;
                 conn_sync_status := "idle"; conn_sync_error := None |})
    as (_ & Hstatus & _ & Hagain).
  - reflexivity.
  - reflexivity.
  - discriminate.
  - vm_compute. lia.
  - left. reflexivity.
  - split; assumption.
Defined.



(** ** Connectors: the OAuth callback *)

Lemma connectors_of_In tenant_id connector_type s r :
  In r (connectors_of tenant_id connector_type s) <->
  connectors s !! fst r = Some (snd r) /\
  conn_tenant_id (snd r) = tenant_id /\
  conn_connector_type (snd r) = connector_type.
Proof.
  unfold connectors_of, ConnectorRoutes.of_tenant_and_type.
  rewrite filter_In, andb_true_iff, !bool_decide_eq_true.
  rewrite <- list_elem_of_In. destruct r as [id c].
  rewrite elem_of_map_to_list. reflexivity.
Qed.

Lemma connectors_of_NoDup tenant_id connector_type s :
  List.NoDup (connectors_of tenant_id connector_type s).
Proof.
  unfold connectors_of. apply List.NoDup_filter, NoDup_ListNoDup.
  apply NoDup_map_to_list.
Qed.

Lemma only_element {A} (a : A) l :
  List.NoDup l -> (forall x, In x l <-> x = a) -> l = [a].
Proof.
  intros Hnd Hin. destruct l as [|x l].
  - destruct (proj2 (Hin a) eq_refl).
  - assert (x = a) by (apply Hin; now left). subst x. f_equal.
    destruct l as [|y l]; [reflexivity|].
    assert (y = a) by (apply Hin; right; now left). subst y.
    inversion Hnd as [|? ? Hnotin _]. destruct Hnotin. now left.
Qed.

Lemma get_connector_class_some env connector_type cls s :
  connector_type <> ONEDRIVE -> connector_type <> EMAIL_FORWARDING ->
  import_connector env connector_type = Ok cls ->
  Connectors.get_connector_class env connector_type s = (Ok (Some cls), s).
Proof.
  intros H1 H2 Hcls. unfold Connectors.get_connector_class.
  destruct connector_type; try contradiction;
    unfold mbind, M_bind, lift; rewrite Hcls; reflexivity.
Qed.

(** The name that the callback derives from a connector type fits the
    column. *)
Lemma derived_name_fits tenant_id connector_type credentials :
  ConnectorRoutes.connector_fits
    (ConnectorRoutes.with_is_active true
       (ConnectorRoutes.new_connector tenant_id connector_type
          (PyStr.title (PyStr.replace "_" " "
                          (connector_type_value connector_type)))
          credentials)) = true.
Proof. destruct connector_type; reflexivity. Qed.

(** Rewriting with a lookup that the goal holds in a convertible form. *)
Ltac rewrite_lookup H :=
  match type of H with
  | ?m !! ?k = _ =>
      match goal with
      | |- context [?m' !! ?k'] => change (m' !! k') with (m !! k); rewrite H
      end
  end.

(** X21. The OAuth callback creates the connector once and then updates
    it.  For a connector type with a class and an authorisation code
    that the provider exchanges for credentials: when the tenant has no
    connector of the type, the callback creates one, active and idle,
    with these credentials and the type's name in title case, and it is
    then the only connector of that type of the tenant; a later callback
    creates nothing: it answers with the same connector id, replaces the
    credentials, sets the connector active and leaves every other
    connector as it was. *)
Theorem oauth_callback_upserts env oauth connector_type cls code
    credentials tenant_id s :
  connector_type <> ONEDRIVE -> connector_type <> EMAIL_FORWARDING ->
  import_connector env connector_type = Ok cls ->
  exchange_code (oauth connector_type) code = Ok credentials ->
  fresh_connector_ids s ->
  connectors_of tenant_id connector_type s = [] ->
  exists resp created s1,
    ConnectorRoutes.oauth_callback env oauth connector_type code tenant_id s
      = (Ok resp, s1) /\
    resp = ConnectorRoutes.model_validate (cr_id resp, created) /\
    created =
      ConnectorRoutes.new_connector tenant_id connector_type
        (PyStr.title (PyStr.replace "_" " "
                        (connector_type_value connector_type)))
        credentials /\
    connectors_of tenant_id connector_type s1 = [(cr_id resp, created)] /\
    forall code' credentials',
      exchange_code (oauth connector_type) code' = Ok credentials' ->
      exists resp' s2,
        ConnectorRoutes.oauth_callback env oauth connector_type code'
          tenant_id s1 = (Ok resp', s2) /\
        cr_id resp' = cr_id resp /\
        connectors_of tenant_id connector_type s2
          = [(cr_id resp,
              ConnectorRoutes.with_is_active true
                (ConnectorRoutes.with_credentials credentials' created))] /\
        forall other,
          other <> cr_id resp ->
          connectors s2 !! other = connectors s1 !! other.
Proof.
  intros Ht1 Ht2 Hcls Hcode Hfresh Hnone.
  pose proof (fresh_connector_is_new s Hfresh) as Hnew.
  set (created :=
         ConnectorRoutes.new_connector tenant_id connector_type
           (PyStr.title (PyStr.replace "_" " "
                           (connector_type_value connector_type)))
           credentials).
  destruct (add_connector_run (ConnectorRoutes.with_is_active true created)
              s Hnew (derived_name_fits _ _ _)) as (s1 & Hadd & Hconn1 & _).
  assert (Hsame : ConnectorRoutes.with_is_active true created = created)
    by reflexivity.
  rewrite Hsame in Hadd, Hconn1.
  assert (Hfirst :
    ConnectorRoutes.oauth_callback env oauth connector_type code tenant_id s
      = (Ok (ConnectorRoutes.model_validate (uuid_counter s, created)), s1)).
  { unfold ConnectorRoutes.oauth_callback.
    rewrite (bind_ok _ _ _ _ _
               (get_connector_class_some _ _ _ _ Ht1 Ht2 Hcls)).
    unfold try_except at 1. rewrite Hcode.
    erewrite bind_ok by reflexivity. run_step.
    fold (connectors_of tenant_id connector_type s). rewrite Hnone.
    erewrite bind_ok by reflexivity. cbv beta iota.
    fold created. rewrite Hsame.
    rewrite (bind_ok _ _ _ _ _ Hadd), ret_run. reflexivity. }
  assert (Hone : connectors_of tenant_id connector_type s1
                 = [(uuid_counter s, created)]).
  { apply only_element; [apply connectors_of_NoDup|].
    intros [j w]. rewrite connectors_of_In. cbn [fst snd]. rewrite Hconn1.
    split.
    - intros (Hj & Htenant & Htype).
      destruct (decide (j = uuid_counter s)) as [->|Hne].
      + rewrite lookup_insert_eq in Hj. now injection Hj as <-.
      + rewrite lookup_insert_ne in Hj by congruence. exfalso.
        assert (Hin : In (j, w) (connectors_of tenant_id connector_type s))
          by (apply connectors_of_In; now repeat split).
        rewrite Hnone in Hin. destruct Hin.
    - intros [= -> ->]. rewrite lookup_insert_eq. repeat split. }
  exists (ConnectorRoutes.model_validate (uuid_counter s, created)),
    created, s1.
  cbn [cr_id ConnectorRoutes.model_validate fst].
  split; [exact Hfirst|]. split; [reflexivity|]. split; [reflexivity|].
  split; [exact Hone|].
  intros code' credentials' Hcode'.
  set (updated := ConnectorRoutes.with_is_active true
                    (ConnectorRoutes.with_credentials credentials' created)).
  assert (Hc1 : connectors s1 !! uuid_counter s = Some created)
    by (rewrite Hconn1; apply lookup_insert_eq).
  eexists _, _. split.
  { unfold ConnectorRoutes.oauth_callback.
    rewrite (bind_ok _ _ _ _ _
               (get_connector_class_some _ _ _ _ Ht1 Ht2 Hcls)).
    unfold try_except at 1. rewrite Hcode'.
    erewrite bind_ok by reflexivity. run_step.
    fold (connectors_of tenant_id connector_type s1). rewrite Hone.
    erewrite bind_ok by reflexivity. cbv beta iota. cbn [fst snd].
    repeat run_step. rewrite ret_run. reflexivity. }
  cbn [cr_id ConnectorRoutes.model_validate fst]. split; [reflexivity|].
  split.
  - apply only_element; [apply connectors_of_NoDup|].
    intros [j w]. rewrite connectors_of_In. cbn [fst snd]. norm_state.
    split.
    + intros (Hj & Htenant & Htype).
      destruct (decide (j = uuid_counter s)) as [->|Hne].
      * assert (Hw : Some w = Some updated).
        { rewrite <- Hj. rewrite !lookup_alter_eq. rewrite_lookup Hc1.
          reflexivity. }
        now injection Hw as ->.
      * rewrite !lookup_alter_ne in Hj by congruence. exfalso.
        assert (Hin : In (j, w) (connectors_of tenant_id connector_type s1))
          by (apply connectors_of_In; now repeat split).
        rewrite Hone in Hin. destruct Hin as [[= Hj' _]|[]]. congruence.
    + intros [= -> ->]. split; [|now split].
      rewrite !lookup_alter_eq. rewrite_lookup Hc1. reflexivity.
  - intros other Hother. norm_state.
    rewrite !lookup_alter_ne by congruence. reflexivity.
Qed.

Lemma oauth_callback_upserts_witness :
  exists resp s1 resp' s2 c,
    ConnectorRoutes.oauth_callback (source_env (Ok three_pages))
      example_oauth SLACK "first" 1%N never_synced = (Ok resp, s1) /\
    cr_name resp = "Slack" /\
    ConnectorRoutes.oauth_callback (source_env (Ok three_pages))
      example_oauth SLACK "second" 1%N s1 = (Ok resp', s2) /\
    cr_id resp' = cr_id resp /\
    connectors_of 1%N SLACK s2 = [(cr_id resp, c)] /\
    conn_credentials c = "token for second".
Proof.
  destruct (oauth_callback_upserts (source_env (Ok three_pages))
              example_oauth SLACK
              {| construct := fun _ => Ok {| fetch_items := Ok three_pages |} |}
              "first" "token for first" 1%N never_synced)
    as (resp & created & s1 & Hfirst & Hresp & Hcreated & _ & Hagain);
    try discriminate; try reflexivity.
  - intros id [c Hc]. unfold never_synced in Hc. cbn [connectors] in Hc.
    apply lookup_singleton_Some in Hc as [<- _]. reflexivity.
  - destruct (Hagain "second" "token for second" eq_refl)
      as (resp' & s2 & Hsecond & Hid & Hone & _).
    eexists resp, s1, resp', s2, _.
    split; [exact Hfirst|]. split; [rewrite Hresp, Hcreated; reflexivity|].
    split; [exact Hsecond|]. split; [exact Hid|]. split; [exact Hone|].
    reflexivity.
Defined.

(** X22. The outcomes of the OAuth callback, whatever the provider and
    the store.  It fails without creating or changing a connector in
    five cases: the type has no class (400, unknown connector type), the
    class cannot be imported, the provider refuses the code (400, with
    the provider's message), the tenant already has several connectors
    of the type (the lookup for one row finds more), or the id drawn for
    a new connector is taken.  Otherwise it answers with an active
    connector of the tenant and of the type that holds the credentials
    the provider gave. *)
Theorem oauth_callback_outcomes env oauth connector_type code tenant_id s :
  match
    ConnectorRoutes.oauth_callback env oauth connector_type code tenant_id s
  with
  | (Ok resp, s') =>
      cr_is_active resp = true /\
      cr_connector_type resp = connector_type /\
      exists credentials c,
        exchange_code (oauth connector_type) code = Ok credentials /\
        connectors s' !! cr_id resp = Some c /\
        conn_tenant_id c = tenant_id /\
        conn_connector_type c = connector_type /\
        conn_credentials c = credentials /\
        conn_is_active c = true
  | (Raise e, s') =>
      connectors s' = connectors s /\
      ((connector_type = ONEDRIVE \/ connector_type = EMAIL_FORWARDING) /\
       e = ConnectorRoutes.unknown_connector_type connector_type \/
       import_connector env connector_type = Raise e \/
       (exists refusal,
          exchange_code (oauth connector_type) code = Raise refusal /\
          e = HTTPException 400
                ("Failed to exchange code: " +:+ str_exn refusal)) \/
       (2 <= length (connectors_of tenant_id connector_type s))%nat /\
       e = MultipleResultsFound
             "Multiple rows were found when one or none was required" \/
       is_Some (connectors s !! uuid_counter s) /\
       e = IntegrityError
             "duplicate key value violates unique constraint connectors_pkey")
  end.
Proof.
  unfold ConnectorRoutes.oauth_callback.
  assert (Hclass :
    (connector_type = ONEDRIVE \/ connector_type = EMAIL_FORWARDING) /\
    Connectors.get_connector_class env connector_type s = (Ok None, s) \/
    (exists cls, import_connector env connector_type = Ok cls /\
       Connectors.get_connector_class env connector_type s
         = (Ok (Some cls), s)) \/
    (exists e, import_connector env connector_type = Raise e /\
       Connectors.get_connector_class env connector_type s = (Raise e, s))).
  { unfold Connectors.get_connector_class, mbind, M_bind, lift.
    destruct connector_type; try (left; split; [auto|reflexivity]);
      right;
      match goal with
      | |- context [import_connector env ?t] =>
          destruct (import_connector env t) as [cls|e];
            [left; eauto|right; eauto]
      end. }
  destruct Hclass as [[Htype Hrun]|[(cls & Hcls & Hrun)|(e & Hcls & Hrun)]].
  - rewrite (bind_ok _ _ _ _ _ Hrun), raise_run.
    split; [reflexivity|]. left. now split.
  - rewrite (bind_ok _ _ _ _ _ Hrun). unfold try_except at 1.
    destruct (exchange_code (oauth connector_type) code)
      as [credentials|refusal] eqn:Hcode.
    + erewrite bind_ok by reflexivity. run_step.
      fold (connectors_of tenant_id connector_type s).
      pose proof (connectors_of_In tenant_id connector_type s) as Hin.
      destruct (connectors_of tenant_id connector_type s)
        as [|[id c] [|r2 rest]].
      * erewrite bind_ok by reflexivity. cbv beta iota.
        destruct (connectors s !! uuid_counter s) as [taken|] eqn:Hnew.
        -- unfold ConnectorRoutes.add_connector. repeat run_step.
           rewrite derived_name_fits. cbn [negb].
           rewrite_lookup Hnew. rewrite ?bind_assoc_run.
           erewrite bind_raise by reflexivity.
           split; [reflexivity|]. do 4 right. split; [eauto|reflexivity].
        -- destruct (add_connector_run
                       (ConnectorRoutes.with_is_active true
                          (ConnectorRoutes.new_connector tenant_id
                             connector_type
                             (PyStr.title
                                (PyStr.replace "_" " "
                                   (connector_type_value connector_type)))
                             credentials)) s Hnew
                       (derived_name_fits _ _ _))
             as (s1 & Hadd & Hconn1 & _).
           rewrite (bind_ok _ _ _ _ _ Hadd), ret_run.
           split; [reflexivity|]. split; [reflexivity|].
           eexists credentials, _. split; [reflexivity|].
           cbn [cr_id ConnectorRoutes.model_validate fst].
           split; [rewrite Hconn1; apply lookup_insert_eq|]. repeat split.
      * erewrite bind_ok by reflexivity. cbv beta iota. cbn [fst snd].
        repeat run_step. rewrite ret_run.
        destruct (proj1 (Hin (id, c))) as (Hc & Htenant & Htype);
          [now left|]. cbn [fst snd] in Hc, Htenant, Htype.
        split; [reflexivity|]. split; [exact Htype|].
        eexists credentials, _. split; [reflexivity|].
        cbn [cr_id ConnectorRoutes.model_validate fst].
        norm_state.
        split; [rewrite !lookup_alter_eq; rewrite_lookup Hc; reflexivity|].
        repeat split; assumption.
      * erewrite bind_raise by reflexivity.
        split; [reflexivity|]. do 3 right. left.
        split; [simpl; lia|reflexivity].
    + erewrite bind_raise by reflexivity.
      split; [reflexivity|]. right. right. left. eauto.
  - rewrite (bind_raise _ _ _ _ _ Hrun).
    split; [reflexivity|]. right. left. exact Hcls.
Qed.

(** ** Embedding and indexing in batches *)

(** The sizes of the slices that a range of indices cuts a list into. *)
Lemma slices_from {A} (l : list A) bs :
  0 < bs ->
  forall fuel i,
    0 <= i -> (Z.to_nat (len l - i) <= fuel)%nat ->
    let indices := range_from fuel i (len l) bs in
    concat (map (fun j => slice l j (j + bs)) indices)
      = skipn (Z.to_nat i) l /\
    length indices = Z.to_nat ((len l - i + bs - 1) / bs) /\
    Forall (fun j => (0 < length (slice l j (j + bs)))%nat /\
                     len (slice l j (j + bs)) <= bs) indices.
Proof.
  intros Hbs. induction fuel as [|fuel IH]; intros i Hi Hfuel; cbv zeta.
  - simpl. split; [|split; [|constructor]].
    + rewrite skipn_all2; [reflexivity|]. unfold len in *. lia.
    + now rewrite no_batch_left by lia.
  - simpl. destruct (Z.ltb_spec 0 bs); [|lia].
    destruct (Z.ltb_spec i (len l)) as [Hlt|Hge].
    + destruct (IH (i + bs)) as (Hcat & Hlen & Hall); [lia|lia|].
      cbn [map concat length]. rewrite Hcat, Hlen.
      rewrite slice_chunk by lia.
      split; [|split].
      * replace (Z.to_nat (i + bs)) with (Z.to_nat bs + Z.to_nat i)%nat
          by lia.
        rewrite <- skipn_skipn. apply firstn_skipn.
      * replace (len l - i + bs - 1) with
          ((len l - (i + bs) + bs - 1) + 1 * bs) by lia.
        rewrite Z.div_add by lia.
        assert (0 <= (len l - (i + bs) + bs - 1) / bs)
          by (apply Z.div_pos; lia).
        lia.
      * constructor; [|exact Hall].
        rewrite slice_chunk by lia. unfold len in *.
        rewrite length_firstn, length_skipn. lia.
    + simpl. split; [|split; [|constructor]].
      * rewrite skipn_all2; [reflexivity|]. unfold len in *. lia.
      * now rewrite no_batch_left by lia.
Qed.

Lemma length_concat_sizes {A} (ls : list (list A)) :
  fold_right Nat.add 0%nat (map (@length A) ls) = length (concat ls).
Proof.
  induction ls as [|l ls IH]; [reflexivity|].
  simpl. rewrite length_app, IH. reflexivity.
Qed.

(** The batches of a list of [n] items. *)
Lemma cut_into_slices {A} (l : list A) bs :
  0 < bs ->
  let indices := range_from (Z.to_nat (Z.abs (len l - 0))) 0 (len l) bs in
  concat (map (fun j => slice l j (j + bs)) indices) = l /\
  cut_into bs (length l)
    (map (fun j => length (slice l j (j + bs))) indices).
Proof.
  intros Hbs indices.
  destruct (slices_from l bs Hbs (Z.to_nat (Z.abs (len l - 0))) 0)
    as (Hcat & Hlen & Hall); [lia|lia|].
  fold indices in Hcat, Hlen, Hall.
  split; [exact Hcat|]. split; [|split].
  - rewrite length_map, Hlen. unfold len. f_equal. f_equal. lia.
  - rewrite Forall_forall in Hall. rewrite Forall_forall. intros k Hk.
    apply list_elem_of_In, in_map_iff in Hk as (j & <- & Hj).
    apply list_elem_of_In, Hall in Hj. unfold len in Hj. exact Hj.
  - rewrite <- (map_map (fun j => slice l j (j + bs)) (@length A)).
    rewrite length_concat_sizes, Hcat. reflexivity.
Qed.

Lemma embed_batches_run env embed texts bs indices :
  embeds_with env embed ->
  forall acc s,
    for_fold indices acc (AIService.embed_batch env texts bs) s =
      (Ok (acc ++ map embed
                    (concat (map (fun j => slice texts j (j + bs)) indices))),
       set_log
         (log s ++
            embedding_calls
              (map (fun j => length (slice texts j (j + bs))) indices)) s).
Proof.
  intros Hembed. induction indices as [|j indices IH]; intros acc s.
  - simpl. rewrite !app_nil_r. unfold mret, M_ret. now destruct s.
  - rewrite for_fold_cons. unfold AIService.embed_batch at 1.
    rewrite (bind_ok _ _ _ _ _ (emit_run _ _)), Hembed.
    rewrite (bind_ok _ _ _ _ _ (lift_run _ _)), ret_run, IH.
    cbn [map concat]. unfold embedding_calls. cbn [map].
    rewrite map_app, <- !app_assoc. norm_state.
    rewrite <- !app_assoc. reflexivity.
Qed.

Lemma create_embeddings_batch_run env embed texts bs s :
  0 < bs ->
  embeds_with env embed ->
  exists sizes,
    AIService.create_embeddings_batch env texts bs s =
      (Ok (map embed texts),
       set_log (log s ++ embedding_calls sizes) s) /\
    cut_into bs (length texts) sizes.
Proof.
  intros Hbs Hembed.
  destruct (cut_into_slices texts bs Hbs) as (Hcat & Hcut).
  unfold AIService.create_embeddings_batch, range.
  destruct (Z.eqb_spec bs 0); [lia|].
  rewrite (bind_ok _ _ _ _ _ (lift_run _ _)).
  rewrite (embed_batches_run env embed texts bs _ Hembed).
  cbv zeta in Hcat. rewrite Hcat.
  eexists. split; [reflexivity|exact Hcut].
Qed.

(** X23. Embedding in batches is embedding: with a positive batch size
    and a client that returns one embedding for each input, in order,
    [create_embeddings_batch] returns the embeddings of the texts, one
    each and in the order of the texts, after [ceil(n / batch_size)]
    requests of 1 to [batch_size] inputs that carry the [n] texts between
    them; an empty list of texts costs no request.  Nothing else
    happens. *)
Theorem create_embeddings_batch_is_map env embed texts batch_size s :
  0 < batch_size ->
  embeds_with env embed ->
  exists sizes s',
    AIService.create_embeddings_batch env texts batch_size s
      = (Ok (map embed texts), s') /\
    only_logged s s' /\
    log s' = log s ++ embedding_calls sizes /\
    cut_into batch_size (length texts) sizes.
Proof.
  intros Hbs Hembed.
  destruct (create_embeddings_batch_run env embed texts batch_size s
              Hbs Hembed) as (sizes & Hrun & Hcut).
  eexists sizes, _. split; [exact Hrun|]. repeat split; apply Hcut.
Qed.

Lemma create_embeddings_batch_is_map_witness :
  exists sizes s',
    AIService.create_embeddings_batch echo_env ["a"; "b"; "c"] 2 never_synced
      = (Ok (map (fun _ => []) ["a"; "b"; "c"]), s') /\
    only_logged never_synced s' /\
    log s' = log never_synced ++ embedding_calls sizes /\
    cut_into 2 (length ["a"; "b"; "c"]) sizes.
Proof.
  apply (create_embeddings_batch_is_map echo_env (fun _ => []));
    [lia | intros batch; reflexivity].
Defined.

Lemma slice_same_length {A B} (l : list A) (l' : list B) lo hi :
  length l = length l' -> length (slice l lo hi) = length (slice l' lo hi).
Proof.
  intros H. unfold slice, slice_index, len.
  rewrite !length_firstn, !length_skipn, H. reflexivity.
Qed.

Lemma upsert_batches_run env (vectors : list Vector) tenant_id bs indices :
  index_accepts env ->
  forall s,
    for_each indices (VectorService.upsert_batch env vectors tenant_id bs) s =
      (Ok tt,
       set_log
         (log s ++
            upsert_calls
              (map (fun j => length (slice vectors j (j + bs))) indices)) s).
Proof.
  intros Hindex. induction indices as [|j indices IH]; intros s.
  - simpl. rewrite app_nil_r. unfold mret, M_ret. now destruct s.
  - cbn [for_each].
    assert (Hone :
      VectorService.upsert_batch env vectors tenant_id bs j s =
        (Ok tt,
         set_log
           (log s ++
              [Call (call_index_upsert
                       (length (slice vectors j (j + bs))))]) s)).
    { unfold VectorService.upsert_batch.
      rewrite (bind_ok _ _ _ _ _ (emit_run _ _)), Hindex. reflexivity. }
    rewrite (bind_ok _ _ _ _ _ Hone), IH.
    unfold upsert_calls. cbn [map]. norm_state.
    rewrite <- !app_assoc. reflexivity.
Qed.

Lemma ids_of_zip (documents_ : list IndexDoc) (embeddings : list embedding) :
  map (fun p : IndexDoc * embedding => ix_id (fst p))
      (zip documents_ embeddings)
    = map ix_id (firstn (length embeddings) documents_).
Proof.
  revert embeddings.
  induction documents_ as [|d ds IH]; intros [|e es]; simpl;
    try reflexivity.
  now rewrite IH.
Qed.

Lemma length_zip_map {A B} (f : A -> B) (l : list A) :
  length (zip l (map f l)) = length l.
Proof. induction l as [|x l IH]; simpl; congruence. Qed.

(** X24. Indexing in batches indexes every document: with a positive
    batch size, a client that returns one embedding for each input and an
    index that accepts every upsert, [upsert_documents_batch] returns the
    ids of all the documents, in their order.  It first sends all the
    embedding requests, then the upserts, cut into the same batches:
    [ceil(n / batch_size)] of each, of 1 to [batch_size] items, none for
    an empty list.  Nothing else happens. *)
Theorem upsert_documents_batch_indexes_all
    env embed documents_ tenant_id batch_size s :
  0 < batch_size ->
  embeds_with env embed ->
  index_accepts env ->
  exists sizes s',
    VectorService.upsert_documents_batch env documents_ tenant_id
        batch_size s
      = (Ok (map ix_id documents_), s') /\
    only_logged s s' /\
    log s' = log s ++ embedding_calls sizes ++ upsert_calls sizes /\
    cut_into batch_size (length documents_) sizes.
Proof.
  intros Hbs Hembed Hindex.
  destruct documents_ as [|d ds].
  { exists [], s. split; [reflexivity|]. split; [apply only_logged_refl|].
    split; [simpl; now rewrite app_nil_r|].
    unfold cut_into. simpl. split; [|split; [constructor|reflexivity]].
    rewrite Z.div_small by lia. reflexivity. }
  remember (d :: ds) as docs eqn:Hdocs.
  assert (Hrun :
    VectorService.upsert_documents_batch env docs tenant_id batch_size s =
      (embeddings ←
         AIService.create_embeddings_batch env (map ix_content docs)
           batch_size;
       let pairs := zip docs embeddings in
       let ids := map (fun p => ix_id (fst p)) pairs in
       let vectors := map (VectorService.to_vector tenant_id) pairs in
       indices ← lift (range 0 (len vectors) batch_size);
       for_each indices
         (VectorService.upsert_batch env vectors tenant_id batch_size);;
       mret ids) s) by (subst docs; reflexivity).
  rewrite Hrun. clear Hrun Hdocs d ds.
  destruct (cut_into_slices (map ix_content docs) batch_size Hbs)
    as (Hcat & Hcut).
  cbv zeta in Hcat, Hcut.
  unfold AIService.create_embeddings_batch, range.
  destruct (Z.eqb_spec batch_size 0); [lia|].
  rewrite bind_assoc_run, (bind_ok _ _ _ _ _ (lift_run _ _)).
  rewrite (bind_ok _ _ _ _ _
             (embed_batches_run env embed _ batch_size _ Hembed [] _)).
  rewrite Hcat. cbn [app]. cbv zeta.
  rewrite (bind_ok _ _ _ _ _ (lift_run _ _)).
  rewrite (bind_ok _ _ _ _ _ (upsert_batches_run env _ tenant_id batch_size
                                _ Hindex _)).
  rewrite ret_run, ids_of_zip, !length_map, firstn_all.
  set (vectors :=
         map (VectorService.to_vector tenant_id)
           (zip docs (map embed (map ix_content docs)))).
  assert (Hlen : length vectors = length (map ix_content docs)).
  { unfold vectors. rewrite length_map, map_map, length_zip_map.
    now rewrite length_map. }
  assert (Hsame :
    map (fun j => length (slice vectors j (j + batch_size)))
      (range_from (Z.to_nat (Z.abs (len vectors - 0))) 0 (len vectors)
         batch_size)
    = map (fun j => length (slice (map ix_content docs) j (j + batch_size)))
        (range_from (Z.to_nat (Z.abs (len (map ix_content docs) - 0))) 0
           (len (map ix_content docs)) batch_size)).
  { unfold len. rewrite Hlen. apply map_ext. intros j.
    now apply slice_same_length. }
  rewrite Hsame.
  eexists _, _. split; [reflexivity|].
  split; [unfold only_logged; norm_state; reflexivity|].
  split; [norm_state; now rewrite <- app_assoc|].
  rewrite length_map in Hcut. exact Hcut.
Qed.

Lemma upsert_documents_batch_indexes_all_witness :
  exists sizes s',
    VectorService.upsert_documents_batch echo_env three_to_index "1" 2
        never_synced
      = (Ok (map ix_id three_to_index), s') /\
    only_logged never_synced s' /\
    log s' = log never_synced ++ embedding_calls sizes ++ upsert_calls sizes /\
    cut_into 2 (length three_to_index) sizes.
Proof.
  apply (upsert_documents_batch_indexes_all echo_env (fun _ => []));
    [lia | intros batch; reflexivity | intros vectors ns; reflexivity].
Defined.

Lemma range_from_backwards fuel stop step :
  step < 0 -> 0 <= stop -> range_from fuel 0 stop step = [].
Proof.
  intros Hstep Hstop. destruct fuel as [|fuel]; [reflexivity|]. simpl.
  destruct (Z.ltb_spec 0 step); [lia|].
  destruct (Z.ltb_spec stop 0); [lia|reflexivity].
Qed.

Lemma create_embeddings_batch_not_positive env texts batch_size s :
  batch_size <= 0 ->
  AIService.create_embeddings_batch env texts batch_size s
    = (if batch_size =? 0
       then Raise (ValueError "range() arg 3 must not be zero")
       else Ok [], s).
Proof.
  intros Hbs. unfold AIService.create_embeddings_batch, range.
  destruct (Z.eqb_spec batch_size 0) as [->|Hne]; [reflexivity|].
  rewrite (bind_ok _ _ _ _ _ (lift_run _ _)).
  rewrite range_from_backwards by (unfold len; lia). reflexivity.
Qed.

(** X25. A batch size that is not positive is not refused as such.  With
    a batch size of 0 both [create_embeddings_batch] and, for documents
    to index, [upsert_documents_batch] raise the [ValueError] of
    [range]; with a negative batch size both return the empty list
    without an error: no text is embedded and no document is indexed.
    In both cases no request is sent and nothing changes. *)
Theorem batch_size_not_positive
    env texts documents_ tenant_id batch_size s :
  batch_size <= 0 ->
  documents_ <> [] ->
  AIService.create_embeddings_batch env texts batch_size s
    = (if batch_size =? 0
       then Raise (ValueError "range() arg 3 must not be zero")
       else Ok [], s) /\
  VectorService.upsert_documents_batch env documents_ tenant_id batch_size s
    = (if batch_size =? 0
       then Raise (ValueError "range() arg 3 must not be zero")
       else Ok [], s).
Proof.
  intros Hbs Hdocs.
  split; [now apply create_embeddings_batch_not_positive|].
  destruct documents_ as [|d ds]; [congruence|].
  remember (d :: ds) as docs eqn:Heq.
  assert (Hrun :
    VectorService.upsert_documents_batch env docs tenant_id batch_size s =
      (embeddings ←
         AIService.create_embeddings_batch env (map ix_content docs)
           batch_size;
       let pairs := zip docs embeddings in
       let ids := map (fun p => ix_id (fst p)) pairs in
       let vectors := map (VectorService.to_vector tenant_id) pairs in
       indices ← lift (range 0 (len vectors) batch_size);
       for_each indices
         (VectorService.upsert_batch env vectors tenant_id batch_size);;
       mret ids) s) by (subst docs; reflexivity).
  rewrite Hrun. clear Hrun.
  pose proof (create_embeddings_batch_not_positive env
                (map ix_content docs) batch_size s Hbs) as Hemb.
  destruct (Z.eqb_spec batch_size 0) as [Hz|Hne].
  - now rewrite (bind_raise _ _ _ _ _ Hemb).
  - rewrite (bind_ok _ _ _ _ _ Hemb). cbv zeta.
    replace (zip docs []) with (@nil (IndexDoc * embedding))
      by (now destruct docs).
    cbn [map]. unfold range.
    destruct (Z.eqb_spec batch_size 0); [lia|]. reflexivity.
Qed.

Lemma batch_size_not_positive_witness :
  AIService.create_embeddings_batch echo_env ["a"; "b"; "c"] (-1)
      never_synced
    = (Ok [], never_synced) /\
  VectorService.upsert_documents_batch echo_env three_to_index "1" (-1)
      never_synced
    = (Ok [], never_synced).
Proof.
  apply (batch_size_not_positive echo_env ["a"; "b"; "c"] three_to_index "1"
           (-1) never_synced); [lia | discriminate].
Defined.

(** X26. The ids that [upsert_documents_batch] reports are those of the
    first [k] documents, in order, where [k] is the number of embeddings
    that [create_embeddings_batch] returned for their contents: it never
    reports an id it was not given, and when the client returns fewer
    embeddings than inputs the documents after the [k]-th are left out
    without an error. *)
Theorem upsert_documents_batch_reports_embedded
    env documents_ tenant_id batch_size s ids s' :
  documents_ <> [] ->
  VectorService.upsert_documents_batch env documents_ tenant_id batch_size s
    = (Ok ids, s') ->
  exists embeddings s1,
    AIService.create_embeddings_batch env (map ix_content documents_)
        batch_size s
      = (Ok embeddings, s1) /\
    ids = map ix_id (firstn (length embeddings) documents_).
Proof.
  intros Hdocs Hrun.
  destruct documents_ as [|d ds]; [congruence|].
  remember (d :: ds) as docs eqn:Heq.
  assert (Hdef :
    VectorService.upsert_documents_batch env docs tenant_id batch_size s =
      (embeddings ←
         AIService.create_embeddings_batch env (map ix_content docs)
           batch_size;
       let pairs := zip docs embeddings in
       let ids := map (fun p => ix_id (fst p)) pairs in
       let vectors := map (VectorService.to_vector tenant_id) pairs in
       indices ← lift (range 0 (len vectors) batch_size);
       for_each indices
         (VectorService.upsert_batch env vectors tenant_id batch_size);;
       mret ids) s) by (subst docs; reflexivity).
  rewrite Hdef in Hrun. clear Hdef.
  destruct (AIService.create_embeddings_batch env (map ix_content docs)
              batch_size s) as [[embeddings|e] s1] eqn:Hemb.
  - exists embeddings, s1. split; [reflexivity|].
    rewrite (bind_ok _ _ _ _ _ Hemb) in Hrun. cbv zeta in Hrun.
    destruct (range 0
                (len (map (VectorService.to_vector tenant_id)
                        (zip docs embeddings))) batch_size)
      as [indices|e] eqn:Hrange.
    + rewrite (bind_ok _ _ _ _ _ (lift_run _ _)) in Hrun.
      destruct (for_each indices
                  (VectorService.upsert_batch env
                     (map (VectorService.to_vector tenant_id)
                        (zip docs embeddings)) tenant_id batch_size) s1)
        as [[[]|e] s2] eqn:Hloop.
      * rewrite (bind_ok _ _ _ _ _ Hloop), ret_run in Hrun.
        injection Hrun as <- _. apply ids_of_zip.
      * rewrite (bind_raise _ _ _ _ _ Hloop) in Hrun. discriminate.
    + unfold mbind, M_bind, lift in Hrun. discriminate.
  - rewrite (bind_raise _ _ _ _ _ Hemb) in Hrun. discriminate.
Qed.

Lemma upsert_documents_batch_reports_embedded_witness :
  exists embeddings s1,
    AIService.create_embeddings_batch one_embedding_env
        (map ix_content three_to_index) 2 never_synced
      = (Ok embeddings, s1) /\
    ["d1"; "d2"] = map ix_id (firstn (length embeddings) three_to_index).
Proof.
  apply (upsert_documents_batch_reports_embedded one_embedding_env
           three_to_index "1" 2 never_synced ["d1"; "d2"]
           (snd (VectorService.upsert_documents_batch one_embedding_env
                   three_to_index "1" 2 never_synced)));
    [discriminate | vm_compute; reflexivity].
Defined.
